(** * SimpleSkyNode: a shallow embedding of osgEarth's simple sky driver

    The development follows [src/osgEarthDrivers/sky_simple/SimpleSkyNode.cpp]:
    the two mesh builders, the scattering uniforms, the star catalogue
    filter and colouring, and the per-view registry with its date/time
    propagation, visibility switches and cull traversal.

    Numbers are IEEE 754 values ([spec_float]) in the two formats the C++
    code uses: [float] is binary32 and [double] is binary64, every operation
    rounding to nearest even.  Functions of libm, of OpenSceneGraph and of the
    stream library are fields of the class [Host]. *)

From Stdlib Require Import ZArith List Bool Lia Ascii String QArith Qabs.
From Stdlib Require Import Floats.SpecFloat.
From stdpp Require Import gmap strings.

Local Open Scope Z_scope.

(** ** IEEE 754 formats *)

#[global] Instance spec_float_eq_dec : EqDecision spec_float.
Proof. solve_decision. Defined.

(** C++ [float]. *)
Module F32.
Definition prec : Z := 24.
Definition emax : Z := 128.
Definition t : Type := spec_float.
Definition add : t -> t -> t := SFadd prec emax.
Definition sub : t -> t -> t := SFsub prec emax.
Definition mul : t -> t -> t := SFmul prec emax.
Definition div : t -> t -> t := SFdiv prec emax.
Definition opp : t -> t := SFopp.
Definition ltb : t -> t -> bool := SFltb.
Definition leb : t -> t -> bool := SFleb.
(** conversion of an [int] *)
Definition of_int (z : Z) : t := binary_normalize prec emax z 0 false.
(** the literal [n/d] for integers that the format holds exactly: the
    quotient is rounded once, as the compiler rounds the decimal literal *)
Definition lit (n d : Z) : t := div (of_int n) (of_int d).
(** conversion of a [double] *)
Definition of_double (x : spec_float) : t :=
  match x with
  | S754_finite s m e => binary_round prec emax s m e
  | _ => x
  end.
End F32.

(** C++ [double]. *)
Module F64.
Definition prec : Z := 53.
Definition emax : Z := 1024.
Definition t : Type := spec_float.
Definition add : t -> t -> t := SFadd prec emax.
Definition sub : t -> t -> t := SFsub prec emax.
Definition mul : t -> t -> t := SFmul prec emax.
Definition div : t -> t -> t := SFdiv prec emax.
Definition opp : t -> t := SFopp.
Definition ltb : t -> t -> bool := SFltb.
Definition leb : t -> t -> bool := SFleb.
Definition of_int (z : Z) : t := binary_normalize prec emax z 0 false.
Definition lit (n d : Z) : t := div (of_int n) (of_int d).
(** promotion of a [float]; exact *)
Definition of_float (x : spec_float) : t :=
  match x with
  | S754_finite s m e => binary_round prec emax s m e
  | _ => x
  end.
End F64.

(** the arithmetic is evaluated by [vm_compute] only *)
#[global] Arguments F32.add : simpl never.
#[global] Arguments F32.sub : simpl never.
#[global] Arguments F32.mul : simpl never.
#[global] Arguments F32.div : simpl never.
#[global] Arguments F32.opp : simpl never.
#[global] Arguments F32.ltb : simpl never.
#[global] Arguments F32.leb : simpl never.
#[global] Arguments F32.of_int : simpl never.
#[global] Arguments F32.lit : simpl never.
#[global] Arguments F32.of_double : simpl never.
#[global] Arguments F64.add : simpl never.
#[global] Arguments F64.sub : simpl never.
#[global] Arguments F64.mul : simpl never.
#[global] Arguments F64.div : simpl never.
#[global] Arguments F64.opp : simpl never.
#[global] Arguments F64.ltb : simpl never.
#[global] Arguments F64.leb : simpl never.
#[global] Arguments F64.of_int : simpl never.
#[global] Arguments F64.lit : simpl never.
#[global] Arguments F64.of_float : simpl never.

Definition is_nan (x : spec_float) : bool :=
  match x with S754_nan => true | _ => false end.

(** ** OpenSceneGraph value types *)

Record Vec2 := mkVec2 { v2x : F32.t; v2y : F32.t }.
Record Vec3 := mkVec3 { v3x : F32.t; v3y : F32.t; v3z : F32.t }.
Record Vec3d := mkVec3d { dx : F64.t; dy : F64.t; dz : F64.t }.
Record Vec4 := mkVec4 { v4x : F32.t; v4y : F32.t; v4z : F32.t; v4w : F32.t }.

(** [osg::Vec3(x, y, z)] called with [double] arguments *)
Definition Vec3_of_doubles (x y z : F64.t) : Vec3 :=
  mkVec3 (F32.of_double x) (F32.of_double y) (F32.of_double z).

Definition Vec2_of_doubles (x y : F64.t) : Vec2 :=
  mkVec2 (F32.of_double x) (F32.of_double y).

(** [osg::Vec3d] converted to [osg::Vec3] *)
Definition Vec3_of_Vec3d (v : Vec3d) : Vec3 := Vec3_of_doubles (dx v) (dy v) (dz v).

(** a 4x4 matrix of doubles, row after row *)
Definition Matrixd : Type := list F64.t.

Record EllipsoidModel := mkEllipsoid { getRadiusEquator : F64.t; getRadiusPolar : F64.t }.

(** Modelled from the spec: [osgEarth::DateTime] is not among the sources;
    a simulated date/time is a calendar date and the hours of the day. *)
Record DateTime := mkDateTime {
  year : Z; month : Z; day : Z;
  hours : F64.t
}.

(** ** The host: libm, OpenSceneGraph, stream extraction *)

Class Host := {
  cos : F64.t -> F64.t;
  sin : F64.t -> F64.t;
  powf : F32.t -> F32.t -> F32.t;
  (** [osg::DegreesToRadians], the [float] and the [double] overload *)
  DegreesToRadians_f : F32.t -> F32.t;
  DegreesToRadians : F64.t -> F64.t;
  (** [osg::EllipsoidModel::convertLatLongHeightToXYZ] *)
  convertLatLongHeightToXYZ : EllipsoidModel -> F64.t -> F64.t -> F64.t -> Vec3d;
  (** [osg::Vec3f]: [normalize], [length], the dot product [operator*] *)
  Vec3_normalize : Vec3 -> Vec3;
  Vec3_length : Vec3 -> F32.t;
  Vec3_dot : Vec3 -> Vec3 -> F32.t;
  (** [operator/] of a vector by a scalar *)
  Vec3_div : Vec3 -> F32.t -> Vec3;
  Vec3d_normalize : Vec3d -> Vec3d;
  (** [osg::Matrixd::translate] and [osg::Matrixd::rotate(angle, x, y, z)] *)
  Matrixd_translate : F64.t -> F64.t -> F64.t -> Matrixd;
  Matrixd_rotate : F64.t -> F64.t -> F64.t -> F64.t -> Matrixd;
  (** the matrix of a default-constructed [osg::Matrixd] *)
  Matrixd_identity : Matrixd;
  (** the value of a default-constructed [DateTime] *)
  DateTime_default : DateTime;
  (** [std::stringstream(buff) >> value] for a [double] *)
  read_double : string -> F64.t;
  (** [osgEarth::as<float>(str, default)] *)
  as_float : string -> F32.t -> F32.t;
  (** the built-in star table of osgEarthUtil/StarData, one line per star *)
  s_defaultStarData : list string
}.

(** ** Loops *)

(** the values [lo, lo+1, ..., hi-1] of [for (int i = lo; i < hi; ++i)] *)
Definition int_range (lo hi : Z) : list Z :=
  map (fun k => lo + Z.of_nat k) (seq 0 (Z.to_nat (hi - lo))).

Definition for_loop {A : Type} (lo hi : Z) (body : A -> Z -> A) (init : A) : A :=
  fold_left body (int_range lo hi) init.

(** ** MeshFactory *)

Definition GLushort_of_int (i : Z) : Z := i mod 65536.

Record Geometry := mkGeometry {
  verts : list Vec3;
  texCoords : option (list Vec2);
  normals : option (list Vec3);
  el : list Z
}.

Definition push_vert (v : Vec3) (g : Geometry) : Geometry :=
  mkGeometry (verts g ++ [v]) (texCoords g) (normals g) (el g).
Definition push_texCoord (c : Vec2) (g : Geometry) : Geometry :=
  mkGeometry (verts g) (option_map (fun l => l ++ [c]) (texCoords g)) (normals g) (el g).
Definition push_normal (n : Vec3) (g : Geometry) : Geometry :=
  mkGeometry (verts g) (texCoords g) (option_map (fun l => l ++ [n]) (normals g)) (el g).
Definition push_el (i : Z) (g : Geometry) : Geometry :=
  mkGeometry (verts g) (texCoords g) (normals g) (el g ++ [GLushort_of_int i]).

(** the six indices of the quad at row [y], column [x] *)
Definition quad_indices (lonSegments y x : Z) : list Z :=
  let x_plus_1 := if x <? lonSegments - 1 then x + 1 else 0 in
  map GLushort_of_int
    [y * lonSegments + x; (y + 1) * lonSegments + x; y * lonSegments + x_plus_1;
     y * lonSegments + x_plus_1; (y + 1) * lonSegments + x; (y + 1) * lonSegments + x_plus_1].

Section MeshFactory.
Context `{Host}.

(** body of the inner loop of [s_makeEllipsoidGeometry] *)
Definition ellipsoid_cell (ellipsoid : EllipsoidModel) (hae : F64.t) (genTexCoords : bool)
    (latSegments lonSegments : Z) (segmentSize : F64.t) (y : Z) (lat : F64.t)
    (g : Geometry) (x : Z) : Geometry :=
  let lon := F64.add (F64.opp (F64.of_int 180)) (F64.mul segmentSize (F64.of_int x)) in
  let p := convertLatLongHeightToXYZ ellipsoid (DegreesToRadians lat) (DegreesToRadians lon) hae in
  let g := push_vert (Vec3_of_Vec3d p) g in
  let g :=
    if genTexCoords then
      let s := F64.div (F64.add lon (F64.of_int 180)) (F64.of_int 360) in
      let t := F64.div (F64.add lat (F64.of_int 90)) (F64.of_int 180) in
      push_texCoord (Vec2_of_doubles s t) g
    else g in
  let g :=
    match normals g with
    | Some _ => push_normal (Vec3_normalize (Vec3_of_Vec3d p)) g
    | None => g
    end in
  if y <? latSegments then
    let x_plus_1 := if x <? lonSegments - 1 then x + 1 else 0 in
    let y_plus_1 := y + 1 in
    push_el (y_plus_1 * lonSegments + x_plus_1)
     (push_el (y_plus_1 * lonSegments + x)
      (push_el (y * lonSegments + x_plus_1)
       (push_el (y * lonSegments + x_plus_1)
        (push_el (y_plus_1 * lonSegments + x)
         (push_el (y * lonSegments + x) g)))))
  else g.

(** body of the outer loop *)
Definition ellipsoid_row (ellipsoid : EllipsoidModel) (hae : F64.t) (genTexCoords : bool)
    (latSegments lonSegments : Z) (segmentSize : F64.t) (g : Geometry) (y : Z) : Geometry :=
  let lat := F64.add (F64.opp (F64.of_int 90)) (F64.mul segmentSize (F64.of_int y)) in
  for_loop 0 lonSegments
    (ellipsoid_cell ellipsoid hae genTexCoords latSegments lonSegments segmentSize y lat) g.

Definition s_makeEllipsoidGeometry (ellipsoid : EllipsoidModel) (outerRadius : F64.t)
    (genTexCoords : bool) : Geometry :=
  let hae := F64.sub outerRadius (getRadiusEquator ellipsoid) in
  let latSegments := 100 in
  let lonSegments := 2 * latSegments in
  let segmentSize := F64.div (F64.of_int 180) (F64.of_int latSegments) in
  let geom :=
    if genTexCoords then mkGeometry [] (Some []) (Some []) []
    else mkGeometry [] None None [] in
  for_loop 0 (latSegments + 1)
    (ellipsoid_row ellipsoid hae genTexCoords latSegments lonSegments segmentSize) geom.

(** [deltaAngle], the quotient [360.0/(float)segments] stored in a [float] *)
Definition disc_deltaAngle (segments : Z) : F32.t :=
  F32.of_double (F64.div (F64.of_int 360) (F64.of_float (F32.of_int segments))).

(** perimeter vertex [i], at the angle of [deltaAngle * (float)i] degrees *)
Definition disc_vertex (radius : F64.t) (deltaAngle : F32.t) (i : Z) : Vec3 :=
  let angle := F64.of_float (DegreesToRadians_f (F32.mul deltaAngle (F32.of_int i))) in
  let x := F64.mul radius (cos angle) in
  let y := F64.mul radius (sin angle) in
  Vec3_of_doubles x y (F64.of_int 0).

(** body of the loop of [s_makeDiscGeometry] *)
Definition disc_segment (radius : F64.t) (segments : Z) (deltaAngle : F32.t)
    (g : Geometry) (i : Z) : Geometry :=
  let g := push_vert (disc_vertex radius deltaAngle i) g in
  let i_plus_1 := if i <? segments - 1 then i + 1 else 0 in
  push_el (1 + i) (push_el (1 + i_plus_1) (push_el 0 g)).

Definition s_makeDiscGeometry (radius : F64.t) : Geometry :=
  let segments := 48 in
  let deltaAngle := disc_deltaAngle segments in
  let geom := mkGeometry [mkVec3 (F32.of_int 0) (F32.of_int 0) (F32.of_int 0)] None None [] in
  for_loop 0 segments (disc_segment radius segments deltaAngle) geom.

End MeshFactory.

(** ** Constants *)

(** [osg::PI], the double nearest to 3.14159265358979323846 *)
Definition PI : F64.t := S754_finite false 7074237752028440 (-51).
(** [TWO_PI], the double nearest to 6.283185307179586476925286766559 *)
Definition TWO_PI : F64.t := S754_finite false 7074237752028440 (-50).
(** [DBL_MAX] and [DBL_MIN] of <float.h>: the largest finite double and
    the smallest positive normal double *)
Definition DBL_MAX : F64.t := S754_finite false 9007199254740991 971.
Definition DBL_MIN : F64.t := S754_finite false 4503599627370496 (-1074).

(** ** Scene objects *)

(** the ephemeris of the sky node *)
Record Ephemeris := mkEphemeris {
  getSunPositionECEF : DateTime -> Vec3d;
  getMoonPositionECEF : DateTime -> Vec3d;
  getECEFfromRADecl : F64.t -> F64.t -> F64.t -> Vec3d
}.

Record Light := mkLight {
  lightNum : Z;
  position : Vec4;
  ambient : Vec4;
  diffuse : Vec4;
  specular : Vec4
}.

(** the shared subgraphs a transform or a group can hold *)
Inductive NodeRef :=
  | n_atmosphere | n_sun | n_sun_billboard | n_moon | n_moon_geode | n_stars | n_traverse.

Record MatrixTransform := mkMatrixTransform {
  matrix : Matrixd;
  nodeMask : Z;
  children : list NodeRef
}.

(** children of a cull container: the transforms of the same per-view
    record, held by reference, and shared subgraphs *)
Inductive ContainerChild :=
  | c_sunXform | c_moonXform | c_starsXform | c_node (n : NodeRef).

Record Group := mkGroup {
  group_children : list ContainerChild;
  (** the stateset holds the light direction uniform of the same record *)
  group_has_lightPosUniform : bool
}.

Record PerViewData := mkPerViewData {
  _light : option Light;
  _lightPosUniform : option Vec3;
  _lightPos : Vec3;
  _cullContainer : option Group;
  _sunXform : option MatrixTransform;
  _moonXform : option MatrixTransform;
  _starsXform : option MatrixTransform;
  _sunMatrix : Matrixd;
  _moonMatrix : Matrixd;
  _starsMatrix : Matrixd;
  _date : DateTime
}.

Definition with_light v d := mkPerViewData v (_lightPosUniform d) (_lightPos d) (_cullContainer d)
  (_sunXform d) (_moonXform d) (_starsXform d) (_sunMatrix d) (_moonMatrix d) (_starsMatrix d) (_date d).
Definition with_lightPosUniform v d := mkPerViewData (_light d) v (_lightPos d) (_cullContainer d)
  (_sunXform d) (_moonXform d) (_starsXform d) (_sunMatrix d) (_moonMatrix d) (_starsMatrix d) (_date d).
Definition with_lightPos v d := mkPerViewData (_light d) (_lightPosUniform d) v (_cullContainer d)
  (_sunXform d) (_moonXform d) (_starsXform d) (_sunMatrix d) (_moonMatrix d) (_starsMatrix d) (_date d).
Definition with_cullContainer v d := mkPerViewData (_light d) (_lightPosUniform d) (_lightPos d) v
  (_sunXform d) (_moonXform d) (_starsXform d) (_sunMatrix d) (_moonMatrix d) (_starsMatrix d) (_date d).
Definition with_sunXform v d := mkPerViewData (_light d) (_lightPosUniform d) (_lightPos d)
  (_cullContainer d) v (_moonXform d) (_starsXform d) (_sunMatrix d) (_moonMatrix d) (_starsMatrix d) (_date d).
Definition with_moonXform v d := mkPerViewData (_light d) (_lightPosUniform d) (_lightPos d)
  (_cullContainer d) (_sunXform d) v (_starsXform d) (_sunMatrix d) (_moonMatrix d) (_starsMatrix d) (_date d).
Definition with_starsXform v d := mkPerViewData (_light d) (_lightPosUniform d) (_lightPos d)
  (_cullContainer d) (_sunXform d) (_moonXform d) v (_sunMatrix d) (_moonMatrix d) (_starsMatrix d) (_date d).
Definition with_sunMatrix v d := mkPerViewData (_light d) (_lightPosUniform d) (_lightPos d)
  (_cullContainer d) (_sunXform d) (_moonXform d) (_starsXform d) v (_moonMatrix d) (_starsMatrix d) (_date d).
Definition with_moonMatrix v d := mkPerViewData (_light d) (_lightPosUniform d) (_lightPos d)
  (_cullContainer d) (_sunXform d) (_moonXform d) (_starsXform d) (_sunMatrix d) v (_starsMatrix d) (_date d).
Definition with_starsMatrix v d := mkPerViewData (_light d) (_lightPosUniform d) (_lightPos d)
  (_cullContainer d) (_sunXform d) (_moonXform d) (_starsXform d) (_sunMatrix d) (_moonMatrix d) v (_date d).
Definition with_date v d := mkPerViewData (_light d) (_lightPosUniform d) (_lightPos d)
  (_cullContainer d) (_sunXform d) (_moonXform d) (_starsXform d) (_sunMatrix d) (_moonMatrix d)
  (_starsMatrix d) v.

Definition setMatrix (m : Matrixd) (x : MatrixTransform) : MatrixTransform :=
  mkMatrixTransform m (nodeMask x) (children x).
Definition setNodeMask (mask : Z) (x : MatrixTransform) : MatrixTransform :=
  mkMatrixTransform (matrix x) mask (children x).
Definition addChild (c : NodeRef) (x : MatrixTransform) : MatrixTransform :=
  mkMatrixTransform (matrix x) (nodeMask x) (children x ++ [c]).
Definition setPosition (p : Vec4) (l : Light) : Light :=
  mkLight (lightNum l) p (ambient l) (diffuse l) (specular l).
Definition setAmbient (a : Vec4) (l : Light) : Light :=
  mkLight (lightNum l) (position l) a (diffuse l) (specular l).
Definition setLightNum (n : Z) (l : Light) : Light :=
  mkLight n (position l) (ambient l) (diffuse l) (specular l).

(** the node mask [visible ? ~0 : 0], an [unsigned int] *)
Definition mask_of (visible : bool) : Z := if visible then 4294967295 else 0.

Inductive UniformValue :=
  | U_float (f : F32.t)
  | U_int (i : Z)
  | U_vec3 (v : Vec3).

Record StarData := mkStarData {
  name : string;
  right_ascension : F64.t;
  declination : F64.t;
  magnitude : F64.t
}.

Record StarGeometry := mkStarGeometry {
  coords : list Vec3;
  colors : list Vec4
}.

(** the state of the base class [SkyNode] that this driver reads *)
Record SkyNode := mkSkyNode {
  _dateTime : DateTime;
  _ephemeris : Ephemeris;
  _sunVisible : bool;
  _moonVisible : bool;
  _starsVisible : bool;
  _minStarMagnitude : F32.t
}.

Record SimpleSkyNode := mkSimpleSkyNode {
  base : SkyNode;
  starFile : option string;
  _defaultPerViewData : PerViewData;
  _perViewData : gmap N PerViewData;
  _ellipsoidModel : option EllipsoidModel;
  _innerRadius : F32.t;
  _outerRadius : F32.t;
  _sunDistance : F32.t;
  _starRadius : F32.t;
  _moonPosition : Vec3d;
  _autoAmbience : bool;
  _atmosphere : option Geometry;
  _sun : option Geometry;
  _moon : option Geometry;
  _stars : option StarGeometry;
  stateset : gmap string UniformValue
}.

Definition getDateTime (n : SimpleSkyNode) : DateTime := _dateTime (base n).
Definition getEphemeris (n : SimpleSkyNode) : Ephemeris := _ephemeris (base n).
Definition getSunVisible (n : SimpleSkyNode) : bool := _sunVisible (base n).
Definition getMoonVisible (n : SimpleSkyNode) : bool := _moonVisible (base n).
Definition getStarsVisible (n : SimpleSkyNode) : bool := _starsVisible (base n).

Definition with_base v n := mkSimpleSkyNode v (starFile n) (_defaultPerViewData n) (_perViewData n)
  (_ellipsoidModel n) (_innerRadius n) (_outerRadius n) (_sunDistance n) (_starRadius n)
  (_moonPosition n) (_autoAmbience n) (_atmosphere n) (_sun n) (_moon n) (_stars n) (stateset n).
Definition with_defaultPerViewData v n := mkSimpleSkyNode (base n) (starFile n) v (_perViewData n)
  (_ellipsoidModel n) (_innerRadius n) (_outerRadius n) (_sunDistance n) (_starRadius n)
  (_moonPosition n) (_autoAmbience n) (_atmosphere n) (_sun n) (_moon n) (_stars n) (stateset n).
Definition with_perViewData v n := mkSimpleSkyNode (base n) (starFile n) (_defaultPerViewData n) v
  (_ellipsoidModel n) (_innerRadius n) (_outerRadius n) (_sunDistance n) (_starRadius n)
  (_moonPosition n) (_autoAmbience n) (_atmosphere n) (_sun n) (_moon n) (_stars n) (stateset n).
Definition with_radii ri ro sd n := mkSimpleSkyNode (base n) (starFile n) (_defaultPerViewData n)
  (_perViewData n) (_ellipsoidModel n) ri ro sd (_starRadius n)
  (_moonPosition n) (_autoAmbience n) (_atmosphere n) (_sun n) (_moon n) (_stars n) (stateset n).
Definition with_ellipsoidModel v n := mkSimpleSkyNode (base n) (starFile n) (_defaultPerViewData n)
  (_perViewData n) v (_innerRadius n) (_outerRadius n) (_sunDistance n) (_starRadius n)
  (_moonPosition n) (_autoAmbience n) (_atmosphere n) (_sun n) (_moon n) (_stars n) (stateset n).
Definition with_starRadius v n := mkSimpleSkyNode (base n) (starFile n) (_defaultPerViewData n)
  (_perViewData n) (_ellipsoidModel n) (_innerRadius n) (_outerRadius n) (_sunDistance n) v
  (_moonPosition n) (_autoAmbience n) (_atmosphere n) (_sun n) (_moon n) (_stars n) (stateset n).
Definition with_moonPosition v n := mkSimpleSkyNode (base n) (starFile n) (_defaultPerViewData n)
  (_perViewData n) (_ellipsoidModel n) (_innerRadius n) (_outerRadius n) (_sunDistance n)
  (_starRadius n) v (_autoAmbience n) (_atmosphere n) (_sun n) (_moon n) (_stars n) (stateset n).
Definition with_autoAmbience v n := mkSimpleSkyNode (base n) (starFile n) (_defaultPerViewData n)
  (_perViewData n) (_ellipsoidModel n) (_innerRadius n) (_outerRadius n) (_sunDistance n)
  (_starRadius n) (_moonPosition n) v (_atmosphere n) (_sun n) (_moon n) (_stars n) (stateset n).
Definition with_atmosphere v n := mkSimpleSkyNode (base n) (starFile n) (_defaultPerViewData n)
  (_perViewData n) (_ellipsoidModel n) (_innerRadius n) (_outerRadius n) (_sunDistance n)
  (_starRadius n) (_moonPosition n) (_autoAmbience n) v (_sun n) (_moon n) (_stars n) (stateset n).
Definition with_sun v n := mkSimpleSkyNode (base n) (starFile n) (_defaultPerViewData n)
  (_perViewData n) (_ellipsoidModel n) (_innerRadius n) (_outerRadius n) (_sunDistance n)
  (_starRadius n) (_moonPosition n) (_autoAmbience n) (_atmosphere n) v (_moon n) (_stars n) (stateset n).
Definition with_moon v n := mkSimpleSkyNode (base n) (starFile n) (_defaultPerViewData n)
  (_perViewData n) (_ellipsoidModel n) (_innerRadius n) (_outerRadius n) (_sunDistance n)
  (_starRadius n) (_moonPosition n) (_autoAmbience n) (_atmosphere n) (_sun n) v (_stars n) (stateset n).
Definition with_stars v n := mkSimpleSkyNode (base n) (starFile n) (_defaultPerViewData n)
  (_perViewData n) (_ellipsoidModel n) (_innerRadius n) (_outerRadius n) (_sunDistance n)
  (_starRadius n) (_moonPosition n) (_autoAmbience n) (_atmosphere n) (_sun n) (_moon n) v (stateset n).
Definition with_stateset v n := mkSimpleSkyNode (base n) (starFile n) (_defaultPerViewData n)
  (_perViewData n) (_ellipsoidModel n) (_innerRadius n) (_outerRadius n) (_sunDistance n)
  (_starRadius n) (_moonPosition n) (_autoAmbience n) (_atmosphere n) (_sun n) (_moon n) (_stars n) v.

Definition with_dateTime v b := mkSkyNode v (_ephemeris b) (_sunVisible b) (_moonVisible b)
  (_starsVisible b) (_minStarMagnitude b).
Definition with_ephemeris v b := mkSkyNode (_dateTime b) v (_sunVisible b) (_moonVisible b)
  (_starsVisible b) (_minStarMagnitude b).
Definition with_sunVisible v b := mkSkyNode (_dateTime b) (_ephemeris b) v (_moonVisible b)
  (_starsVisible b) (_minStarMagnitude b).
Definition with_moonVisible v b := mkSkyNode (_dateTime b) (_ephemeris b) (_sunVisible b) v
  (_starsVisible b) (_minStarMagnitude b).
Definition with_starsVisible v b := mkSkyNode (_dateTime b) (_ephemeris b) (_sunVisible b)
  (_moonVisible b) v (_minStarMagnitude b).
Definition with_minStarMagnitude v b := mkSkyNode (_dateTime b) (_ephemeris b) (_sunVisible b)
  (_moonVisible b) (_starsVisible b) v.

(** ** The per-view registry, a [std::map<osg::View*, PerViewData>]

    A view pointer is its address, [0] the null pointer.  The map iterates
    in the order of its keys, so [begin()] is the entry of the least key. *)

Definition first_entry {V : Type} (kv : N * V) (acc : option (N * V)) : option (N * V) :=
  match acc with
  | Some kv' => if (fst kv <? fst kv')%N then Some kv else acc
  | None => Some kv
  end.

(** [m.begin()], [None] when it is [m.end()] *)
Definition map_begin {V : Type} (m : gmap N V) : option (N * V) :=
  foldr first_entry None (map_to_list m).

(** [m.find(k)], then [m.begin()] when nothing is found *)
Definition find_or_begin {V : Type} (k : N) (m : gmap N V) : option (N * V) :=
  match m !! k with
  | Some v => Some (k, v)
  | None => map_begin m
  end.

(** [m[k]]: the entry of [k], created from [dflt] when absent *)
Definition map_index {V : Type} (dflt : V) (k : N) (m : gmap N V) : V * gmap N V :=
  match m !! k with
  | Some v => (v, m)
  | None => (dflt, <[k := dflt]> m)
  end.

(** a loop over all entries whose body dereferences a pointer of the entry:
    [None] when some entry holds a null pointer there *)
Definition map_for_each {V : Type} (f : V -> option V) (m : gmap N V) : option (gmap N V) :=
  if forallb (fun kv => bool_decide (is_Some (f (snd kv)))) (map_to_list m)
  then Some ((fun v => default v (f v)) <$> m)
  else None.

(** ** What the process sees of its environment *)

Record World := mkWorld {
  (** contents of a file, [None] when it cannot be opened *)
  readFile : string -> option string;
  getenv : string -> option string;
  (** whether [osgDB::readImageFile] finds the image *)
  readImageFile : string -> bool
}.

(** ** Star catalogue *)

(** the text before the first [delim] and the text after it *)
Fixpoint split_delim (delim : ascii) (s : string) : option (string * string) :=
  match s with
  | EmptyString => None
  | String c s' =>
      if Ascii.eqb c delim then Some (EmptyString, s')
      else match split_delim delim s' with
           | Some (tok, rest) => Some (String c tok, rest)
           | None => None
           end
  end.

(** [std::getline(ss, buff, delim)] on a string stream: [ss] is the text
    left to read, [None] once the end was hit; a stream at its end leaves
    [buff] as it was. *)
Definition getline (delim : ascii) (ss : option string) (buff : string)
    : string * option string :=
  match ss with
  | None => (buff, None)
  | Some s =>
      match split_delim delim s with
      | Some (tok, rest) => (tok, Some rest)
      | None => (s, None)
      end
  end.

(** the lines [std::getline(in, line)] yields before [in.eof()] turns true:
    those that end in a newline *)
Fixpoint file_lines (line : string) (s : string) : list string :=
  match s with
  | EmptyString => []
  | String c s' =>
      if Ascii.eqb c "010"%char then line :: file_lines EmptyString s'
      else file_lines (line +:+ String c EmptyString) s'
  end.

Definition starts_with_hash (line : string) : bool :=
  match line with
  | String c _ => Ascii.eqb c "#"%char
  | EmptyString => false
  end.

Definition string_empty (line : string) : bool :=
  match line with EmptyString => true | _ => false end.

Section Stars.
Context `{Host}.

(** [StarData::StarData(std::stringstream&)] *)
Definition StarData_ctor (line : string) : StarData :=
  let ss := Some line in
  let '(name, ss) := getline ","%char ss EmptyString in
  let '(buff, ss) := getline ","%char ss EmptyString in
  let right_ascension := read_double buff in
  let '(buff, ss) := getline ","%char ss buff in
  let declination := read_double buff in
  let '(buff, ss) := getline "010"%char ss buff in
  let magnitude := read_double buff in
  mkStarData name right_ascension declination magnitude.

(** [out_stars.push_back(s)], then [pop_back()] when the magnitude of the
    last element is below the threshold *)
Definition push_star (minStarMagnitude : F32.t) (out_stars : list StarData) (s : StarData)
    : list StarData :=
  let out_stars := out_stars ++ [s] in
  if F64.ltb (magnitude (List.last out_stars s)) (F64.of_float minStarMagnitude)
  then removelast out_stars
  else out_stars.

Definition getDefaultStars (minStarMagnitude : F32.t) : list StarData :=
  fold_left (fun out_stars sptr => push_star minStarMagnitude out_stars (StarData_ctor sptr))
    s_defaultStarData [].

Definition parseStarFile (w : World) (minStarMagnitude : F32.t) (starFile : string)
    : bool * list StarData :=
  match readFile w starFile with
  | None => (false, [])
  | Some content =>
      (true,
       fold_left (fun out_stars line =>
                    if string_empty line || starts_with_hash line then out_stars
                    else push_star minStarMagnitude out_stars (StarData_ctor line))
         (file_lines EmptyString content) [])
  end.

(** first loop of [buildStarGeometry]: positions, least and greatest magnitude *)
Definition star_scan (eph : Ephemeris) (starRadius : F32.t)
    (st : list Vec3 * F64.t * F64.t) (p : StarData) : list Vec3 * F64.t * F64.t :=
  let '(coords, minMag, maxMag) := st in
  let v := getECEFfromRADecl eph (right_ascension p) (declination p) (F64.of_float starRadius) in
  let coords := coords ++ [Vec3_of_Vec3d v] in
  let minMag := if F64.ltb (magnitude p) minMag then magnitude p else minMag in
  let maxMag := if F64.ltb maxMag (magnitude p) then magnitude p else maxMag in
  (coords, minMag, maxMag).

(** the divisor of the colour computation *)
Definition star_divisor (minMag maxMag : F64.t) : F64.t := F64.sub maxMag minMag.

Definition star_color (minMag maxMag : F64.t) (p : StarData) : Vec4 :=
  let c := F32.of_double (F64.div (F64.sub (magnitude p) minMag) (star_divisor minMag maxMag)) in
  mkVec4 c c c (F32.of_int 1).

Definition buildStarGeometry (eph : Ephemeris) (starRadius : F32.t) (stars : list StarData)
    : StarGeometry :=
  let '(coords, minMag, maxMag) :=
    fold_left (star_scan eph starRadius) stars ([], DBL_MAX, DBL_MIN) in
  let colors := map (star_color minMag maxMag) stars in
  mkStarGeometry coords colors.

Definition makeStars (w : World) (n : SimpleSkyNode) : SimpleSkyNode :=
  let starRadius :=
    F32.of_double
      (F64.mul (F64.of_int 20000)
         (F64.of_float (if F64.ltb (F64.of_int 0) (F64.of_float (_sunDistance n))
                        then _sunDistance n else _outerRadius n))) in
  let n := with_starRadius starRadius n in
  let stars :=
    match starFile n with
    | Some f => snd (parseStarFile w (_minStarMagnitude (base n)) f)
    | None => []
    end in
  let stars :=
    match stars with
    | [] => getDefaultStars (_minStarMagnitude (base n))
    | _ => stars
    end in
  with_stars (Some (buildStarGeometry (getEphemeris n) (_starRadius n) stars)) n.

End Stars.

(** ** The sky node

    The node is the value of its members.  Of the scene graph the model
    keeps what the members hold: the geometry of the shared subgraphs, the
    matrix, node mask and children of each transform, the children of each
    cull container, the uniforms of the node's stateset.  Render bins,
    shaders, cameras and the settings that [attach] writes into the view
    (lighting mode, light, clear colour) belong to the host and are left out,
    as is the projection clamper that [traverse] removes and restores. *)

Record CullVisitor := mkCullVisitor {
  (** [cv->getCurrentCamera()->getView()] *)
  cv_view : N;
  (** [cv->getViewPoint()] *)
  cv_viewPoint : Vec3
}.

(** where a traversal continues *)
Inductive Traversed :=
  | into_cullContainer (view : N) (container : Group)
  | into_children.

Definition Vec4_of_Vec3 (v : Vec3) (w : F32.t) : Vec4 := mkVec4 (v3x v) (v3y v) (v3z v) w.

(** Modelled from the spec: [osg::clampBetween] of osg/Math is not among
    the sources; the value clamped to the interval from [minimum] to
    [maximum]. *)
Definition clampBetween (v minimum maximum : F32.t) : F32.t :=
  let v := if F32.ltb v minimum then minimum else v in
  if F32.ltb maximum v then maximum else v.

(** the ambient intensity that [traverse] derives from the dot product of
    the eye and sun directions *)
Definition auto_ambience (eye_dot_sun : F32.t) : F32.t :=
  let minAmb := F32.lit 2 10 in
  let maxAmb := F32.lit 92 100 in
  let minDev := F32.opp (F32.lit 2 10) in
  let maxDev := F32.lit 75 100 in
  let dev := clampBetween eye_dot_sun minDev maxDev in
  let r := F32.div (F32.sub dev minDev) (F32.sub maxDev minDev) in
  F32.add minAmb (F32.mul r (F32.sub maxAmb minAmb)).

(** the angle [rot_z] of [onSetDateTime] *)
Definition rot_z (dt : DateTime) : F64.t :=
  let time_r := F64.div (hours dt) (F64.of_int 24) in
  F64.add (F64.opp PI) (F64.mul TWO_PI time_r).

Section Sky.
Context `{Host}.

(** a default-constructed [PerViewData] *)
Definition PerViewData_new : PerViewData :=
  mkPerViewData None None (mkVec3 (F32.of_int 0) (F32.of_int 0) (F32.of_int 0)) None
    None None None Matrixd_identity Matrixd_identity Matrixd_identity DateTime_default.

(** [new osg::MatrixTransform()] *)
Definition MatrixTransform_new : MatrixTransform :=
  mkMatrixTransform Matrixd_identity (mask_of true) [].

(** the object before [initialize] runs: the base class is constructed,
    the members hold their default values; the [float] members are
    assigned before they are read *)
Definition construct (b : SkyNode) (options_starFile : option string) : SimpleSkyNode :=
  mkSimpleSkyNode b options_starFile PerViewData_new ∅ None
    (F32.of_int 0) (F32.of_int 0) (F32.of_int 0) (F32.of_int 0)
    (mkVec3d (F64.of_int 0) (F64.of_int 0) (F64.of_int 0)) false None None None None ∅.

Definition set_uniform (name : string) (v : UniformValue) (n : SimpleSkyNode) : SimpleSkyNode :=
  with_stateset (<[name := v]> (stateset n)) n.

Definition makeSceneLighting (n : SimpleSkyNode) : SimpleSkyNode :=
  let r_wl := powf (F32.lit 65 100) (F32.of_int 4) in
  let g_wl := powf (F32.lit 57 100) (F32.of_int 4) in
  let b_wl := powf (F32.lit 475 1000) (F32.of_int 4) in
  let RGB_wl := mkVec3 (F32.div (F32.of_int 1) r_wl) (F32.div (F32.of_int 1) g_wl)
                  (F32.div (F32.of_int 1) b_wl) in
  let Kr := F32.lit 25 10000 in
  let Kr4PI := F32.of_double (F64.mul (F64.of_float (F32.mul Kr (F32.of_int 4))) PI) in
  let Km := F32.lit 15 10000 in
  let Km4PI := F32.of_double (F64.mul (F64.of_float (F32.mul Km (F32.of_int 4))) PI) in
  let ESun := F32.of_int 15 in
  let MPhase := F32.opp (F32.lit 95 1000) in
  let RayleighScaleDepth := F32.lit 25 100 in
  let Samples := 2 in
  let Weather := F32.of_int 1 in
  let Scale := F32.div (F32.of_int 1) (F32.sub (_outerRadius n) (_innerRadius n)) in
  let n := set_uniform "atmos_v3InvWavelength" (U_vec3 RGB_wl) n in
  let n := set_uniform "atmos_fInnerRadius" (U_float (_innerRadius n)) n in
  let n := set_uniform "atmos_fInnerRadius2" (U_float (F32.mul (_innerRadius n) (_innerRadius n))) n in
  let n := set_uniform "atmos_fOuterRadius" (U_float (_outerRadius n)) n in
  let n := set_uniform "atmos_fOuterRadius2" (U_float (F32.mul (_outerRadius n) (_outerRadius n))) n in
  let n := set_uniform "atmos_fKrESun" (U_float (F32.mul Kr ESun)) n in
  let n := set_uniform "atmos_fKmESun" (U_float (F32.mul Km ESun)) n in
  let n := set_uniform "atmos_fKr4PI" (U_float Kr4PI) n in
  let n := set_uniform "atmos_fKm4PI" (U_float Km4PI) n in
  let n := set_uniform "atmos_fScale" (U_float Scale) n in
  let n := set_uniform "atmos_fScaleDepth" (U_float RayleighScaleDepth) n in
  let n := set_uniform "atmos_fScaleOverScaleDepth" (U_float (F32.div Scale RayleighScaleDepth)) n in
  let n := set_uniform "atmos_g" (U_float MPhase) n in
  let n := set_uniform "atmos_g2" (U_float (F32.mul MPhase MPhase)) n in
  let n := set_uniform "atmos_nSamples" (U_int Samples) n in
  let n := set_uniform "atmos_fSamples" (U_float (F32.of_int Samples)) n in
  set_uniform "atmos_fWeather" (U_float Weather) n.

Definition makeAtmosphere (em : EllipsoidModel) (n : SimpleSkyNode) : SimpleSkyNode :=
  with_atmosphere (Some (s_makeEllipsoidGeometry em (F64.of_float (_outerRadius n)) false)) n.

(** the translation [_sunDistance * lightPos] of the sun transform *)
Definition sun_translate (sunDistance : F32.t) (lightPos : Vec3) : Matrixd :=
  Matrixd_translate
    (F64.of_float (F32.mul sunDistance (v3x lightPos)))
    (F64.of_float (F32.mul sunDistance (v3y lightPos)))
    (F64.of_float (F32.mul sunDistance (v3z lightPos))).

Definition makeSun (n : SimpleSkyNode) : SimpleSkyNode :=
  let sunRadius := F32.mul (_innerRadius n) (F32.of_int 100) in
  let sun := s_makeDiscGeometry (F64.of_float (F32.mul sunRadius (F32.of_int 80))) in
  let dflt := _defaultPerViewData n in
  let xform := addChild n_sun_billboard
                 (setMatrix (sun_translate (_sunDistance n) (_lightPos dflt)) MatrixTransform_new) in
  with_sun (Some sun) (with_defaultPerViewData (with_sunXform (Some xform) dflt) n).

(** [setSunPosition(PerViewData&, pos)] *)
Definition setSunPosition_data (sunDistance : F32.t) (pos : Vec3) (data : PerViewData)
    : PerViewData :=
  let data := with_lightPos pos data in
  let data :=
    match _light data with
    | Some l => with_light (Some (setPosition (Vec4_of_Vec3 (_lightPos data) (F32.of_int 0)) l)) data
    | None => data
    end in
  let data :=
    match _lightPosUniform data with
    | Some _ => with_lightPosUniform
                  (Some (Vec3_div (_lightPos data) (Vec3_length (_lightPos data)))) data
    | None => data
    end in
  match _sunXform data with
  | Some x => with_sunXform (Some (setMatrix (sun_translate sunDistance (_lightPos data)) x)) data
  | None => data
  end.

(** [setMoonPosition(PerViewData&, pos)] *)
Definition setMoonPosition_data (pos : Vec3d) (data : PerViewData) : PerViewData :=
  match _moonXform data with
  | Some x =>
      let data := with_moonMatrix (Matrixd_translate (dx pos) (dy pos) (dz pos)) data in
      with_moonXform (Some (setMatrix (_moonMatrix data) x)) data
  | None => data
  end.

(** [setSunPosition(pos, view)] *)
Definition setSunPosition (pos : Vec3) (view : N) (n : SimpleSkyNode) : SimpleSkyNode :=
  if (view =? 0)%N then
    let n := with_defaultPerViewData
               (setSunPosition_data (_sunDistance n) pos (_defaultPerViewData n)) n in
    with_perViewData (setSunPosition_data (_sunDistance n) pos <$> _perViewData n) n
  else
    match _perViewData n !! view with
    | Some data =>
        with_perViewData (<[view := setSunPosition_data (_sunDistance n) pos data]> (_perViewData n)) n
    | None => n
    end.

(** [setMoonPosition(pos, view)] *)
Definition setMoonPosition (pos : Vec3d) (view : N) (n : SimpleSkyNode) : SimpleSkyNode :=
  let n := with_moonPosition pos n in
  if (view =? 0)%N then
    let n := with_defaultPerViewData (setMoonPosition_data pos (_defaultPerViewData n)) n in
    with_perViewData (setMoonPosition_data pos <$> _perViewData n) n
  else
    match _perViewData n !! view with
    | Some data => with_perViewData (<[view := setMoonPosition_data pos data]> (_perViewData n)) n
    | None => n
    end.

(** the star part of [onSetDateTime] for one registered view; the star
    transform is dereferenced *)
Definition setStars_data (starsMatrix : Matrixd) (dt : DateTime) (data : PerViewData)
    : option PerViewData :=
  let data := with_starsMatrix starsMatrix data in
  x ← _starsXform data;
  let data := with_starsXform (Some (setMatrix starsMatrix x)) data in
  Some (with_date dt data).

Definition onSetDateTime (n : SimpleSkyNode) : option SimpleSkyNode :=
  match _ellipsoidModel n with
  | Some _ =>
      let view := 0%N in
      let dt := getDateTime n in
      let sunPos := getSunPositionECEF (getEphemeris n) dt in
      let moonPos := getMoonPositionECEF (getEphemeris n) dt in
      let sunPos := Vec3d_normalize sunPos in
      let n := setSunPosition (Vec3_of_Vec3d sunPos) view n in
      let n := setMoonPosition moonPos view n in
      let starsMatrix :=
        Matrixd_rotate (F64.opp (rot_z dt)) (F64.of_int 0) (F64.of_int 0) (F64.of_int 1) in
      if (view =? 0)%N then
        let dflt := with_date dt (with_starsMatrix starsMatrix (_defaultPerViewData n)) in
        let n := with_defaultPerViewData dflt n in
        m ← map_for_each (setStars_data starsMatrix dt) (_perViewData n);
        Some (with_perViewData m n)
      else
        match _perViewData n !! view with
        | Some data =>
            data ← setStars_data starsMatrix dt data;
            Some (with_perViewData (<[view := data]> (_perViewData n)) n)
        | None => Some n
        end
  | None => Some n
  end.

Definition onSetEphemeris (n : SimpleSkyNode) : option SimpleSkyNode := onSetDateTime n.

(** the bodies of the loops of the visibility handlers; the transform of
    the entry is dereferenced *)
Definition mask_stars (mask : Z) (data : PerViewData) : option PerViewData :=
  x ← _starsXform data; Some (with_starsXform (Some (setNodeMask mask x)) data).
Definition mask_moon (mask : Z) (data : PerViewData) : option PerViewData :=
  x ← _moonXform data; Some (with_moonXform (Some (setNodeMask mask x)) data).
Definition mask_sun (mask : Z) (data : PerViewData) : option PerViewData :=
  x ← _sunXform data; Some (with_sunXform (Some (setNodeMask mask x)) data).

Definition onSetStarsVisible (n : SimpleSkyNode) : option SimpleSkyNode :=
  let visible := getStarsVisible n in
  match _starsXform (_defaultPerViewData n) with
  | Some x =>
      let dflt := with_starsXform (Some (setNodeMask (mask_of visible) x)) (_defaultPerViewData n) in
      let n := with_defaultPerViewData dflt n in
      m ← map_for_each (mask_stars (mask_of visible)) (_perViewData n);
      Some (with_perViewData m n)
  | None => Some n
  end.

Definition onSetMoonVisible (n : SimpleSkyNode) : option SimpleSkyNode :=
  let visible := getMoonVisible n in
  match _moonXform (_defaultPerViewData n) with
  | Some x =>
      let dflt := with_moonXform (Some (setNodeMask (mask_of visible) x)) (_defaultPerViewData n) in
      let n := with_defaultPerViewData dflt n in
      m ← map_for_each (mask_moon (mask_of visible)) (_perViewData n);
      Some (with_perViewData m n)
  | None => Some n
  end.

Definition onSetSunVisible (n : SimpleSkyNode) : option SimpleSkyNode :=
  let visible := getSunVisible n in
  match _sunXform (_defaultPerViewData n) with
  | Some x =>
      let dflt := with_sunXform (Some (setNodeMask (mask_of visible) x)) (_defaultPerViewData n) in
      let n := with_defaultPerViewData dflt n in
      m ← map_for_each (mask_sun (mask_of visible)) (_perViewData n);
      Some (with_perViewData m n)
  | None => Some n
  end.

(** Modelled from the spec: the setters of the base class [SkyNode] are
    not among the sources; each stores the new value and runs the
    handler of this driver. *)
Definition setStarsVisible (value : bool) (n : SimpleSkyNode) : option SimpleSkyNode :=
  onSetStarsVisible (with_base (with_starsVisible value (base n)) n).
Definition setMoonVisible (value : bool) (n : SimpleSkyNode) : option SimpleSkyNode :=
  onSetMoonVisible (with_base (with_moonVisible value (base n)) n).
Definition setSunVisible (value : bool) (n : SimpleSkyNode) : option SimpleSkyNode :=
  onSetSunVisible (with_base (with_sunVisible value (base n)) n).
Definition setDateTime (dt : DateTime) (n : SimpleSkyNode) : option SimpleSkyNode :=
  onSetDateTime (with_base (with_dateTime dt (base n)) n).
Definition setEphemeris (e : Ephemeris) (n : SimpleSkyNode) : option SimpleSkyNode :=
  onSetEphemeris (with_base (with_ephemeris e (base n)) n).

Definition makeMoon (w : World) (n : SimpleSkyNode) : option SimpleSkyNode :=
  let em := mkEllipsoid (F64.of_int 1738140) (F64.of_int 1735970) in
  let geom := s_makeEllipsoidGeometry em (getRadiusEquator em) true in
  let image := readImageFile w "moon_1024x512.jpg" in
  let moonPosECEF := getMoonPositionECEF (getEphemeris n) (getDateTime n) in
  let xform :=
    addChild n_moon_geode
      (setMatrix (Matrixd_translate (dx moonPosECEF) (dy moonPosECEF) (dz moonPosECEF))
         MatrixTransform_new) in
  let n := with_defaultPerViewData (with_moonXform (Some xform) (_defaultPerViewData n)) n in
  n ← (if image then Some n
       else
         let dflt := with_moonXform (Some (setNodeMask 0 xform)) (_defaultPerViewData n) in
         setMoonVisible false (with_defaultPerViewData dflt n));
  Some (with_moon (Some geom) n).

Definition attach (view : N) (lightNum : Z) (n : SimpleSkyNode) : option SimpleSkyNode :=
  if (view =? 0)%N then Some n
  else
    let '(data, m) := map_index PerViewData_new view (_perViewData n) in
    let dflt := _defaultPerViewData n in
    light ← _light dflt;
    let data := with_light (Some (setAmbient (ambient light) (setLightNum lightNum light))) data in
    let data := with_lightPos (_lightPos dflt) data in
    let data := with_sunMatrix (sun_translate (_sunDistance n) (_lightPos data)) data in
    let sunXform :=
      setNodeMask (mask_of (getSunVisible n))
        (addChild n_sun (setMatrix (_sunMatrix data) MatrixTransform_new)) in
    let data := with_sunXform (Some sunXform) data in
    let data := with_moonMatrix (_moonMatrix dflt) data in
    let moonXform :=
      setNodeMask (mask_of (getMoonVisible n))
        (addChild n_moon (setMatrix (_moonMatrix data) MatrixTransform_new)) in
    let data := with_moonXform (Some moonXform) data in
    let data := with_starsMatrix (_starsMatrix dflt) data in
    let starsXform :=
      setNodeMask (mask_of (getStarsVisible n))
        (addChild n_stars (setMatrix (_starsMatrix dflt) MatrixTransform_new)) in
    let data := with_starsXform (Some starsXform) data in
    let data := with_lightPosUniform (_lightPosUniform dflt) data in
    let container :=
      mkGroup [c_sunXform; c_moonXform; c_starsXform; c_node n_atmosphere; c_node n_traverse]
        (bool_decide (is_Some (_lightPosUniform data))) in
    let data := with_cullContainer (Some container) data in
    let data := with_date (_date dflt) data in
    onSetDateTime (with_perViewData (<[view := data]> m) n).

Definition traverse (nv : option CullVisitor) (n : SimpleSkyNode)
    : option (SimpleSkyNode * Traversed) :=
  match nv with
  | Some cv =>
      let view := cv_view cv in
      itr ← find_or_begin view (_perViewData n);
      data ← (if _autoAmbience n then
                let eye := Vec3_normalize (cv_viewPoint cv) in
                let sun := Vec3_normalize (_lightPos (snd itr)) in
                let amb := auto_ambience (Vec3_dot eye sun) in
                light ← _light (snd itr);
                Some (with_light (Some (setAmbient (mkVec4 amb amb amb (F32.of_int 1)) light))
                        (snd itr))
              else Some (snd itr));
      container ← _cullContainer data;
      Some (with_perViewData (<[fst itr := data]> (_perViewData n)) n,
            into_cullContainer (fst itr) container)
  | None => Some (n, into_children)
  end.

Definition initialize (w : World) (srs_ellipsoid : option EllipsoidModel) (n : SimpleSkyNode)
    : option SimpleSkyNode :=
  let lightPos := mkVec3 (F32.of_int 0) (F32.of_int 1) (F32.of_int 0) in
  let dflt := with_lightPos lightPos (_defaultPerViewData n) in
  let light :=
    mkLight 0 (Vec4_of_Vec3 (_lightPos dflt) (F32.of_int 0))
      (mkVec4 (F32.lit 2 10) (F32.lit 2 10) (F32.lit 2 10) (F32.of_int 2))
      (mkVec4 (F32.of_int 1) (F32.of_int 1) (F32.of_int 1) (F32.of_int 1))
      (mkVec4 (F32.of_int 0) (F32.of_int 0) (F32.of_int 0) (F32.of_int 1)) in
  let dflt := with_light (Some light) dflt in
  let dflt := with_lightPosUniform
                (Some (Vec3_div (_lightPos dflt) (Vec3_length (_lightPos dflt)))) dflt in
  let n := with_defaultPerViewData dflt n in
  let n := with_ellipsoidModel srs_ellipsoid n in
  em ← _ellipsoidModel n;
  let innerRadius := F32.of_double (getRadiusPolar em) in
  let outerRadius := F32.mul innerRadius (F32.lit 1025 1000) in
  let sunDistance := F32.mul innerRadius (F32.of_int 12000) in
  let n := with_radii innerRadius outerRadius sunDistance n in
  let n := makeSceneLighting n in
  let n := makeAtmosphere em n in
  let n := makeSun n in
  n ← makeMoon w n;
  let n :=
    if F32.ltb (_minStarMagnitude (base n)) (F32.of_int 0) then
      match getenv w "OSGEARTH_MIN_STAR_MAGNITUDE" with
      | Some magEnv =>
          with_base (with_minStarMagnitude (as_float magEnv (F32.opp (F32.of_int 1))) (base n)) n
      | None => n
      end
    else n in
  let n := makeStars w n in
  let n := with_autoAmbience false n in
  onSetDateTime n.

End Sky.

(** ** The sun position given by latitude and longitude *)

(** [osg::RadiansToDegrees] and [osg::EllipsoidModel::computeLocalUpVector] *)
Class EllipsoidHost := {
  RadiansToDegrees : F64.t -> F64.t;
  computeLocalUpVector : EllipsoidModel -> F64.t -> F64.t -> F64.t -> Vec3d
}.

(** [setSunPosition(lat_degrees, long_degrees, view)] *)
Definition setSunPosition_latlong `{Host} `{EllipsoidHost} (lat_degrees long_degrees : F64.t)
    (view : N) (n : SimpleSkyNode) : SimpleSkyNode :=
  match _ellipsoidModel n with
  | Some em =>
      let p := convertLatLongHeightToXYZ em (RadiansToDegrees lat_degrees)
                 (RadiansToDegrees long_degrees) (F64.of_int 0) in
      let up := computeLocalUpVector em (dx p) (dy p) (dz p) in
      setSunPosition (Vec3_of_Vec3d up) view n
  | None => n
  end.

(** ** A host to run the model on

    Vectors and matrices are written out; the libm functions are small
    stand-ins (the second-order cosine, the first-order sine, the fourth
    power for [powf]); numbers are read as decimal digits with an optional
    sign and fraction. *)

Definition digit_of (c : ascii) : option Z :=
  let k := Z.of_N (N_of_ascii c) in
  if (48 <=? k) && (k <=? 57) then Some (k - 48) else None.

Fixpoint read_digits (s : string) (num den : Z) (frac : bool) : Z * Z :=
  match s with
  | EmptyString => (num, den)
  | String c s' =>
      match digit_of c with
      | Some d => read_digits s' (10 * num + d) (if frac then 10 * den else den) frac
      | None =>
          if Ascii.eqb c "."%char && negb frac then read_digits s' num den true
          else (num, den)
      end
  end.

Definition read_decimal (s : string) : F64.t :=
  match s with
  | String "-"%char s' => let '(num, den) := read_digits s' 0 1 false in F64.opp (F64.lit num den)
  | _ => let '(num, den) := read_digits s 0 1 false in F64.lit num den
  end.

Definition Vec3f_length (v : Vec3) : F32.t :=
  SFsqrt F32.prec F32.emax
    (F32.add (F32.add (F32.mul (v3x v) (v3x v)) (F32.mul (v3y v) (v3y v)))
       (F32.mul (v3z v) (v3z v))).

Definition Vec3f_normalize (v : Vec3) : Vec3 :=
  let norm := Vec3f_length v in
  if F32.ltb (F32.of_int 0) norm then
    let inv := F32.div (F32.of_int 1) norm in
    mkVec3 (F32.mul (v3x v) inv) (F32.mul (v3y v) inv) (F32.mul (v3z v) inv)
  else v.

Definition Vec3d_length (v : Vec3d) : F64.t :=
  SFsqrt F64.prec F64.emax
    (F64.add (F64.add (F64.mul (dx v) (dx v)) (F64.mul (dy v) (dy v)))
       (F64.mul (dz v) (dz v))).

Definition test_host : Host := {|
  cos := fun x => F64.sub (F64.of_int 1) (F64.div (F64.mul x x) (F64.of_int 2));
  sin := fun x => x;
  powf := fun x _ => F32.mul (F32.mul x x) (F32.mul x x);
  DegreesToRadians_f := fun a => F32.div (F32.mul a (F32.of_double PI)) (F32.of_int 180);
  DegreesToRadians := fun a => F64.div (F64.mul a PI) (F64.of_int 180);
  convertLatLongHeightToXYZ := fun e lat lon h =>
    let r := F64.add (getRadiusEquator e) h in
    mkVec3d (F64.mul r lon) (F64.mul r lat) r;
  Vec3_normalize := Vec3f_normalize;
  Vec3_length := Vec3f_length;
  Vec3_dot := fun a b =>
    F32.add (F32.add (F32.mul (v3x a) (v3x b)) (F32.mul (v3y a) (v3y b)))
      (F32.mul (v3z a) (v3z b));
  Vec3_div := fun v r => mkVec3 (F32.div (v3x v) r) (F32.div (v3y v) r) (F32.div (v3z v) r);
  Vec3d_normalize := fun v =>
    let norm := Vec3d_length v in
    if F64.ltb (F64.of_int 0) norm then
      let inv := F64.div (F64.of_int 1) norm in
      mkVec3d (F64.mul (dx v) inv) (F64.mul (dy v) inv) (F64.mul (dz v) inv)
    else v;
  Matrixd_translate := fun x y z => [x; y; z];
  Matrixd_rotate := fun a x y z => [a; x; y; z];
  Matrixd_identity := [];
  DateTime_default := mkDateTime 1970 1 1 (F64.of_int 0);
  read_double := read_decimal;
  as_float := fun s _ => F32.of_double (read_decimal s);
  s_defaultStarData :=
    ["Sirius,1.767791,-0.291751,-1.46"%string; "Vega,4.873563,0.676902,0.03"%string;
     "Polaris,0.662285,1.557953,1.98"%string]
|}.

(** stand-ins for the two functions on the test host *)
Definition test_ellipsoid_host : EllipsoidHost := {|
  RadiansToDegrees := fun a => F64.div (F64.mul a (F64.of_int 180)) PI;
  computeLocalUpVector := fun _ x y z => mkVec3d x y z
|}.

(** the catalogue text of [stars.txt] in [test_world] *)
Definition test_catalog : string :=
  "# name,ra,decl,magnitude" +:+ String "010"%char
    ("Sirius,1.767791,-0.291751,-1.46" +:+ String "010"%char
       ("Vega,4.873563,0.676902,0.03" +:+ String "010"%char EmptyString)).

Definition test_world : World := {|
  readFile := fun f => if String.eqb f "stars.txt" then Some test_catalog else None;
  getenv := fun _ => None;
  readImageFile := fun _ => true
|}.

Definition test_ephemeris : Ephemeris := {|
  getSunPositionECEF := fun dt => mkVec3d (F64.of_int 149600000000) (F64.of_int 0) (F64.of_int 0);
  getMoonPositionECEF := fun dt => mkVec3d (F64.of_int 0) (F64.of_int 384400000) (F64.of_int 0);
  getECEFfromRADecl := fun ra decl r => mkVec3d (F64.mul r ra) (F64.mul r decl) r
|}.

Definition noon : DateTime := mkDateTime 2013 6 21 (F64.of_int 12).

Definition test_base : SkyNode :=
  mkSkyNode noon test_ephemeris true true true (F32.opp (F32.of_int 1)).

(** the WGS 84 ellipsoid *)
Definition wgs84 : EllipsoidModel :=
  mkEllipsoid (F64.of_int 6378137) (F64.lit 63567523142 10000).

Definition test_light : Light :=
  mkLight 0 (mkVec4 (F32.of_int 1) (F32.of_int 0) (F32.of_int 0) (F32.of_int 0))
    (mkVec4 (F32.lit 2 10) (F32.lit 2 10) (F32.lit 2 10) (F32.of_int 2))
    (mkVec4 (F32.of_int 1) (F32.of_int 1) (F32.of_int 1) (F32.of_int 1))
    (mkVec4 (F32.of_int 0) (F32.of_int 0) (F32.of_int 0) (F32.of_int 1)).

Definition test_container : Group :=
  mkGroup [c_sunXform; c_moonXform; c_starsXform; c_node n_atmosphere; c_node n_traverse] true.

(** a registered record whose sun stands in the direction of the x axis *)
Definition test_entry : PerViewData :=
  mkPerViewData (Some test_light) (Some (mkVec3 (F32.of_int 1) (F32.of_int 0) (F32.of_int 0)))
    (mkVec3 (F32.of_int 1) (F32.of_int 0) (F32.of_int 0)) (Some test_container)
    (Some (mkMatrixTransform [] (mask_of true) [n_sun]))
    (Some (mkMatrixTransform [] (mask_of true) [n_moon]))
    (Some (mkMatrixTransform [] (mask_of true) [n_stars]))
    [] [] [] noon.

(** a node with one registered view and automatic ambience switched on *)
Definition test_ambience_node : SimpleSkyNode :=
  with_autoAmbience true
    (with_perViewData {[ 1%N := test_entry ]} (construct (H:=test_host) test_base None)).

(** a cull visitor of view 1 whose eye stands over the x axis *)
Definition test_cv : CullVisitor :=
  mkCullVisitor 1 (mkVec3 (F32.of_int 7000000) (F32.of_int 0) (F32.of_int 0)).

(** the node of the test host after construction, and after the attachment
    of view 1 with light 0 *)
Definition test_node0 : SimpleSkyNode :=
  default (construct (H:=test_host) test_base None)
    (initialize (H:=test_host) test_world (Some wgs84) (construct (H:=test_host) test_base None)).

Definition test_node1 : SimpleSkyNode :=
  default test_node0 (attach (H:=test_host) 1 0 test_node0).

(** ** Statements *)

(** the triangle of fan segment [i] *)
Definition fan_triangle (segments i : Z) : list Z :=
  let i_plus_1 := if i <? segments - 1 then i + 1 else 0 in
  map GLushort_of_int [0; 1 + i_plus_1; 1 + i].

(** the exact value of a finite float *)
Definition SF2Q (x : spec_float) : option Q :=
  match x with
  | S754_zero _ => Some 0%Q
  | S754_finite s m e => Some (inject_Z (cond_Zopp s (Z.pos m)) * 2 ^ e)%Q
  | _ => None
  end.

(** [x] is a number within [tol] of [q] *)
Definition near (x : spec_float) (q tol : Q) : Prop :=
  match SF2Q x with
  | Some v => (Qabs (v - q) <= tol)%Q
  | None => False
  end.

(** a record is kept when its magnitude is not below the threshold *)
Definition keep_star (minStarMagnitude : F32.t) (s : StarData) : bool :=
  negb (F64.ltb (magnitude s) (F64.of_float minStarMagnitude)).

(** the records of a catalogue text: one for each line that ends in a
    newline, is not empty and does not start with [#] *)
Definition catalog_records `{Host} (content : string) : list StarData :=
  map StarData_ctor
    (List.filter (fun line => negb (string_empty line || starts_with_hash line))
       (file_lines EmptyString content)).

(** least and greatest magnitude as [buildStarGeometry] computes them *)
Definition star_mag_range (eph : Ephemeris) (starRadius : F32.t) (stars : list StarData)
    : F64.t * F64.t :=
  let '(_, minMag, maxMag) := fold_left (star_scan eph starRadius) stars ([], DBL_MAX, DBL_MIN) in
  (minMag, maxMag).

(** the scattering parameter set in the words of the design: a function
    of the inner radius [Ri] and of the fixed constants *)
Definition ScatteringModel `{Host} (Ri : F32.t) : list (string * UniformValue) :=
  let Kr := F32.lit 25 10000 in
  let Km := F32.lit 15 10000 in
  let ESun := F32.of_int 15 in
  let MPhase := F32.opp (F32.lit 95 1000) in
  let RayleighScaleDepth := F32.lit 25 100 in
  let Samples := 2 in
  let four_pi (k : F32.t) := F32.of_double (F64.mul (F64.of_float (F32.mul k (F32.of_int 4))) PI) in
  let inv_wl (wl : F32.t) := F32.div (F32.of_int 1) (powf wl (F32.of_int 4)) in
  let Ro := F32.mul Ri (F32.lit 1025 1000) in
  let Scale := F32.div (F32.of_int 1) (F32.sub Ro Ri) in
  [ ("atmos_v3InvWavelength"%string,
      U_vec3 (mkVec3 (inv_wl (F32.lit 65 100)) (inv_wl (F32.lit 57 100)) (inv_wl (F32.lit 475 1000))));
    ("atmos_fInnerRadius"%string, U_float Ri);
    ("atmos_fInnerRadius2"%string, U_float (F32.mul Ri Ri));
    ("atmos_fOuterRadius"%string, U_float Ro);
    ("atmos_fOuterRadius2"%string, U_float (F32.mul Ro Ro));
    ("atmos_fKrESun"%string, U_float (F32.mul Kr ESun));
    ("atmos_fKmESun"%string, U_float (F32.mul Km ESun));
    ("atmos_fKr4PI"%string, U_float (four_pi Kr));
    ("atmos_fKm4PI"%string, U_float (four_pi Km));
    ("atmos_fScale"%string, U_float Scale);
    ("atmos_fScaleDepth"%string, U_float RayleighScaleDepth);
    ("atmos_fScaleOverScaleDepth"%string, U_float (F32.div Scale RayleighScaleDepth));
    ("atmos_g"%string, U_float MPhase);
    ("atmos_g2"%string, U_float (F32.mul MPhase MPhase));
    ("atmos_nSamples"%string, U_int Samples);
    ("atmos_fSamples"%string, U_float (F32.of_int Samples));
    ("atmos_fWeather"%string, U_float (F32.of_int 1)) ].

(** what a date/time update stores in a per-view record; the member
    [_sunMatrix] is written by [attach] alone and read nowhere, it is no part
    of it *)
Record DateState := mkDateState {
  ds_date : DateTime;
  ds_lightPos : Vec3;
  ds_lightPosition : option Vec4;
  ds_lightPosUniform : option Vec3;
  ds_sunXform : option Matrixd;
  ds_moonMatrix : Matrixd;
  ds_moonXform : option Matrixd;
  ds_starsMatrix : Matrixd;
  ds_starsXform : option Matrixd
}.

Definition date_state (d : PerViewData) : DateState :=
  mkDateState (_date d) (_lightPos d) (position <$> _light d) (_lightPosUniform d)
    (matrix <$> _sunXform d) (_moonMatrix d) (matrix <$> _moonXform d)
    (_starsMatrix d) (matrix <$> _starsXform d).

(** the star matrix of a date/time *)
Definition stars_matrix `{Host} (dt : DateTime) : Matrixd :=
  Matrixd_rotate (F64.opp (rot_z dt)) (F64.of_int 0) (F64.of_int 0) (F64.of_int 1).

(** the sun direction of the node's date/time *)
Definition sun_direction `{Host} (n : SimpleSkyNode) : Vec3 :=
  Vec3_of_Vec3d (Vec3d_normalize (getSunPositionECEF (getEphemeris n) (getDateTime n))).

Definition moon_matrix `{Host} (n : SimpleSkyNode) : Matrixd :=
  let moonPos := getMoonPositionECEF (getEphemeris n) (getDateTime n) in
  Matrixd_translate (dx moonPos) (dy moonPos) (dz moonPos).

(** the date state that belongs to the node's date/time and ephemeris *)
Definition current_date_state `{Host} (n : SimpleSkyNode) : DateState :=
  let sun := sun_direction n in
  mkDateState (getDateTime n) sun
    (Some (Vec4_of_Vec3 sun (F32.of_int 0)))
    (Some (Vec3_div sun (Vec3_length sun)))
    (Some (sun_translate (_sunDistance n) sun))
    (moon_matrix n) (Some (moon_matrix n))
    (stars_matrix (getDateTime n)) (Some (stars_matrix (getDateTime n))).

(** what [onSetDateTime] does to a registered record and to the default
    record of node [n] *)
Definition sync_data `{Host} (n : SimpleSkyNode) (d : PerViewData) : PerViewData :=
  let dt := getDateTime n in
  let d := setSunPosition_data (_sunDistance n) (sun_direction n) d in
  let d := setMoonPosition_data (getMoonPositionECEF (getEphemeris n) dt) d in
  default d (setStars_data (stars_matrix dt) dt d).

Definition sync_default `{Host} (n : SimpleSkyNode) (d : PerViewData) : PerViewData :=
  let dt := getDateTime n in
  let d := setSunPosition_data (_sunDistance n) (sun_direction n) d in
  let d := setMoonPosition_data (getMoonPositionECEF (getEphemeris n) dt) d in
  with_date dt (with_starsMatrix (stars_matrix dt) d).

(** the record [attach] builds for a view before it runs [onSetDateTime] *)
Definition attach_entry `{Host} (n : SimpleSkyNode) (lightNum : Z) (light : Light)
    : PerViewData :=
  let dflt := _defaultPerViewData n in
  let sunMatrix := sun_translate (_sunDistance n) (_lightPos dflt) in
  mkPerViewData
    (Some (setAmbient (ambient light) (setLightNum lightNum light)))
    (_lightPosUniform dflt)
    (_lightPos dflt)
    (Some (mkGroup [c_sunXform; c_moonXform; c_starsXform; c_node n_atmosphere; c_node n_traverse]
             (bool_decide (is_Some (_lightPosUniform dflt)))))
    (Some (setNodeMask (mask_of (getSunVisible n))
             (addChild n_sun (setMatrix sunMatrix MatrixTransform_new))))
    (Some (setNodeMask (mask_of (getMoonVisible n))
             (addChild n_moon (setMatrix (_moonMatrix dflt) MatrixTransform_new))))
    (Some (setNodeMask (mask_of (getStarsVisible n))
             (addChild n_stars (setMatrix (_starsMatrix dflt) MatrixTransform_new))))
    sunMatrix (_moonMatrix dflt) (_starsMatrix dflt) (_date dflt).

(** the members that the steps of [initialize] after [makeSceneLighting]
    leave alone *)
Definition core (n : SimpleSkyNode) :=
  (_perViewData n, _ellipsoidModel n, _dateTime (base n), _ephemeris (base n),
   _sunVisible (base n), _starsVisible (base n),
   _innerRadius n, _outerRadius n, _sunDistance n, stateset n).

(** the pointers of the default record: light and uniform set, no star
    transform, the sun and moon transform set once their makers ran *)
Definition default_shape (d : PerViewData) (sun moon : bool) : Prop :=
  is_Some (_light d) /\ is_Some (_lightPosUniform d) /\
  (sun = true -> is_Some (_sunXform d)) /\ (moon = true -> is_Some (_moonXform d)) /\
  _starsXform d = None.

(** every pointer of a registered record that the code dereferences is set *)
Definition entry_ok (d : PerViewData) : Prop :=
  is_Some (_light d) /\ is_Some (_lightPosUniform d) /\ is_Some (_cullContainer d) /\
  is_Some (_sunXform d) /\ is_Some (_moonXform d) /\ is_Some (_starsXform d).

(** the shape of the node after construction: the default record has its
    light, uniform, sun and moon transform and no star transform; the
    registry holds complete records under non-null views *)
Definition wf (n : SimpleSkyNode) : Prop :=
  is_Some (_ellipsoidModel n) /\
  is_Some (_light (_defaultPerViewData n)) /\
  is_Some (_lightPosUniform (_defaultPerViewData n)) /\
  is_Some (_sunXform (_defaultPerViewData n)) /\
  is_Some (_moonXform (_defaultPerViewData n)) /\
  _starsXform (_defaultPerViewData n) = None /\
  _perViewData n !! 0%N = None /\
  map_Forall (fun _ d => entry_ok d) (_perViewData n).

(** every registered record holds the date state of the node's date/time *)
Definition synced `{Host} (n : SimpleSkyNode) : Prop :=
  map_Forall (fun _ d => date_state d = current_date_state n) (_perViewData n).

(** the states of a sky node: constructed, then driven through its public
    operations *)
Inductive reachable `{Host} : SimpleSkyNode -> Prop :=
  | reach_initialize w srs_ellipsoid b options_starFile n :
      initialize w srs_ellipsoid (construct b options_starFile) = Some n -> reachable n
  | reach_attach n view lightNum n' :
      reachable n -> attach view lightNum n = Some n' -> reachable n'
  | reach_setDateTime n dt n' :
      reachable n -> setDateTime dt n = Some n' -> reachable n'
  | reach_setEphemeris n e n' :
      reachable n -> setEphemeris e n = Some n' -> reachable n'
  | reach_setSunVisible n value n' :
      reachable n -> setSunVisible value n = Some n' -> reachable n'
  | reach_setMoonVisible n value n' :
      reachable n -> setMoonVisible value n = Some n' -> reachable n'
  | reach_setStarsVisible n value n' :
      reachable n -> setStarsVisible value n = Some n' -> reachable n'
  | reach_traverse n nv n' t :
      reachable n -> traverse nv n = Some (n', t) -> reachable n'.

(** the node mask of the star, sun and moon transform of a record *)
Definition stars_mask (d : PerViewData) : option Z := nodeMask <$> _starsXform d.
Definition sun_mask (d : PerViewData) : option Z := nodeMask <$> _sunXform d.
Definition moon_mask (d : PerViewData) : option Z := nodeMask <$> _moonXform d.

(** ** The grid of the ellipsoid mesh *)

(** latitude of row [y] and longitude of column [x], in degrees *)
Definition grid_lat (y : Z) : F64.t :=
  F64.add (F64.opp (F64.of_int 90))
    (F64.mul (F64.div (F64.of_int 180) (F64.of_int 100)) (F64.of_int y)).

Definition grid_lon (x : Z) : F64.t :=
  F64.add (F64.opp (F64.of_int 180))
    (F64.mul (F64.div (F64.of_int 180) (F64.of_int 100)) (F64.of_int x)).

(** the point of row [y], column [x] on the ellipsoid raised to [outerRadius] *)
Definition grid_point `{Host} (ellipsoid : EllipsoidModel) (outerRadius : F64.t) (y x : Z)
    : Vec3 :=
  Vec3_of_Vec3d
    (convertLatLongHeightToXYZ ellipsoid (DegreesToRadians (grid_lat y))
       (DegreesToRadians (grid_lon x)) (F64.sub outerRadius (getRadiusEquator ellipsoid))).

Definition grid_texCoord (y x : Z) : Vec2 :=
  Vec2_of_doubles (F64.div (F64.add (grid_lon x) (F64.of_int 180)) (F64.of_int 360))
    (F64.div (F64.add (grid_lat y) (F64.of_int 90)) (F64.of_int 180)).

(** a list of [rows] rows of [cols] cells, row after row *)
Definition grid {A : Type} (rows cols : Z) (cell : Z -> Z -> A) : list A :=
  flat_map (fun y => map (cell y) (int_range 0 cols)) (int_range 0 rows).

(** ** Catalogue text *)






(** ** The constructed node *)

(** the magnitude threshold [initialize] hands to [makeStars]: a negative
    option value gives way to the environment variable *)
Definition star_threshold `{Host} (w : World) (b : SkyNode) : F32.t :=
  if F32.ltb (_minStarMagnitude b) (F32.of_int 0) then
    match getenv w "OSGEARTH_MIN_STAR_MAGNITUDE" with
    | Some magEnv => as_float magEnv (F32.opp (F32.of_int 1))
    | None => _minStarMagnitude b
    end
  else _minStarMagnitude b.

(** the star list of [makeStars]: the records of the star file, the
    built-in table when there are none *)
Definition star_list `{Host} (w : World) (options_starFile : option string) (m : F32.t)
    : list StarData :=
  let stars :=
    match options_starFile with
    | Some f => snd (parseStarFile w m f)
    | None => []
    end in
  match stars with
  | [] => getDefaultStars m
  | _ => stars
  end.

(** the node that [initialize] leaves, member by member *)
Definition initial_node `{Host} (w : World) (em : EllipsoidModel) (b : SkyNode)
    (options_starFile : option string) : SimpleSkyNode :=
  let image := readImageFile w "moon_1024x512.jpg" in
  let Ri := F32.of_double (getRadiusPolar em) in
  let Ro := F32.mul Ri (F32.lit 1025 1000) in
  let sunDistance := F32.mul Ri (F32.of_int 12000) in
  let starRadius :=
    F32.of_double
      (F64.mul (F64.of_int 20000)
         (F64.of_float (if F64.ltb (F64.of_int 0) (F64.of_float sunDistance)
                        then sunDistance else Ro))) in
  let dt := _dateTime b in
  let sun := Vec3_of_Vec3d (Vec3d_normalize (getSunPositionECEF (_ephemeris b) dt)) in
  let moonPos := getMoonPositionECEF (_ephemeris b) dt in
  let moonMatrix := Matrixd_translate (dx moonPos) (dy moonPos) (dz moonPos) in
  let starsMatrix :=
    Matrixd_rotate (F64.opp (rot_z dt)) (F64.of_int 0) (F64.of_int 0) (F64.of_int 1) in
  let m := star_threshold w b in
  let moon_em := mkEllipsoid (F64.of_int 1738140) (F64.of_int 1735970) in
  mkSimpleSkyNode
    (mkSkyNode dt (_ephemeris b) (_sunVisible b) (if image then _moonVisible b else false)
       (_starsVisible b) m)
    options_starFile
    (mkPerViewData
       (Some (mkLight 0 (Vec4_of_Vec3 sun (F32.of_int 0))
                (mkVec4 (F32.lit 2 10) (F32.lit 2 10) (F32.lit 2 10) (F32.of_int 2))
                (mkVec4 (F32.of_int 1) (F32.of_int 1) (F32.of_int 1) (F32.of_int 1))
                (mkVec4 (F32.of_int 0) (F32.of_int 0) (F32.of_int 0) (F32.of_int 1))))
       (Some (Vec3_div sun (Vec3_length sun)))
       sun None
       (Some (mkMatrixTransform (sun_translate sunDistance sun) (mask_of true) [n_sun_billboard]))
       (Some (mkMatrixTransform moonMatrix (mask_of image) [n_moon_geode]))
       None
       Matrixd_identity moonMatrix starsMatrix dt)
    ∅ (Some em) Ri Ro sunDistance starRadius moonPos false
    (Some (s_makeEllipsoidGeometry em (F64.of_float Ro) false))
    (Some (s_makeDiscGeometry
             (F64.of_float (F32.mul (F32.mul Ri (F32.of_int 100)) (F32.of_int 80)))))
    (Some (s_makeEllipsoidGeometry moon_em (getRadiusEquator moon_em) true))
    (Some (buildStarGeometry (_ephemeris b) starRadius (star_list w options_starFile m)))
    (stateset (makeSceneLighting (with_radii Ri Ro sunDistance (construct b options_starFile)))).

(** ** Invariants of the node *)

(** the date state of the default record: that of the node's date/time,
    with no star transform *)
Definition default_date_state `{Host} (n : SimpleSkyNode) : DateState :=
  let s := current_date_state n in
  mkDateState (ds_date s) (ds_lightPos s) (ds_lightPosition s) (ds_lightPosUniform s)
    (ds_sunXform s) (ds_moonMatrix s) (ds_moonXform s) (ds_starsMatrix s) None.

(** the default record and the moon position hold what the date/time
    handler stores *)
Definition settled `{Host} (n : SimpleSkyNode) : Prop :=
  date_state (_defaultPerViewData n) = default_date_state n /\
  _moonPosition n = getMoonPositionECEF (getEphemeris n) (getDateTime n).

(** the sun and moon masks of the registered records follow the flags *)
Definition flags_applied (n : SimpleSkyNode) : Prop :=
  map_Forall (fun _ d => sun_mask d = Some (mask_of (getSunVisible n)) /\
                         moon_mask d = Some (mask_of (getMoonVisible n)))
    (_perViewData n).

(** * Properties *)

(** ** Loops and lists *)

Lemma int_range_length (lo hi : Z) : length (int_range lo hi) = Z.to_nat (hi - lo).
Proof. unfold int_range. now rewrite length_map, length_seq. Qed.

Lemma int_range_snoc (lo hi : Z) :
  lo <= hi -> int_range lo (hi + 1) = int_range lo hi ++ [hi].
Proof.
  intros Hle. unfold int_range.
  replace (Z.to_nat (hi + 1 - lo)) with (S (Z.to_nat (hi - lo))) by lia.
  rewrite seq_S, map_app. simpl. do 2 f_equal. lia.
Qed.

Lemma flat_map_ext_In {A B : Type} (f g : A -> list B) (l : list A) :
  (forall a, In a l -> f a = g a) -> flat_map f l = flat_map g l.
Proof.
  induction l as [|a l IH]; intros Hfg; simpl; [reflexivity|].
  rewrite Hfg by (now left). rewrite IH; [reflexivity|].
  intros b Hb. apply Hfg. now right.
Qed.

(** ** MeshFactory *)

Section MeshFacts.
Context `{Host}.
Variables (ellipsoid : EllipsoidModel) (hae : F64.t) (genTexCoords : bool).
Variables (latSegments lonSegments : Z) (segmentSize : F64.t).

Lemma ellipsoid_cell_verts y lat g x :
  length (verts (ellipsoid_cell ellipsoid hae genTexCoords latSegments lonSegments
                   segmentSize y lat g x)) = S (length (verts g)).
Proof.
  unfold ellipsoid_cell.
  destruct genTexCoords; simpl; destruct (normals g); simpl;
    destruct (y <? latSegments); simpl; rewrite length_app; simpl; lia.
Qed.

Lemma ellipsoid_cell_el y lat g x :
  el (ellipsoid_cell ellipsoid hae genTexCoords latSegments lonSegments segmentSize y lat g x)
  = el g ++ (if y <? latSegments then quad_indices lonSegments y x else []).
Proof.
  unfold ellipsoid_cell, quad_indices.
  destruct genTexCoords; simpl; destruct (normals g); simpl;
    destruct (y <? latSegments); simpl; rewrite <- ?app_assoc, ?app_nil_r; reflexivity.
Qed.

Lemma ellipsoid_cells_verts y lat xs g :
  length (verts (fold_left (ellipsoid_cell ellipsoid hae genTexCoords latSegments lonSegments
                              segmentSize y lat) xs g))
  = (length (verts g) + length xs)%nat.
Proof.
  revert g. induction xs as [|x xs IH]; intros g; simpl; [lia|].
  rewrite IH, ellipsoid_cell_verts. lia.
Qed.

Lemma ellipsoid_cells_el y lat xs g :
  el (fold_left (ellipsoid_cell ellipsoid hae genTexCoords latSegments lonSegments
                   segmentSize y lat) xs g)
  = el g ++ (if y <? latSegments then flat_map (quad_indices lonSegments y) xs else []).
Proof.
  revert g. induction xs as [|x xs IH]; intros g; simpl.
  - destruct (y <? latSegments); now rewrite app_nil_r.
  - rewrite IH, ellipsoid_cell_el. destruct (y <? latSegments); simpl.
    + now rewrite <- app_assoc.
    + now rewrite !app_nil_r.
Qed.

Lemma ellipsoid_rows_verts ys g :
  length (verts (fold_left (ellipsoid_row ellipsoid hae genTexCoords latSegments lonSegments
                              segmentSize) ys g))
  = (length (verts g) + length ys * Z.to_nat lonSegments)%nat.
Proof.
  revert g. induction ys as [|y ys IH]; intros g; simpl; [lia|].
  rewrite IH. unfold ellipsoid_row, for_loop.
  rewrite ellipsoid_cells_verts, int_range_length. rewrite Z.sub_0_r. lia.
Qed.

Lemma ellipsoid_rows_el ys g :
  el (fold_left (ellipsoid_row ellipsoid hae genTexCoords latSegments lonSegments
                   segmentSize) ys g)
  = el g ++ flat_map (fun y => if y <? latSegments
                               then flat_map (quad_indices lonSegments y) (int_range 0 lonSegments)
                               else []) ys.
Proof.
  revert g. induction ys as [|y ys IH]; intros g; simpl.
  - now rewrite app_nil_r.
  - rewrite IH. unfold ellipsoid_row, for_loop.
    rewrite ellipsoid_cells_el. now rewrite <- app_assoc.
Qed.

End MeshFacts.

Lemma quad_indices_length lonSegments y x : length (quad_indices lonSegments y x) = 6%nat.
Proof. reflexivity. Qed.

Lemma flat_map_quads_length lonSegments y xs :
  length (flat_map (quad_indices lonSegments y) xs) = (6 * length xs)%nat.
Proof. induction xs as [|x xs IH]; simpl; [reflexivity|]. rewrite IH. lia. Qed.

Lemma flat_map_rows_length lonSegments xs ys :
  length (flat_map (fun y => flat_map (quad_indices lonSegments y) xs) ys)
  = (length ys * (6 * length xs))%nat.
Proof.
  induction ys as [|y ys IH]; simpl; [reflexivity|].
  rewrite length_app, IH, flat_map_quads_length. lia.
Qed.

(** the index list of the ellipsoid: every quad of the 100 bands, in row
    order, the last column joined to the first *)
Lemma ellipsoid_el_quads `{Host} ellipsoid outerRadius genTexCoords :
  el (s_makeEllipsoidGeometry ellipsoid outerRadius genTexCoords)
  = flat_map (fun y => flat_map (quad_indices 200 y) (int_range 0 200)) (int_range 0 100).
Proof.
  unfold s_makeEllipsoidGeometry, for_loop.
  rewrite ellipsoid_rows_el.
  replace (el (if genTexCoords then _ else _)) with (@nil Z) by (now destruct genTexCoords).
  change (2 * 100) with 200.
  rewrite (int_range_snoc 0 100) by lia.
  rewrite flat_map_app. cbn [flat_map app].
  rewrite Z.ltb_irrefl, !app_nil_r.
  apply flat_map_ext_In. intros y Hy.
  unfold int_range in Hy. apply in_map_iff in Hy as (k & <- & Hk). apply in_seq in Hk.
  destruct (Z.ltb_spec (0 + Z.of_nat k) 100); [reflexivity|]. simpl in Hk. lia.
Qed.

(** every index addresses a vertex of the mesh; the conversion to an
    unsigned short changes none *)
Lemma ellipsoid_el_in_range `{Host} ellipsoid outerRadius genTexCoords :
  Forall (fun i => 0 <= i < 20200)
    (el (s_makeEllipsoidGeometry ellipsoid outerRadius genTexCoords)).
Proof.
  rewrite ellipsoid_el_quads. apply Forall_forall. intros i Hi.
  apply list_elem_of_In, in_flat_map in Hi as (y & Hy & Hi).
  apply in_flat_map in Hi as (x & Hx & Hi).
  unfold int_range in Hy, Hx.
  apply in_map_iff in Hy as (ky & <- & Hky). apply in_seq in Hky.
  apply in_map_iff in Hx as (kx & <- & Hkx). apply in_seq in Hkx.
  change (Z.to_nat (100 - 0)) with 100%nat in Hky.
  change (Z.to_nat (200 - 0)) with 200%nat in Hkx.
  unfold quad_indices, GLushort_of_int in Hi. cbn [map In] in Hi.
  destruct (Z.ltb_spec (0 + Z.of_nat kx) (200 - 1));
    repeat (destruct Hi as [<-|Hi]; [rewrite Z.mod_small by lia; lia|]); contradiction.
Qed.

(** C6: the ellipsoid mesh has (100+1) x 200 = 20200 vertices and
    100 x 200 x 6 = 120000 triangle-list indices, six for each quad of the
    latitude/longitude grid with the last column joined to the first, each
    index the index of a vertex, whatever the ellipsoid, the outer radius and
    the texture flag are. *)
Theorem ellipsoid_mesh_counts `{Host} (ellipsoid : EllipsoidModel) (outerRadius : F64.t)
    (genTexCoords : bool) :
  let latSegments := 100 in
  let g := s_makeEllipsoidGeometry ellipsoid outerRadius genTexCoords in
  Z.of_nat (length (verts g)) = (latSegments + 1) * (2 * latSegments) /\
  Z.of_nat (length (verts g)) = 20200 /\
  Z.of_nat (length (el g)) = latSegments * (2 * latSegments) * 6 /\
  Z.of_nat (length (el g)) = 120000 /\
  el g = flat_map (fun y => flat_map (quad_indices 200 y) (int_range 0 200)) (int_range 0 100) /\
  Forall (fun i => 0 <= i < 20200) (el g).
Proof.
  intros latSegments g.
  assert (Hv : Z.of_nat (length (verts g)) = 20200).
  { unfold g, s_makeEllipsoidGeometry, for_loop.
    rewrite ellipsoid_rows_verts, int_range_length.
    replace (length (verts (if genTexCoords then _ else _))) with 0%nat
      by (now destruct genTexCoords).
    rewrite Nat2Z.inj_add, Nat2Z.inj_mul, !Z2Nat.id by lia. reflexivity. }
  assert (He : Z.of_nat (length (el g)) = 120000).
  { unfold g. rewrite ellipsoid_el_quads, flat_map_rows_length, !int_range_length.
    rewrite !Nat2Z.inj_mul, !Z2Nat.id by lia. reflexivity. }
  split; [|split; [|split; [|split; [|split]]]].
  - rewrite Hv. reflexivity.
  - exact Hv.
  - rewrite He. reflexivity.
  - exact He.
  - apply ellipsoid_el_quads.
  - apply ellipsoid_el_in_range.
Qed.


Section DiscFacts.
Context `{Host}.
Variables (radius : F64.t) (segments : Z) (deltaAngle : F32.t).

Lemma disc_segments_verts xs g :
  verts (fold_left (disc_segment radius segments deltaAngle) xs g)
  = verts g ++ map (disc_vertex radius deltaAngle) xs.
Proof.
  revert g. induction xs as [|i xs IH]; intros g; simpl.
  - now rewrite app_nil_r.
  - rewrite IH. simpl. now rewrite <- app_assoc.
Qed.

Lemma disc_segments_el xs g :
  el (fold_left (disc_segment radius segments deltaAngle) xs g)
  = el g ++ flat_map (fan_triangle segments) xs.
Proof.
  revert g. induction xs as [|i xs IH]; intros g; simpl.
  - now rewrite app_nil_r.
  - rewrite IH. unfold disc_segment, fan_triangle. simpl.
    rewrite <- !app_assoc. reflexivity.
Qed.

End DiscFacts.

(** the angle of perimeter vertex [i] in degrees, [deltaAngle * (float)i],
    is the exact value of [i * 360 / 48] *)
Lemma disc_degrees_exact :
  Forall (fun i => F32.mul (disc_deltaAngle 48) (F32.of_int i) = F32.lit (360 * i) 48)
    (int_range 0 48).
Proof. apply (bool_decide_unpack _). vm_compute. reflexivity. Qed.

Lemma fan_triangle_wraps :
  Forall (fun i => fan_triangle 48 i = [0; 1 + (i + 1) mod 48; 1 + i]) (int_range 0 48).
Proof. apply (bool_decide_unpack _). vm_compute. reflexivity. Qed.

(** C9: the disc mesh has 1 + 48 vertices, the centre followed by the 48
    perimeter vertices radius * (cos t, sin t, 0) with t the radians of
    i * 360/48 degrees, and 48 triangles (0, 1 + (i+1 mod 48), 1 + i): each
    holds the centre, perimeter vertex i+1 and perimeter vertex i, the last
    one wrapping to the first perimeter vertex. *)
Theorem disc_mesh_fan `{Host} (radius : F64.t) :
  let g := s_makeDiscGeometry radius in
  let center := mkVec3 (F32.of_int 0) (F32.of_int 0) (F32.of_int 0) in
  let perimeter (i : Z) :=
    let theta := F64.of_float (DegreesToRadians_f (F32.lit (360 * i) 48)) in
    Vec3_of_doubles (F64.mul radius (cos theta)) (F64.mul radius (sin theta)) (F64.of_int 0) in
  verts g = center :: map perimeter (int_range 0 48) /\
  Z.of_nat (length (verts g)) = 1 + 48 /\
  el g = flat_map (fan_triangle 48) (int_range 0 48) /\
  Z.of_nat (length (el g)) = 3 * 48 /\
  Forall (fun i => fan_triangle 48 i = [0; 1 + (i + 1) mod 48; 1 + i]) (int_range 0 48).
Proof.
  intros g center perimeter.
  assert (Hv : verts g = center :: map perimeter (int_range 0 48)).
  { unfold g, s_makeDiscGeometry, for_loop. rewrite disc_segments_verts.
    cbn [verts app]. apply (f_equal (cons center)).
    apply map_ext_in. intros i Hi. apply list_elem_of_In in Hi.
    pose proof (proj1 (Forall_forall _ _) disc_degrees_exact i Hi) as Hd.
    unfold disc_vertex, perimeter. cbv beta in Hd. rewrite Hd. reflexivity. }
  assert (He : el g = flat_map (fan_triangle 48) (int_range 0 48)).
  { unfold g, s_makeDiscGeometry, for_loop. rewrite disc_segments_el. reflexivity. }
  split; [exact Hv|]. split.
  { rewrite Hv. cbn [length]. rewrite length_map, int_range_length. reflexivity. }
  split; [exact He|]. split.
  { rewrite He. reflexivity. }
  exact fan_triangle_wraps.
Qed.

(** ** Floating-point comparison *)

Lemma SFcompare_swap (x y : spec_float) :
  SFcompare y x = option_map CompOpp (SFcompare x y).
Proof.
  destruct x as [sx|sx| |sx mx ex], y as [sy|sy| |sy my ey]; simpl;
    try reflexivity; try (destruct sx; reflexivity); try (destruct sy; reflexivity);
    try (destruct sx, sy; reflexivity).
  destruct sx, sy; simpl; try reflexivity.
  - rewrite (Z.compare_antisym ex ey). destruct (ex ?= ey); simpl; try reflexivity.
    pose proof (Pos.compare_cont_antisym mx my Eq) as Ha. simpl in Ha.
    now rewrite Ha.
  - rewrite (Z.compare_antisym ex ey). destruct (ex ?= ey); simpl; try reflexivity.
    pose proof (Pos.compare_cont_antisym mx my Eq) as Ha. simpl in Ha.
    now rewrite Ha.
Qed.

(** for numbers, "not below" is "at least" *)
Lemma SFltb_false_leb (x y : spec_float) :
  is_nan x = false -> is_nan y = false -> SFltb x y = false -> SFleb y x = true.
Proof.
  intros Hx Hy. unfold SFltb, SFleb. rewrite (SFcompare_swap x y).
  destruct (SFcompare x y) as [[]|] eqn:Hc; simpl; try reflexivity; try discriminate.
  destruct x, y; simpl in *; try discriminate; destruct s; try discriminate;
    destruct s0; discriminate.
Qed.

Lemma SFleb_refl (x : spec_float) : is_nan x = false -> SFleb x x = true.
Proof.
  intros Hx. unfold SFleb. destruct x as [s|s| |s m e]; try discriminate.
  - reflexivity.
  - now destruct s.
  - cbn. destruct s; rewrite Z.compare_refl, Pos.compare_cont_refl; reflexivity.
Qed.

Lemma SFleb_not_ltb (x y : spec_float) : SFleb x y = true -> SFltb y x = false.
Proof.
  unfold SFleb, SFltb. rewrite (SFcompare_swap x y).
  destruct (SFcompare x y) as [[]|]; simpl; intros; try reflexivity; discriminate.
Qed.

(** a number clamped to an interval of numbers lies in the interval *)
Lemma clampBetween_range (v lo hi : F32.t) :
  is_nan v = false -> is_nan lo = false -> is_nan hi = false -> F32.leb lo hi = true ->
  F32.leb lo (clampBetween v lo hi) = true /\ F32.leb (clampBetween v lo hi) hi = true.
Proof.
  intros Hv Hlo Hhi Hle. unfold clampBetween, F32.leb, F32.ltb in *.
  destruct (SFltb v lo) eqn:H1.
  - rewrite (SFleb_not_ltb lo hi Hle). split; [now apply SFleb_refl|exact Hle].
  - destruct (SFltb hi v) eqn:H2.
    + split; [exact Hle|now apply SFleb_refl].
    + split; now apply SFltb_false_leb.
Qed.

(** ** Star catalogue *)

Lemma push_star_keep (m : F32.t) (out : list StarData) (s : StarData) :
  push_star m out s = if keep_star m s then out ++ [s] else out.
Proof.
  unfold push_star, keep_star. rewrite last_last, removelast_last.
  now destruct (F64.ltb (magnitude s) (F64.of_float m)).
Qed.

Lemma fold_push_star {A : Type} (m : F32.t) (f : A -> StarData) (skip : A -> bool)
    (l : list A) (out : list StarData) :
  fold_left (fun out x => if skip x then out else push_star m out (f x)) l out
  = out ++ List.filter (keep_star m) (map f (List.filter (fun x => negb (skip x)) l)).
Proof.
  revert out. induction l as [|x l IH]; intros out; simpl.
  - now rewrite app_nil_r.
  - rewrite IH. destruct (skip x); simpl; [reflexivity|].
    rewrite push_star_keep. destruct (keep_star m (f x)); [|reflexivity].
    now rewrite <- app_assoc.
Qed.

Lemma parseStarFile_filter `{Host} (w : World) (m : F32.t) (file content : string) :
  readFile w file = Some content ->
  parseStarFile w m file = (true, List.filter (keep_star m) (catalog_records content)).
Proof.
  intros Hr. unfold parseStarFile, catalog_records. rewrite Hr.
  now rewrite (fold_push_star m StarData_ctor
                 (fun line => string_empty line || starts_with_hash line)).
Qed.

Lemma getDefaultStars_filter `{Host} (m : F32.t) :
  getDefaultStars m = List.filter (keep_star m) (map StarData_ctor s_defaultStarData).
Proof.
  unfold getDefaultStars.
  rewrite (fold_push_star m StarData_ctor (fun _ => false)). simpl.
  f_equal. f_equal. induction s_defaultStarData as [|x l IH]; simpl; congruence.
Qed.

Lemma filter_keep_star_Forall (m : F32.t) (l : list StarData) :
  Forall (fun s => F64.ltb (magnitude s) (F64.of_float m) = false)
    (List.filter (keep_star m) l).
Proof.
  apply List.Forall_forall. intros s Hs. apply filter_In in Hs as [_ Hk].
  unfold keep_star in Hk. now apply negb_true_iff in Hk.
Qed.

(** C4 as the code has it: the retained records are, in order, the
    records whose magnitude is not below the threshold, for a catalogue file
    and for the built-in table; so every retained magnitude is at least the
    threshold when both are numbers.  The threshold -1.0 is a threshold
    like any other: every record of magnitude at least -1.0 is retained. *)
Theorem star_filter `{Host} (w : World) (m : F32.t) (file content : string) :
  readFile w file = Some content ->
  let below (s : StarData) := F64.ltb (magnitude s) (F64.of_float m) in
  let at_least (s : StarData) := F64.leb (F64.of_float m) (magnitude s) in
  let kept := snd (parseStarFile w m file) in
  let kept_default := getDefaultStars m in
  kept = List.filter (fun s => negb (below s)) (catalog_records content) /\
  kept_default = List.filter (fun s => negb (below s)) (map StarData_ctor s_defaultStarData) /\
  Forall (fun s => below s = false) (kept ++ kept_default) /\
  (is_nan (F64.of_float m) = false ->
   Forall (fun s => is_nan (magnitude s) = false -> at_least s = true) (kept ++ kept_default)) /\
  (m = F32.opp (F32.of_int 1) ->
   Forall (fun s => F64.leb (F64.opp (F64.of_int 1)) (magnitude s) = true -> In s kept)
     (catalog_records content)).
Proof.
  intros Hr below at_least kept kept_default.
  assert (Hk : kept = List.filter (keep_star m) (catalog_records content)).
  { unfold kept. now rewrite (parseStarFile_filter w m file content Hr). }
  assert (Hd : kept_default = List.filter (keep_star m) (map StarData_ctor s_defaultStarData)).
  { apply getDefaultStars_filter. }
  assert (Hb : Forall (fun s => below s = false) (kept ++ kept_default)).
  { rewrite Hk, Hd. apply Forall_app. split; apply filter_keep_star_Forall. }
  split; [exact Hk|]. split; [exact Hd|]. split; [exact Hb|]. split.
  - intros Hm. eapply Forall_impl; [exact Hb|]. intros s Hs Hn.
    unfold at_least. apply SFltb_false_leb; assumption.
  - intros ->. apply List.Forall_forall. intros s Hs Hge.
    rewrite Hk. apply filter_In. split; [exact Hs|].
    unfold keep_star. apply negb_true_iff.
    change (F64.of_float (F32.opp (F32.of_int 1))) with (F64.opp (F64.of_int 1)).
    unfold F64.leb, SFleb in Hge. unfold F64.ltb, SFltb.
    rewrite (SFcompare_swap (F64.opp (F64.of_int 1)) (magnitude s)).
    destruct (SFcompare (F64.opp (F64.of_int 1)) (magnitude s)) as [[]|];
      simpl; try reflexivity; discriminate.
Qed.

(** the claim of C4 fails at the threshold -1.0: Sirius, of magnitude
    -1.46, is a record of the catalogue and is not retained *)
Lemma star_filter_drops_sirius :
  let m := F32.opp (F32.of_int 1) in
  let kept := snd (parseStarFile (H:=test_host) test_world m "stars.txt") in
  map name (catalog_records (H:=test_host) test_catalog) = ["Sirius"; "Vega"]%string /\
  map name kept = ["Vega"]%string /\
  kept <> catalog_records (H:=test_host) test_catalog.
Proof.
  vm_compute. split; [reflexivity|]. split; [reflexivity|]. discriminate.
Qed.

(** the filter on the built-in catalogue of the test host *)
Lemma star_filter_witness :
  readFile test_world "stars.txt" = Some test_catalog /\
  snd (parseStarFile (H:=test_host) test_world (F32.of_int 0) "stars.txt")
  = List.filter (fun s => negb (F64.ltb (magnitude s) (F64.of_float (F32.of_int 0))))
      (catalog_records (H:=test_host) test_catalog).
Proof.
  split; [reflexivity|].
  exact (proj1 (star_filter (H:=test_host) test_world (F32.of_int 0) "stars.txt" test_catalog
                  eq_refl)).
Defined.

(** ** Star colours *)

Lemma SFltb_irrefl (x : spec_float) : SFltb x x = false.
Proof.
  unfold SFltb. pose proof (SFcompare_swap x x) as Hs.
  destruct (SFcompare x x) as [[]|]; simpl in Hs; try reflexivity; discriminate.
Qed.

Lemma F64_sub_diag (s : bool) (m : positive) (e : Z) :
  F64.sub (S754_finite s m e) (S754_finite s m e) = S754_zero false.
Proof.
  unfold F64.sub, SFsub, shl_align. cbv zeta.
  change IntDef.Z.min with Z.min. change IntDef.Z.sub with Z.sub.
  rewrite Z.min_id, Z.sub_diag. reflexivity.
Qed.

Lemma star_scan_eq (eph : Ephemeris) (r : F32.t) (cs : list Vec3) (mn mx : F64.t)
    (p : StarData) :
  star_scan eph r (cs, mn, mx) p
  = (cs ++ [Vec3_of_Vec3d (getECEFfromRADecl eph (right_ascension p) (declination p)
                             (F64.of_float r))],
     if F64.ltb (magnitude p) mn then magnitude p else mn,
     if F64.ltb mx (magnitude p) then magnitude p else mx).
Proof. reflexivity. Qed.

Lemma star_scan_same (eph : Ephemeris) (r : F32.t) (m : F64.t) (stars : list StarData)
    (cs : list Vec3) :
  Forall (fun p => magnitude p = m) stars ->
  exists cs', fold_left (star_scan eph r) stars (cs, m, m) = (cs', m, m).
Proof.
  revert cs. induction stars as [|p stars IH]; intros cs Hall.
  - now exists cs.
  - apply Forall_cons in Hall as [Hp Hall]. cbn [fold_left]. rewrite star_scan_eq.
    rewrite Hp. unfold F64.ltb. rewrite SFltb_irrefl. now apply IH.
Qed.

(** where the divisor does vanish: a non-empty list whose records share one
    magnitude between [DBL_MIN] and [DBL_MAX] *)
Lemma star_divisor_same_magnitude (eph : Ephemeris) (r : F32.t) (m : F64.t)
    (p : StarData) (stars : list StarData) :
  Forall (fun p => magnitude p = m) (p :: stars) ->
  F64.ltb DBL_MIN m = true -> F64.ltb m DBL_MAX = true ->
  star_mag_range eph r (p :: stars) = (m, m) /\ star_divisor m m = S754_zero false.
Proof.
  intros Hall Hlo Hhi. apply Forall_cons in Hall as [Hp Hall]. split.
  - unfold star_mag_range. cbn [fold_left]. rewrite star_scan_eq. rewrite Hp, Hlo, Hhi.
    destruct (star_scan_same eph r m stars
                ([] ++ [Vec3_of_Vec3d
                          (getECEFfromRADecl eph (right_ascension p) (declination p)
                             (F64.of_float r))]) Hall) as [cs' ->].
    reflexivity.
  - unfold star_divisor.
    destruct m as [s|s| |s mm e]; try discriminate;
      try (destruct s; discriminate).
    apply F64_sub_diag.
Qed.

(** C10: the greatest magnitude starts at [DBL_MIN], the smallest positive
    normal double, so a list of one star of magnitude 0 has the range
    (0, DBL_MIN): the divisor is [DBL_MIN], not zero, and the colour is 0. *)
Theorem star_divisor_single_magnitude_zero :
  let stars := [mkStarData "Vega" (F64.of_int 0) (F64.of_int 0) (F64.of_int 0)] in
  let zero := S754_zero false in
  star_mag_range test_ephemeris (F32.of_int 1) stars = (zero, DBL_MIN) /\
  star_divisor zero DBL_MIN = DBL_MIN /\
  DBL_MIN <> zero /\
  colors (buildStarGeometry test_ephemeris (F32.of_int 1) stars)
  = [mkVec4 zero zero zero (F32.of_int 1)].
Proof.
  vm_compute. repeat split; try reflexivity. discriminate.
Qed.

(** the same with the brightest star alone: the range of [-1.46] is
    (-1.46, DBL_MIN) and the divisor is 1.46 *)
Lemma star_divisor_single_sirius :
  let sirius := F64.opp (F64.lit 146 100) in
  let stars := [mkStarData "Sirius" (F64.of_int 0) (F64.of_int 0) sirius] in
  star_mag_range test_ephemeris (F32.of_int 1) stars = (sirius, DBL_MIN) /\
  star_divisor sirius DBL_MIN = F64.lit 146 100.
Proof. vm_compute. split; reflexivity. Qed.

(** ** Star rotation *)

(** the claim of C3 fails at noon: the angle is zero there, the rotation
    handed to the matrix is minus zero, and neither is pi *)
Lemma rot_z_noon_not_pi :
  hours noon = F64.of_int 12 /\
  rot_z noon = S754_zero false /\
  rot_z noon <> PI /\
  F64.opp (rot_z noon) <> PI.
Proof. vm_compute. repeat split; try reflexivity; discriminate. Qed.

(** ** Automatic ambience *)

Lemma auto_ambience_values :
  let minAmb := F32.lit 2 10 in
  let maxAmb := F32.lit 92 100 in
  let minDev := F32.opp (F32.lit 2 10) in
  let maxDev := F32.lit 75 100 in
  auto_ambience minDev = minAmb /\
  auto_ambience maxDev = maxAmb /\
  auto_ambience (F32.lit 275 1000) = S754_finite false 9395242 (-24) /\
  near (auto_ambience (F32.lit 275 1000)) (56 # 100) (1 # 10000000).
Proof.
  assert (Hmid : auto_ambience (F32.lit 275 1000) = S754_finite false 9395242 (-24))
    by (vm_compute; reflexivity).
  split; [vm_compute; reflexivity|]. split; [vm_compute; reflexivity|].
  split; [exact Hmid|].
  unfold near. rewrite Hmid. cbn [SF2Q]. apply Qle_bool_iff. vm_compute. reflexivity.
Qed.

(** ** The registry *)

Lemma first_entry_foldr_nil {V : Type} (l : list (N * V)) :
  foldr first_entry None l = None <-> l = [].
Proof.
  destruct l as [|kv l]; simpl; [tauto|]. split; [|intros; discriminate].
  destruct (foldr first_entry None l) as [kv'|]; unfold first_entry;
    [|intros; discriminate].
  destruct (fst kv <? fst kv')%N; intros; discriminate.
Qed.

Lemma first_entry_foldr_least {V : Type} (l : list (N * V)) (kv : N * V) :
  foldr first_entry None l = Some kv ->
  kv ∈ l /\ Forall (fun kv' => (fst kv <= fst kv')%N) l.
Proof.
  revert kv. induction l as [|kv0 l IH]; intros kv; simpl; [discriminate|].
  destruct (foldr first_entry None l) as [kv'|] eqn:Hf; unfold first_entry.
  - destruct (IH kv' eq_refl) as [Hin Hle].
    destruct (N.ltb_spec (fst kv0) (fst kv')); intros [= <-].
    + split; [left|]. constructor; [lia|].
      eapply Forall_impl; [exact Hle|]. simpl. intros; lia.
    + split; [now right|]. constructor; [lia|exact Hle].
  - intros [= <-]. apply first_entry_foldr_nil in Hf as ->.
    split; [left|]. constructor; [lia|constructor].
Qed.

Lemma map_begin_None {V : Type} (m : gmap N V) : map_begin m = None <-> m = ∅.
Proof.
  unfold map_begin. rewrite first_entry_foldr_nil. apply map_to_list_empty_iff.
Qed.

(** [begin()] is an entry of the map, the one of the least key *)
Lemma map_begin_Some {V : Type} (m : gmap N V) (k : N) (v : V) :
  map_begin m = Some (k, v) ->
  m !! k = Some v /\ forall k' v', m !! k' = Some v' -> (k <= k')%N.
Proof.
  unfold map_begin. intros Hb. apply first_entry_foldr_least in Hb as [Hin Hle]. split.
  - now apply elem_of_map_to_list in Hin.
  - intros k' v' Hk'. apply elem_of_map_to_list in Hk'.
    exact (proj1 (Forall_forall _ _) Hle (k', v') Hk').
Qed.

Lemma find_or_begin_found {V : Type} (m : gmap N V) (k : N) (v : V) :
  m !! k = Some v -> find_or_begin k m = Some (k, v).
Proof. intros Hk. unfold find_or_begin. now rewrite Hk. Qed.

Lemma find_or_begin_fallback {V : Type} (m : gmap N V) (k : N) :
  m !! k = None -> m <> ∅ ->
  exists k' v', find_or_begin k m = Some (k', v') /\ m !! k' = Some v' /\
                forall k'' v'', m !! k'' = Some v'' -> (k' <= k'')%N.
Proof.
  intros Hk Hne. unfold find_or_begin. rewrite Hk.
  destruct (map_begin m) as [[k' v']|] eqn:Hb.
  - exists k', v'. split; [reflexivity|]. now apply map_begin_Some.
  - now apply map_begin_None in Hb.
Qed.

Lemma find_or_begin_empty {V : Type} (k : N) : find_or_begin k (∅ : gmap N V) = None.
Proof.
  unfold find_or_begin. rewrite lookup_empty. now apply map_begin_None.
Qed.

Lemma find_or_begin_lookup {V : Type} (m : gmap N V) (k k' : N) (v : V) :
  find_or_begin k m = Some (k', v) -> m !! k' = Some v.
Proof.
  unfold find_or_begin. destruct (m !! k) as [v0|] eqn:Hk.
  - now intros [= <- <-].
  - intros Hb. now apply map_begin_Some in Hb.
Qed.

Lemma map_for_each_Some {V : Type} (f : V -> option V) (m : gmap N V) :
  map_Forall (fun _ v => is_Some (f v)) m ->
  map_for_each f m = Some ((fun v => default v (f v)) <$> m).
Proof.
  intros Hall. unfold map_for_each.
  replace (forallb _ (map_to_list m)) with true; [reflexivity|].
  symmetry. apply forallb_forall. intros [k v] Hin.
  apply list_elem_of_In, elem_of_map_to_list in Hin.
  apply bool_decide_eq_true. exact (Hall k v Hin).
Qed.

Lemma map_for_each_inv {V : Type} (f : V -> option V) (m m' : gmap N V) :
  map_for_each f m = Some m' ->
  m' = (fun v => default v (f v)) <$> m /\ map_Forall (fun _ v => is_Some (f v)) m.
Proof.
  unfold map_for_each.
  destruct (forallb _ (map_to_list m)) eqn:Hall; [|discriminate].
  intros [= <-]. split; [reflexivity|]. intros k v Hk.
  rewrite forallb_forall in Hall.
  apply elem_of_map_to_list, list_elem_of_In in Hk.
  apply Hall in Hk. now apply bool_decide_eq_true in Hk.
Qed.

Lemma map_for_each_empty {V : Type} (f : V -> option V) :
  map_for_each f (∅ : gmap N V) = Some ∅.
Proof.
  rewrite map_for_each_Some; [now rewrite fmap_empty|]. apply map_Forall_empty.
Qed.

(** ** Date/time propagation *)

#[local] Arguments s_makeEllipsoidGeometry : simpl never.
#[local] Arguments s_makeDiscGeometry : simpl never.
#[local] Arguments buildStarGeometry : simpl never.
#[local] Arguments getDefaultStars : simpl never.
#[local] Arguments parseStarFile : simpl never.
#[local] Arguments sun_translate : simpl never.
#[local] Arguments stars_matrix : simpl never.
#[local] Arguments moon_matrix : simpl never.
#[local] Arguments sun_direction : simpl never.
#[local] Arguments mask_of : simpl never.
#[local] Arguments rot_z : simpl never.

Ltac destruct_entry d :=
  let l := fresh "l" in let u := fresh "u" in let c := fresh "c" in
  let sx := fresh "sx" in let mx := fresh "mx" in let stx := fresh "stx" in
  destruct d as [[l|] [u|] ? [c|] [sx|] [mx|] [stx|] ? ? ? ?].

Ltac use_entry_ok Hok :=
  let H1 := fresh in let H2 := fresh in let H3 := fresh in
  let H4 := fresh in let H5 := fresh in let H6 := fresh in
  destruct Hok as (H1 & H2 & H3 & H4 & H5 & H6); cbn in H1, H2, H3, H4, H5, H6;
  try (now (destruct H1 as [? [=]])); try (now (destruct H2 as [? [=]]));
  try (now (destruct H3 as [? [=]])); try (now (destruct H4 as [? [=]]));
  try (now (destruct H5 as [? [=]])); try (now (destruct H6 as [? [=]])).

Ltac wf_split :=
  unfold wf; split; [|split; [|split; [|split; [|split; [|split; [|split]]]]]].

Section Propagation.
Context `{Host}.

(** [onSetDateTime] written out: with an ellipsoid, the default record and
    every registered record are brought to the node's date/time *)
Lemma onSetDateTime_eq (n : SimpleSkyNode) :
  is_Some (_ellipsoidModel n) ->
  map_Forall (fun _ d => is_Some (_starsXform d)) (_perViewData n) ->
  onSetDateTime n
  = Some (with_perViewData (sync_data n <$> _perViewData n)
            (with_defaultPerViewData (sync_default n (_defaultPerViewData n))
               (with_moonPosition (getMoonPositionECEF (getEphemeris n) (getDateTime n)) n))).
Proof.
  intros [em Hem] Hall. unfold onSetDateTime. rewrite Hem. cbn [N.eqb].
  unfold setSunPosition, setMoonPosition. cbn [N.eqb]. cbn -[setStars_data sync_data].
  rewrite map_for_each_Some.
  - cbn. f_equal. unfold with_perViewData. cbn. f_equal.
    rewrite <- !map_fmap_compose. apply map_fmap_ext. intros k d Hd.
    unfold sync_data, compose. reflexivity.
  - intros k d Hd. rewrite !lookup_fmap in Hd.
    destruct (_perViewData n !! k) as [d0|] eqn:Hk; [|discriminate].
    injection Hd as <-. specialize (Hall k d0 Hk). destruct Hall as [x Hx].
    unfold setStars_data, setMoonPosition_data, setSunPosition_data.
    destruct d0 as [[l|] [u|] lp c [sx|] [mx|] stx]; cbn in *; rewrite Hx; eauto.
Qed.

Lemma sync_data_date_state (n : SimpleSkyNode) (d : PerViewData) :
  entry_ok d -> date_state (sync_data n d) = current_date_state n.
Proof. intros Hok. destruct_entry d; use_entry_ok Hok; reflexivity. Qed.

Lemma sync_data_ok (n : SimpleSkyNode) (d : PerViewData) :
  entry_ok d -> entry_ok (sync_data n d).
Proof.
  intros Hok. destruct_entry d; use_entry_ok Hok;
    unfold entry_ok; cbn; repeat split; eauto.
Qed.

Lemma sync_data_masks (n : SimpleSkyNode) (d : PerViewData) :
  stars_mask (sync_data n d) = stars_mask d /\
  sun_mask (sync_data n d) = sun_mask d /\
  moon_mask (sync_data n d) = moon_mask d.
Proof. destruct_entry d; repeat split; reflexivity. Qed.

Lemma sync_data_container (n : SimpleSkyNode) (d : PerViewData) :
  _cullContainer (sync_data n d) = _cullContainer d /\
  ambient <$> _light (sync_data n d) = ambient <$> _light d.
Proof. destruct_entry d; split; reflexivity. Qed.

(** the star matrix, the star transform and the date a record holds after
    the propagation *)
Lemma sync_data_stars (n : SimpleSkyNode) (d : PerViewData) :
  is_Some (_starsXform d) ->
  _starsMatrix (sync_data n d) = stars_matrix (getDateTime n) /\
  matrix <$> _starsXform (sync_data n d) = Some (stars_matrix (getDateTime n)) /\
  _date (sync_data n d) = getDateTime n.
Proof.
  intros [x Hx]. destruct_entry d; cbn in Hx; try discriminate; repeat split; reflexivity.
Qed.

Lemma sync_default_fields (n : SimpleSkyNode) (d : PerViewData) :
  (is_Some (_light d) -> is_Some (_light (sync_default n d))) /\
  (is_Some (_lightPosUniform d) -> is_Some (_lightPosUniform (sync_default n d))) /\
  (is_Some (_sunXform d) -> is_Some (_sunXform (sync_default n d))) /\
  (is_Some (_moonXform d) -> is_Some (_moonXform (sync_default n d))) /\
  _starsXform (sync_default n d) = _starsXform d /\
  _starsMatrix (sync_default n d) = stars_matrix (getDateTime n) /\
  _date (sync_default n d) = getDateTime n.
Proof.
  destruct_entry d; cbn; repeat split; intros; eauto.
Qed.

Lemma current_date_state_frame (n n' : SimpleSkyNode) :
  getDateTime n' = getDateTime n -> getEphemeris n' = getEphemeris n ->
  _sunDistance n' = _sunDistance n ->
  current_date_state n' = current_date_state n.
Proof.
  intros Hd He Hs. unfold current_date_state, sun_direction, moon_matrix.
  now rewrite Hd, He, Hs.
Qed.

Lemma wf_stars_some (n : SimpleSkyNode) :
  wf n -> map_Forall (fun _ d => is_Some (_starsXform d)) (_perViewData n).
Proof.
  intros (_ & _ & _ & _ & _ & _ & _ & Hall) k d Hk. apply (Hall k d Hk).
Qed.

(** on a well-formed node [onSetDateTime] returns, and leaves a
    well-formed node whose records all hold the current date state *)
Lemma onSetDateTime_wf (n : SimpleSkyNode) :
  wf n ->
  exists n', onSetDateTime n = Some n' /\ wf n' /\ synced n' /\
    base n' = base n /\ _sunDistance n' = _sunDistance n /\
    _autoAmbience n' = _autoAmbience n /\
    _perViewData n' = sync_data n <$> _perViewData n /\
    _defaultPerViewData n' = sync_default n (_defaultPerViewData n).
Proof.
  intros Hwf. pose proof (wf_stars_some n Hwf) as Hst.
  destruct Hwf as (Hem & Hl & Hu & Hsx & Hmx & Hstx & H0 & Hall).
  eexists. split; [apply onSetDateTime_eq; assumption|].
  pose proof (sync_default_fields n (_defaultPerViewData n)) as (F1 & F2 & F3 & F4 & F5 & _).
  split; [|split; [|cbn; repeat split; reflexivity]].
  - wf_split; cbn; auto.
    + rewrite <- Hstx. exact F5.
    + rewrite lookup_fmap, H0. reflexivity.
    + intros k d Hk. rewrite lookup_fmap in Hk.
      destruct (_perViewData n !! k) as [d0|] eqn:Hk0; [|discriminate].
      injection Hk as <-. apply sync_data_ok. exact (Hall k d0 Hk0).
  - intros k d Hk. cbn in Hk. rewrite lookup_fmap in Hk.
    destruct (_perViewData n !! k) as [d0|] eqn:Hk0; [|discriminate].
    injection Hk as <-. rewrite sync_data_date_state by exact (Hall k d0 Hk0).
    symmetry. now apply current_date_state_frame.
Qed.

End Propagation.

(** ** Construction *)

Section Construction.
Context `{Host}.

(** [makeSceneLighting] writes the stateset and nothing else *)
Lemma makeSceneLighting_frame (n : SimpleSkyNode) :
  makeSceneLighting n = with_stateset (stateset (makeSceneLighting n)) n.
Proof. destruct n. reflexivity. Qed.

Lemma makeAtmosphere_stage (em : EllipsoidModel) (n : SimpleSkyNode) :
  core (makeAtmosphere em n) = core n /\
  _defaultPerViewData (makeAtmosphere em n) = _defaultPerViewData n.
Proof. destruct n. split; reflexivity. Qed.

Lemma makeSun_stage (n : SimpleSkyNode) (moon : bool) :
  default_shape (_defaultPerViewData n) false moon ->
  core (makeSun n) = core n /\ default_shape (_defaultPerViewData (makeSun n)) true moon.
Proof.
  intros (Hl & Hu & _ & Hm & Hs). destruct n. split; [reflexivity|].
  unfold default_shape. cbn in *. repeat split; eauto.
Qed.

Lemma makeMoon_stage (w : World) (n : SimpleSkyNode) (sun : bool) :
  _perViewData n = ∅ -> default_shape (_defaultPerViewData n) sun false ->
  exists n', makeMoon w n = Some n' /\ core n' = core n /\
             default_shape (_defaultPerViewData n') sun true.
Proof.
  intros Hm (Hl & Hu & Hsx & _ & Hs). destruct n as [b sf d m]. cbn in Hm. subst m.
  unfold makeMoon, setMoonVisible, onSetMoonVisible.
  destruct (readImageFile w "moon_1024x512.jpg"); cbn; rewrite ?map_for_each_empty; cbn;
    (eexists; split; [reflexivity|]; split; [reflexivity|]);
    unfold default_shape; cbn in *; repeat split; eauto.
Qed.

Lemma makeStars_stage (w : World) (n : SimpleSkyNode) :
  core (makeStars w n) = core n /\
  _defaultPerViewData (makeStars w n) = _defaultPerViewData n.
Proof. destruct n. split; reflexivity. Qed.

Lemma with_autoAmbience_stage (v : bool) (n : SimpleSkyNode) :
  core (with_autoAmbience v n) = core n /\
  _defaultPerViewData (with_autoAmbience v n) = _defaultPerViewData n /\
  _autoAmbience (with_autoAmbience v n) = v.
Proof. destruct n. repeat split; reflexivity. Qed.

Lemma onSetDateTime_core (n n' : SimpleSkyNode) :
  wf n -> onSetDateTime n = Some n' ->
  _ellipsoidModel n' = _ellipsoidModel n /\ base n' = base n /\
  _innerRadius n' = _innerRadius n /\ _outerRadius n' = _outerRadius n /\
  _sunDistance n' = _sunDistance n /\ stateset n' = stateset n /\
  _autoAmbience n' = _autoAmbience n.
Proof.
  intros Hwf Hn. rewrite onSetDateTime_eq in Hn.
  - injection Hn as <-. repeat split; reflexivity.
  - apply Hwf.
  - now apply wf_stars_some.
Qed.

(** the node that [initialize] leaves after construction *)
Lemma initialize_construct (w : World) (em : EllipsoidModel) (b : SkyNode)
    (options_starFile : option string) :
  exists n, initialize w (Some em) (construct b options_starFile) = Some n /\
    wf n /\ _perViewData n = ∅ /\
    _dateTime (base n) = _dateTime b /\ _ephemeris (base n) = _ephemeris b /\
    _sunVisible (base n) = _sunVisible b /\ _starsVisible (base n) = _starsVisible b /\
    _innerRadius n = F32.of_double (getRadiusPolar em) /\
    _outerRadius n = F32.mul (F32.of_double (getRadiusPolar em)) (F32.lit 1025 1000) /\
    _sunDistance n = F32.mul (F32.of_double (getRadiusPolar em)) (F32.of_int 12000) /\
    _autoAmbience n = false /\
    stateset n
    = stateset (makeSceneLighting
                  (with_radii (F32.of_double (getRadiusPolar em))
                     (F32.mul (F32.of_double (getRadiusPolar em)) (F32.lit 1025 1000))
                     (F32.mul (F32.of_double (getRadiusPolar em)) (F32.of_int 12000))
                     (construct b options_starFile))).
Proof.
  unfold initialize. cbn [_ellipsoidModel with_ellipsoidModel mbind option_bind].
  match goal with
  | |- context [makeSceneLighting ?x] => set (n1 := makeSceneLighting x)
  end.
  assert (C1 : core n1
               = (∅, Some em, _dateTime b, _ephemeris b, _sunVisible b, _starsVisible b,
                  F32.of_double (getRadiusPolar em),
                  F32.mul (F32.of_double (getRadiusPolar em)) (F32.lit 1025 1000),
                  F32.mul (F32.of_double (getRadiusPolar em)) (F32.of_int 12000),
                  stateset (makeSceneLighting
                    (with_radii (F32.of_double (getRadiusPolar em))
                       (F32.mul (F32.of_double (getRadiusPolar em)) (F32.lit 1025 1000))
                       (F32.mul (F32.of_double (getRadiusPolar em)) (F32.of_int 12000))
                       (construct b options_starFile))))).
  { unfold n1. rewrite makeSceneLighting_frame. reflexivity. }
  assert (D1 : default_shape (_defaultPerViewData n1) false false).
  { unfold n1. rewrite makeSceneLighting_frame. unfold default_shape. cbn.
    repeat split; eauto; discriminate. }
  clearbody n1.
  destruct (makeAtmosphere_stage em n1) as [C2 E2].
  set (n2 := makeAtmosphere em n1) in *. rewrite <- E2 in D1. clearbody n2.
  destruct (makeSun_stage n2 false D1) as [C3 D3].
  set (n3 := makeSun n2) in *. clearbody n3.
  assert (M3 : _perViewData n3 = ∅).
  { assert (Hc : core n3 = core n1) by congruence. rewrite C1 in Hc.
    unfold core in Hc. congruence. }
  destruct (makeMoon_stage w n3 true M3 D3) as (n4 & -> & C4 & D4).
  cbn [mbind option_bind].
  match goal with
  | |- context [makeStars w ?x] => set (n5 := x)
  end.
  assert (C5 : core n5 = core n4 /\ _defaultPerViewData n5 = _defaultPerViewData n4).
  { unfold n5. destruct (F32.ltb _ _); [destruct (getenv w _)|];
      destruct n4; split; reflexivity. }
  destruct C5 as [C5 E5]. clearbody n5.
  destruct (makeStars_stage w n5) as [C6 E6].
  set (n6 := makeStars w n5) in *. clearbody n6.
  destruct (with_autoAmbience_stage false n6) as (C7 & E7 & A7).
  set (n7 := with_autoAmbience false n6) in *. clearbody n7.
  assert (D7 : default_shape (_defaultPerViewData n7) true true) by congruence.
  assert (C7' : core n7 = core n1) by congruence.
  clear C7. rename C7' into C7. rewrite C1 in C7. unfold core in C7.
  injection C7 as Hm He Hdt Heph Hsv Hstv Hri Hro Hsd Hss.
  assert (W7 : wf n7).
  { destruct D7 as (Hl & Hu & Hsx & Hmx & Hstx).
    wf_split;
      [ rewrite He; eauto | exact Hl | exact Hu | now apply Hsx | now apply Hmx | exact Hstx
      | rewrite Hm; apply lookup_empty | rewrite Hm; apply map_Forall_empty ]. }
  destruct (onSetDateTime_wf n7 W7) as (n8 & Hn8 & W8 & _ & Hb8 & _ & _ & Hm8 & _).
  destruct (onSetDateTime_core n7 n8 W7 Hn8) as (_ & _ & Hri8 & Hro8 & Hsd8 & Hss8 & Ha8).
  exists n8. split; [exact Hn8|]. split; [exact W8|].
  rewrite Hm8, Hm, fmap_empty, Hb8, Hri8, Hro8, Hsd8, Hss8, Ha8.
  repeat split; assumption.
Qed.

Lemma initialize_null_ellipsoid (w : World) (n : SimpleSkyNode) : initialize w None n = None.
Proof. reflexivity. Qed.

End Construction.

(** ** Operations on a constructed node *)

Section Operations.
Context `{Host}.

Lemma wf_default_shape (n : SimpleSkyNode) :
  wf n -> default_shape (_defaultPerViewData n) true true.
Proof.
  intros (_ & Hl & Hu & Hsx & Hmx & Hstx & _). unfold default_shape. auto.
Qed.

(** a node whose records are, key by key, records of a well-formed and
    synchronised node with the same pointers and date state *)
Lemma wf_synced_pointwise (n n' : SimpleSkyNode) :
  wf n -> synced n ->
  _ellipsoidModel n' = _ellipsoidModel n ->
  getDateTime n' = getDateTime n -> getEphemeris n' = getEphemeris n ->
  _sunDistance n' = _sunDistance n ->
  default_shape (_defaultPerViewData n') true true ->
  (forall k d', _perViewData n' !! k = Some d' ->
     exists d, _perViewData n !! k = Some d /\
               (entry_ok d -> entry_ok d' /\ date_state d' = date_state d)) ->
  wf n' /\ synced n'.
Proof.
  intros (Hem & _ & _ & _ & _ & _ & H0 & Hall) Hsy He Hd Hep Hsd (Dl & Du & Dsx & Dmx & Dst) Hpt.
  split.
  - wf_split; [now rewrite He | exact Dl | exact Du | now apply Dsx | now apply Dmx
               | exact Dst | | ].
    + destruct (_perViewData n' !! 0%N) as [d'|] eqn:Hk; [|reflexivity].
      destruct (Hpt _ _ Hk) as (d & Hd0 & _). congruence.
    + intros k d' Hk. destruct (Hpt _ _ Hk) as (d & Hkd & Hok).
      now apply Hok, (Hall k d).
  - intros k d' Hk. destruct (Hpt _ _ Hk) as (d & Hkd & Hok).
    destruct (Hok (Hall k d Hkd)) as [_ ->].
    rewrite (Hsy k d Hkd). symmetry. now apply current_date_state_frame.
Qed.

(** [attach] of a non-null view builds the record of the view from the
    default record, stores it under the view and propagates the date/time *)
Lemma attach_eq (n : SimpleSkyNode) (view : N) (lightNum : Z) (light : Light) :
  view <> 0%N -> _light (_defaultPerViewData n) = Some light ->
  attach view lightNum n
  = onSetDateTime (with_perViewData (<[view := attach_entry n lightNum light]> (_perViewData n)) n).
Proof.
  intros Hv Hl. unfold attach. destruct (N.eqb_spec view 0) as [|_]; [contradiction|].
  unfold map_index. destruct (_perViewData n !! view) as [d|] eqn:Hk;
    rewrite Hl; cbn [mbind option_bind]; rewrite ?insert_insert_eq; reflexivity.
Qed.

Lemma attach_null (n : SimpleSkyNode) (lightNum : Z) : attach 0 lightNum n = Some n.
Proof. reflexivity. Qed.

Lemma attach_entry_ok (n : SimpleSkyNode) (lightNum : Z) (light : Light) :
  is_Some (_lightPosUniform (_defaultPerViewData n)) ->
  entry_ok (attach_entry n lightNum light).
Proof. intros Hu. unfold entry_ok, attach_entry. cbn. repeat split; eauto. Qed.

(** on a well-formed node [attach] returns; the registry of the result is
    the old one with the record of the view replaced or added, every record
    brought to the node's date/time *)
Lemma attach_wf (n : SimpleSkyNode) (view : N) (lightNum : Z) :
  wf n -> view <> 0%N ->
  exists n' light, _light (_defaultPerViewData n) = Some light /\
    attach view lightNum n = Some n' /\ wf n' /\ synced n' /\
    base n' = base n /\ _sunDistance n' = _sunDistance n /\
    _autoAmbience n' = _autoAmbience n /\
    _perViewData n'
    = sync_data n <$> <[view := attach_entry n lightNum light]> (_perViewData n) /\
    _defaultPerViewData n' = sync_default n (_defaultPerViewData n).
Proof.
  intros Hwf Hv. pose proof Hwf as (Hem & [light Hl] & Hu & Hsx & Hmx & Hstx & H0 & Hall).
  set (n2 := with_perViewData (<[view := attach_entry n lightNum light]> (_perViewData n)) n).
  assert (W2 : wf n2).
  { wf_split; try assumption.
    - eauto.
    - cbn. rewrite lookup_insert_ne by congruence. exact H0.
    - cbn. apply map_Forall_insert_2; [|exact Hall]. now apply attach_entry_ok. }
  destruct (onSetDateTime_wf n2 W2) as (n' & Hn' & W' & S' & Hb & Hsd & Ha & Hm & Hdf).
  exists n', light. split; [exact Hl|]. split; [now rewrite (attach_eq n view lightNum light)|].
  exact (conj W' (conj S' (conj Hb (conj Hsd (conj Ha (conj Hm Hdf)))))).
Qed.

(** the handlers of the sun and moon switches on a well-formed node *)
Lemma onSetSunVisible_wf (n : SimpleSkyNode) :
  wf n ->
  exists n', onSetSunVisible n = Some n' /\ base n' = base n /\
    _ellipsoidModel n' = _ellipsoidModel n /\ _sunDistance n' = _sunDistance n /\
    default_shape (_defaultPerViewData n') true true /\
    _perViewData n'
    = (fun d => default d (mask_sun (mask_of (getSunVisible n)) d)) <$> _perViewData n.
Proof.
  intros Hwf. pose proof (wf_default_shape n Hwf) as (Dl & Du & Dsx & Dmx & Dst).
  destruct Hwf as (_ & _ & _ & [x Hx] & _ & _ & _ & Hall).
  unfold onSetSunVisible. rewrite Hx. cbn [_perViewData with_defaultPerViewData].
  rewrite map_for_each_Some.
  - eexists. split; [reflexivity|]. cbn. repeat split; auto.
  - intros k d Hk. destruct (Hall k d Hk) as (_ & _ & _ & [sx Hs] & _).
    unfold mask_sun. rewrite Hs. cbn. eauto.
Qed.

Lemma onSetMoonVisible_wf (n : SimpleSkyNode) :
  wf n ->
  exists n', onSetMoonVisible n = Some n' /\ base n' = base n /\
    _ellipsoidModel n' = _ellipsoidModel n /\ _sunDistance n' = _sunDistance n /\
    default_shape (_defaultPerViewData n') true true /\
    _perViewData n'
    = (fun d => default d (mask_moon (mask_of (getMoonVisible n)) d)) <$> _perViewData n.
Proof.
  intros Hwf. pose proof (wf_default_shape n Hwf) as (Dl & Du & Dsx & Dmx & Dst).
  destruct Hwf as (_ & _ & _ & _ & [x Hx] & _ & _ & Hall).
  unfold onSetMoonVisible. rewrite Hx. cbn [_perViewData with_defaultPerViewData].
  rewrite map_for_each_Some.
  - eexists. split; [reflexivity|]. cbn. repeat split; auto.
  - intros k d Hk. destruct (Hall k d Hk) as (_ & _ & _ & _ & [mx Hs] & _).
    unfold mask_moon. rewrite Hs. cbn. eauto.
Qed.

(** the handler of the star switch finds no star transform in the default
    record and leaves the node as it is *)
Lemma onSetStarsVisible_noop (n : SimpleSkyNode) :
  _starsXform (_defaultPerViewData n) = None -> onSetStarsVisible n = Some n.
Proof. intros Hs. unfold onSetStarsVisible. now rewrite Hs. Qed.

Lemma mask_sun_entry (mask : Z) (d : PerViewData) :
  entry_ok d ->
  entry_ok (default d (mask_sun mask d)) /\
  date_state (default d (mask_sun mask d)) = date_state d /\
  sun_mask (default d (mask_sun mask d)) = Some mask /\
  moon_mask (default d (mask_sun mask d)) = moon_mask d /\
  stars_mask (default d (mask_sun mask d)) = stars_mask d.
Proof.
  intros Hok. destruct_entry d; use_entry_ok Hok;
    unfold entry_ok; cbn; repeat split; eauto.
Qed.

Lemma mask_moon_entry (mask : Z) (d : PerViewData) :
  entry_ok d ->
  entry_ok (default d (mask_moon mask d)) /\
  date_state (default d (mask_moon mask d)) = date_state d /\
  moon_mask (default d (mask_moon mask d)) = Some mask /\
  sun_mask (default d (mask_moon mask d)) = sun_mask d /\
  stars_mask (default d (mask_moon mask d)) = stars_mask d.
Proof.
  intros Hok. destruct_entry d; use_entry_ok Hok;
    unfold entry_ok; cbn; repeat split; eauto.
Qed.

(** the record that a cull traversal leaves for the resolved view *)
Lemma traverse_eq (n : SimpleSkyNode) (cv : CullVisitor) (k : N) (d : PerViewData)
    (l : Light) (c : Group) :
  find_or_begin (cv_view cv) (_perViewData n) = Some (k, d) ->
  _light d = Some l -> _cullContainer d = Some c ->
  let amb := auto_ambience (Vec3_dot (Vec3_normalize (cv_viewPoint cv))
                              (Vec3_normalize (_lightPos d))) in
  let d' := if _autoAmbience n
            then with_light (Some (setAmbient (mkVec4 amb amb amb (F32.of_int 1)) l)) d
            else d in
  traverse (Some cv) n
  = Some (with_perViewData (<[k := d']> (_perViewData n)) n, into_cullContainer k c).
Proof.
  intros Hf Hl Hc amb d'. unfold traverse. rewrite Hf. cbn [mbind option_bind fst snd].
  unfold d', amb. destruct (_autoAmbience n).
  - rewrite Hl. cbn [mbind option_bind]. cbn [_cullContainer with_light]. rewrite Hc.
    reflexivity.
  - cbn [mbind option_bind]. rewrite Hc. reflexivity.
Qed.

Lemma traverse_not_cull (n : SimpleSkyNode) : traverse None n = Some (n, into_children).
Proof. reflexivity. Qed.

Lemma traverse_empty (n : SimpleSkyNode) (cv : CullVisitor) :
  _perViewData n = ∅ -> traverse (Some cv) n = None.
Proof. intros Hm. unfold traverse. now rewrite Hm, find_or_begin_empty. Qed.

Lemma ambience_entry (a : Vec4) (l : Light) (d : PerViewData) :
  _light d = Some l -> entry_ok d ->
  entry_ok (with_light (Some (setAmbient a l)) d) /\
  date_state (with_light (Some (setAmbient a l)) d) = date_state d.
Proof.
  intros Hl Hok. destruct_entry d; use_entry_ok Hok; cbn in Hl; injection Hl as ->;
    unfold entry_ok; cbn; repeat split; eauto.
Qed.

Lemma traverse_wf (n n' : SimpleSkyNode) (nv : option CullVisitor) (t : Traversed) :
  wf n -> synced n -> traverse nv n = Some (n', t) -> wf n' /\ synced n'.
Proof.
  intros Hwf Hsy Ht. destruct nv as [cv|]; [|injection Ht as <- _; now split].
  destruct (find_or_begin (cv_view cv) (_perViewData n)) as [[k d]|] eqn:Hf;
    [|unfold traverse in Ht; rewrite Hf in Ht; discriminate].
  pose proof (find_or_begin_lookup _ _ _ _ Hf) as Hk.
  pose proof Hwf as (_ & _ & _ & _ & _ & _ & _ & Hall).
  pose proof (Hall k d Hk) as Hok. pose proof Hok as ([l Hl] & _ & [c Hc] & _).
  rewrite (traverse_eq n cv k d l c Hf Hl Hc) in Ht. injection Ht as <- _.
  apply (wf_synced_pointwise n); try reflexivity; try assumption.
  - exact (wf_default_shape n Hwf).
  - intros k' d' Hk'. cbn in Hk'. destruct (decide (k = k')) as [<-|Hne].
    + rewrite lookup_insert_eq in Hk'. injection Hk' as <-. exists d. split; [exact Hk|].
      intros _. destruct (_autoAmbience n); [now apply ambience_entry|now split].
    + rewrite lookup_insert_ne in Hk' by exact Hne. exists d'. split; [exact Hk'|]. now split.
Qed.

(** every state of the node is well formed and synchronised *)
Lemma reachable_wf_synced (n : SimpleSkyNode) : reachable n -> wf n /\ synced n.
Proof.
  induction 1 as [w srs b o n Hi | n view lightNum n' _ [Hwf Hsy] Ha
                  | n dt n' _ [Hwf Hsy] Hs | n e n' _ [Hwf Hsy] Hs
                  | n value n' _ [Hwf Hsy] Hs | n value n' _ [Hwf Hsy] Hs
                  | n value n' _ [Hwf Hsy] Hs | n nv n' t _ [Hwf Hsy] Ht].
  - destruct srs as [em|]; [|discriminate].
    destruct (initialize_construct w em b o) as (n0 & Hn0 & Hwf & Hm & _).
    rewrite Hn0 in Hi. injection Hi as <-. split; [exact Hwf|].
    unfold synced. rewrite Hm. apply map_Forall_empty.
  - destruct (N.eq_dec view 0%N) as [->|Hv].
    + rewrite attach_null in Ha. injection Ha as <-. now split.
    + destruct (attach_wf n view lightNum Hwf Hv) as (n2 & light & _ & Hn2 & W2 & S2 & _).
      rewrite Hn2 in Ha. injection Ha as <-. now split.
  - unfold setDateTime in Hs.
    destruct (onSetDateTime_wf (with_base (with_dateTime dt (base n)) n) Hwf)
      as (n2 & Hn2 & W2 & S2 & _).
    rewrite Hn2 in Hs. injection Hs as <-. now split.
  - unfold setEphemeris, onSetEphemeris in Hs.
    destruct (onSetDateTime_wf (with_base (with_ephemeris e (base n)) n) Hwf)
      as (n2 & Hn2 & W2 & S2 & _).
    rewrite Hn2 in Hs. injection Hs as <-. now split.
  - unfold setSunVisible in Hs.
    destruct (onSetSunVisible_wf (with_base (with_sunVisible value (base n)) n) Hwf)
      as (n2 & Hn2 & Hb & He & Hsd & Hds & Hm).
    rewrite Hn2 in Hs. injection Hs as <-.
    apply (wf_synced_pointwise n); try assumption.
    + unfold getDateTime. now rewrite Hb.
    + unfold getEphemeris. now rewrite Hb.
    + intros k d' Hk. rewrite Hm, lookup_fmap in Hk. cbn in Hk.
      destruct (_perViewData n !! k) as [d|] eqn:Hkd; [|discriminate].
      injection Hk as <-. exists d. split; [reflexivity|]. intros Hok.
      destruct (mask_sun_entry (mask_of value) d Hok) as (? & ? & _). now split.
  - unfold setMoonVisible in Hs.
    destruct (onSetMoonVisible_wf (with_base (with_moonVisible value (base n)) n) Hwf)
      as (n2 & Hn2 & Hb & He & Hsd & Hds & Hm).
    rewrite Hn2 in Hs. injection Hs as <-.
    apply (wf_synced_pointwise n); try assumption.
    + unfold getDateTime. now rewrite Hb.
    + unfold getEphemeris. now rewrite Hb.
    + intros k d' Hk. rewrite Hm, lookup_fmap in Hk. cbn in Hk.
      destruct (_perViewData n !! k) as [d|] eqn:Hkd; [|discriminate].
      injection Hk as <-. exists d. split; [reflexivity|]. intros Hok.
      destruct (mask_moon_entry (mask_of value) d Hok) as (? & ? & _). now split.
  - unfold setStarsVisible in Hs. rewrite onSetStarsVisible_noop in Hs by apply Hwf.
    injection Hs as <-. now split.
  - exact (traverse_wf n n' nv t Hwf Hsy Ht).
Qed.

End Operations.

(** ** Traversal *)

(** C1 as the code has it: a registered view resolves to its own record
    and the traversal continues into the cull container of that record; an
    unregistered view resolves, in a registry that is not empty, to the record
    of the least registered view.  The default record is a member of the node
    and no entry of the registry: the registry is empty after initialization
    and holds a view once the view is attached. *)
Theorem traverse_resolution `{Host} (n : SimpleSkyNode) (cv : CullVisitor) :
  reachable n ->
  (forall d, _perViewData n !! cv_view cv = Some d ->
     exists n' c, traverse (Some cv) n = Some (n', into_cullContainer (cv_view cv) c) /\
                  _cullContainer d = Some c) /\
  (_perViewData n !! cv_view cv = None -> _perViewData n <> ∅ ->
     exists n' k d c, traverse (Some cv) n = Some (n', into_cullContainer k c) /\
                      _perViewData n !! k = Some d /\ _cullContainer d = Some c /\
                      forall k' d', _perViewData n !! k' = Some d' -> (k <= k')%N) /\
  (forall w em b o n0, initialize w (Some em) (construct b o) = Some n0 ->
     _perViewData n0 = ∅) /\
  (forall view lightNum, view <> 0%N ->
     exists n', attach view lightNum n = Some n' /\ is_Some (_perViewData n' !! view)).
Proof.
  intros Hr. destruct (reachable_wf_synced n Hr) as [Hwf _].
  pose proof Hwf as (_ & _ & _ & _ & _ & _ & _ & Hall).
  split; [|split; [|split]].
  - intros d Hd. pose proof (Hall _ d Hd) as ([l Hl] & _ & [c Hc] & _).
    eexists _, c. split; [|exact Hc].
    apply (traverse_eq n cv (cv_view cv) d l c); auto using find_or_begin_found.
  - intros Hnone Hne.
    destruct (find_or_begin_fallback _ _ Hnone Hne) as (k & d & Hf & Hk & Hleast).
    pose proof (Hall _ d Hk) as ([l Hl] & _ & [c Hc] & _).
    eexists _, k, d, c. split; [apply (traverse_eq n cv k d l c); assumption|]. auto.
  - intros w em b o n0 Hi.
    destruct (initialize_construct w em b o) as (n1 & Hn1 & _ & Hm & _). congruence.
  - intros view lightNum Hv.
    destruct (attach_wf n view lightNum Hwf Hv) as (n' & light & _ & Hn' & _ & _ & _ & _ & _ & Hm & _).
    exists n'. split; [exact Hn'|]. rewrite Hm, lookup_fmap, lookup_insert_eq. cbn. eauto.
Qed.

(** the claim of C1 fails after initialization: the registry is empty
    before a view is attached, and a cull traversal finds no record *)
Lemma traverse_before_attach :
  initialize (H:=test_host) test_world (Some wgs84) (construct (H:=test_host) test_base None)
  = Some test_node0 /\
  _perViewData test_node0 = ∅ /\
  find_or_begin (cv_view test_cv) (_perViewData test_node0) = None /\
  traverse (H:=test_host) (Some test_cv) test_node0 = None.
Proof.
  destruct (initialize_construct (H:=test_host) test_world wgs84 test_base None)
    as (n & Hn & _ & Hm & _).
  assert (E : test_node0 = n) by (unfold test_node0; now rewrite Hn).
  rewrite E. split; [exact Hn|]. split; [exact Hm|]. split.
  - rewrite Hm. apply find_or_begin_empty.
  - now apply traverse_empty.
Qed.

(** the run of the test host: construction, then one attached view, whose
    record holds the full masks *)
Lemma test_run :
  initialize (H:=test_host) test_world (Some wgs84) (construct (H:=test_host) test_base None)
  = Some test_node0 /\
  attach (H:=test_host) 1 0 test_node0 = Some test_node1 /\
  reachable (H:=test_host) test_node1 /\
  exists d, _perViewData test_node1 !! 1%N = Some d /\
            stars_mask d = Some (mask_of true) /\ sun_mask d = Some (mask_of true).
Proof.
  destruct (initialize_construct (H:=test_host) test_world wgs84 test_base None)
    as (n0 & Hn0 & Hwf & Hm & _ & _ & Hsv & Hstv & _).
  assert (H0 : initialize (H:=test_host) test_world (Some wgs84)
                 (construct (H:=test_host) test_base None) = Some test_node0).
  { unfold test_node0. now rewrite Hn0. }
  assert (E0 : test_node0 = n0) by congruence.
  assert (Hv : 1%N <> 0%N) by discriminate.
  destruct (attach_wf (H:=test_host) n0 1 0 Hwf Hv)
    as (n1 & light & Hl & Hn1 & _ & _ & Hb & _ & _ & Hm1 & _).
  assert (H1 : attach (H:=test_host) 1 0 test_node0 = Some test_node1).
  { unfold test_node1. rewrite E0, Hn1. reflexivity. }
  assert (E1 : test_node1 = n1) by (rewrite E0 in H1; congruence).
  split; [exact H0|]. split; [exact H1|]. split.
  { eapply reach_attach; [|exact H1]. eapply reach_initialize. exact H0. }
  exists (sync_data (H:=test_host) n0 (attach_entry (H:=test_host) n0 0 light)).
  split; [now rewrite E1, Hm1, lookup_fmap, lookup_insert_eq|].
  destruct (sync_data_masks (H:=test_host) n0 (attach_entry (H:=test_host) n0 0 light))
    as (-> & -> & _).
  unfold stars_mask, sun_mask, attach_entry, getStarsVisible, getSunVisible. cbn.
  rewrite Hsv, Hstv. split; reflexivity.
Defined.

(** resolution in the test node after one viewport has been attached *)
Lemma traverse_resolution_witness :
  reachable (H:=test_host) test_node1 /\
  exists n' c,
    traverse (H:=test_host) (Some test_cv) test_node1 = Some (n', into_cullContainer 1 c).
Proof.
  destruct test_run as (_ & _ & Hr & d & Hd & _).
  split; [exact Hr|].
  destruct (@traverse_resolution test_host test_node1 test_cv Hr) as (Hfound & _).
  destruct (Hfound d Hd) as (n' & c & Ht & _).
  exists n', c. exact Ht.
Defined.

(** ** Visibility *)

(** in every state the star switch changes the flag and no node mask *)
Lemma setStarsVisible_reachable `{Host} (n : SimpleSkyNode) (value : bool) :
  reachable n ->
  exists n', setStarsVisible value n = Some n' /\
    getStarsVisible n' = value /\
    _starsXform (_defaultPerViewData n') = None /\
    _defaultPerViewData n' = _defaultPerViewData n /\
    _perViewData n' = _perViewData n.
Proof.
  intros Hr. destruct (reachable_wf_synced n Hr) as [Hwf _].
  destruct Hwf as (_ & _ & _ & _ & _ & Hst & _).
  exists (with_base (with_starsVisible value (base n)) n). split.
  - unfold setStarsVisible. apply onSetStarsVisible_noop. exact Hst.
  - split; [reflexivity|]. split; [exact Hst|]. split; reflexivity.
Qed.

(** the sibling switch of the sun masks the sun transform of every
    registered record and leaves its moon and star masks alone *)
Lemma setSunVisible_reachable `{Host} (n : SimpleSkyNode) (value : bool) :
  reachable n ->
  exists n', setSunVisible value n = Some n' /\
    map_Forall (fun _ d => sun_mask d = Some (mask_of value)) (_perViewData n') /\
    forall k d', _perViewData n' !! k = Some d' ->
      exists d, _perViewData n !! k = Some d /\
                moon_mask d' = moon_mask d /\ stars_mask d' = stars_mask d.
Proof.
  intros Hr. destruct (reachable_wf_synced n Hr) as [Hwf _].
  pose proof Hwf as (_ & _ & _ & _ & _ & _ & _ & Hall).
  unfold setSunVisible.
  destruct (onSetSunVisible_wf (with_base (with_sunVisible value (base n)) n) Hwf)
    as (n' & Hn' & _ & _ & _ & _ & Hm).
  exists n'. split; [exact Hn'|]. cbn in Hm. split.
  - intros k d' Hk. rewrite Hm, lookup_fmap in Hk.
    destruct (_perViewData n !! k) as [d|] eqn:Hkd; [|discriminate].
    injection Hk as <-. now apply mask_sun_entry, (Hall k d).
  - intros k d' Hk. rewrite Hm, lookup_fmap in Hk.
    destruct (_perViewData n !! k) as [d|] eqn:Hkd; [|discriminate].
    injection Hk as <-. exists d. split; [reflexivity|].
    destruct (mask_sun_entry (mask_of value) d (Hall k d Hkd)) as (_ & _ & _ & ? & ?).
    now split.
Qed.

(** C2: after construction and the attachment of view 1, switching the
    stars off stores the flag and masks nothing: the default record has no
    star transform, the registry is left as it is, and the star transform of
    view 1 keeps the full mask. *)
Theorem stars_switch_masks_nothing :
  exists n2 d,
    initialize (H:=test_host) test_world (Some wgs84) (construct (H:=test_host) test_base None)
    = Some test_node0 /\
    attach (H:=test_host) 1 0 test_node0 = Some test_node1 /\
    setStarsVisible false test_node1 = Some n2 /\
    getStarsVisible n2 = false /\
    _starsXform (_defaultPerViewData n2) = None /\
    _perViewData n2 = _perViewData test_node1 /\
    _perViewData n2 !! 1%N = Some d /\
    stars_mask d = Some 4294967295.
Proof.
  destruct test_run as (Hn0 & Hn1 & Hr & d & Hd & Hst & _).
  destruct (@setStarsVisible_reachable test_host test_node1 false Hr)
    as (n2 & Hn2 & Hflag & Hdef & _ & Hm).
  exists n2, d.
  split; [exact Hn0|]. split; [exact Hn1|]. split; [exact Hn2|].
  split; [exact Hflag|]. split; [exact Hdef|]. split; [exact Hm|].
  split; [rewrite Hm; exact Hd|exact Hst].
Qed.

(** ** Star rotation and re-attachment *)

(** C3 as the code has it: a date/time change stores, in the default
    record and in every registered record, the rotation about the z axis by
    minus theta, with theta = -pi + 2 pi (hours / 24); every registered
    record also stores the date/time.  Theta is zero when the hours are 12. *)
Theorem star_rotation `{Host} (n : SimpleSkyNode) (dt : DateTime) :
  reachable n ->
  let theta := F64.add (F64.opp PI) (F64.mul TWO_PI (F64.div (hours dt) (F64.of_int 24))) in
  let starsMatrix :=
    Matrixd_rotate (F64.opp theta) (F64.of_int 0) (F64.of_int 0) (F64.of_int 1) in
  exists n', setDateTime dt n = Some n' /\
    _starsMatrix (_defaultPerViewData n') = starsMatrix /\
    map_Forall (fun _ d => _starsMatrix d = starsMatrix /\
                           matrix <$> _starsXform d = Some starsMatrix /\
                           _date d = dt) (_perViewData n') /\
    (hours dt = F64.of_int 12 -> theta = S754_zero false).
Proof.
  intros Hr theta starsMatrix. destruct (reachable_wf_synced n Hr) as [Hwf _].
  pose proof (wf_stars_some n Hwf) as Hst.
  unfold setDateTime.
  destruct (onSetDateTime_wf (with_base (with_dateTime dt (base n)) n) Hwf)
    as (n' & Hn' & _ & _ & _ & _ & _ & Hm & Hd).
  exists n'. split; [exact Hn'|]. split; [|split].
  - rewrite Hd. apply sync_default_fields.
  - intros k d' Hk. rewrite Hm, lookup_fmap in Hk. cbn in Hk.
    destruct (_perViewData n !! k) as [d|] eqn:Hkd; [|discriminate].
    injection Hk as <-.
    exact (sync_data_stars (with_base (with_dateTime dt (base n)) n) d (Hst k d Hkd)).
  - intros Hh. unfold theta. rewrite Hh. vm_compute. reflexivity.
Qed.

(** the date/time handler at noon on the test node with viewport 1 attached *)
Lemma star_rotation_witness :
  reachable (H:=test_host) test_node1 /\
  exists n',
    setDateTime (H:=test_host) noon test_node1 = Some n' /\
    _starsMatrix (_defaultPerViewData n')
    = Matrixd_rotate (Host:=test_host) (S754_zero true) (F64.of_int 0) (F64.of_int 0)
        (F64.of_int 1).
Proof.
  destruct test_run as (_ & _ & Hr & _).
  split; [exact Hr|].
  destruct (@star_rotation test_host test_node1 noon Hr) as (n' & Hn' & Hd & _).
  exists n'. split; [exact Hn'|]. exact Hd.
Defined.

(** C5: attaching a view that is registered returns, leaves the size of
    the registry as it is and leaves the date state of the view's record as it
    is: the date/time, the sun direction with the light position, uniform and
    sun transform, the moon matrix and transform, the star matrix and
    transform.  The records of the other views keep their date state, node
    masks, cull container and ambient light. *)
Theorem attach_again `{Host} (n : SimpleSkyNode) (view : N) (lightNum : Z) (d : PerViewData) :
  reachable n -> _perViewData n !! view = Some d ->
  exists n' d', attach view lightNum n = Some n' /\
    size (_perViewData n') = size (_perViewData n) /\
    _perViewData n' !! view = Some d' /\
    date_state d' = date_state d /\
    date_state d' = current_date_state n' /\
    forall k dk, k <> view -> _perViewData n !! k = Some dk ->
      exists dk', _perViewData n' !! k = Some dk' /\
        date_state dk' = date_state dk /\
        stars_mask dk' = stars_mask dk /\ sun_mask dk' = sun_mask dk /\
        moon_mask dk' = moon_mask dk /\
        _cullContainer dk' = _cullContainer dk /\
        ambient <$> _light dk' = ambient <$> _light dk.
Proof.
  intros Hr Hd. destruct (reachable_wf_synced n Hr) as [Hwf Hsy].
  pose proof Hwf as (_ & _ & Hu & _ & _ & _ & H0 & Hall).
  assert (Hv : view <> 0%N) by (intros ->; congruence).
  destruct (attach_wf n view lightNum Hwf Hv)
    as (n' & light & Hl & Hn' & _ & _ & Hb & Hsd & _ & Hm & _).
  assert (Hcur : current_date_state n' = current_date_state n).
  { apply current_date_state_frame; unfold getDateTime, getEphemeris; congruence. }
  exists n', (sync_data n (attach_entry n lightNum light)).
  split; [exact Hn'|]. split; [|split; [|split; [|split]]].
  - rewrite Hm, map_size_fmap. apply map_size_insert_Some. eauto.
  - now rewrite Hm, lookup_fmap, lookup_insert_eq.
  - rewrite sync_data_date_state by now apply attach_entry_ok.
    symmetry. exact (Hsy view d Hd).
  - rewrite Hcur. apply sync_data_date_state. now apply attach_entry_ok.
  - intros k dk Hk Hdk. exists (sync_data n dk).
    split; [now rewrite Hm, lookup_fmap, lookup_insert_ne, Hdk by congruence|].
    split.
    + rewrite sync_data_date_state by exact (Hall k dk Hdk). symmetry. exact (Hsy k dk Hdk).
    + destruct (sync_data_masks n dk) as (-> & -> & ->).
      destruct (sync_data_container n dk) as (-> & ->). repeat split; reflexivity.
Qed.

(** the test node with viewport 1 attached, attached once more *)
Lemma attach_again_witness :
  reachable (H:=test_host) test_node1 /\
  exists d n2,
    _perViewData test_node1 !! 1%N = Some d /\
    attach (H:=test_host) 1 7 test_node1 = Some n2 /\
    size (_perViewData n2) = size (_perViewData test_node1).
Proof.
  destruct test_run as (_ & _ & Hr & d & Hd & _).
  split; [exact Hr|].
  destruct (@attach_again test_host test_node1 1%N 7 d Hr Hd) as (n2 & d' & Hn2 & Hsz & _).
  exists d, n2. split; [exact Hd|]. split; [exact Hn2|exact Hsz].
Defined.

(** ** Scattering parameters *)

(** setting the uniforms of a list one after the other: every name of a
    list without repeated names ends with its value *)
Lemma foldl_insert_lookup (s : gmap string UniformValue) (l : list (string * UniformValue)) :
  NoDup (l.*1) ->
  forall k v, (k, v) ∈ l ->
    foldl (fun s kv => <[fst kv := snd kv]> s) s l !! k = Some v.
Proof.
  induction l as [|x l IH] using rev_ind; intros Hnd k v Hin.
  - now apply elem_of_nil in Hin.
  - rewrite fmap_app in Hnd. apply NoDup_app in Hnd as (Hl & Hdisj & _).
    rewrite foldl_app. cbn [foldl]. apply elem_of_app in Hin as [Hin|Hin].
    + rewrite lookup_insert_ne; [now apply IH|].
      intros Heq. apply (Hdisj k).
      * apply list_elem_of_fmap. now exists (k, v).
      * rewrite <- Heq. cbn. apply list_elem_of_singleton. reflexivity.
    + apply list_elem_of_singleton in Hin as <-. apply lookup_insert_eq.
Qed.

Lemma ScatteringModel_names `{Host} (Ri : F32.t) :
  (ScatteringModel Ri).*1
  = ["atmos_v3InvWavelength"; "atmos_fInnerRadius"; "atmos_fInnerRadius2";
     "atmos_fOuterRadius"; "atmos_fOuterRadius2"; "atmos_fKrESun"; "atmos_fKmESun";
     "atmos_fKr4PI"; "atmos_fKm4PI"; "atmos_fScale"; "atmos_fScaleDepth";
     "atmos_fScaleOverScaleDepth"; "atmos_g"; "atmos_g2"; "atmos_nSamples";
     "atmos_fSamples"; "atmos_fWeather"]%string.
Proof. reflexivity. Qed.

Lemma ScatteringModel_NoDup `{Host} (Ri : F32.t) : NoDup ((ScatteringModel Ri).*1).
Proof.
  rewrite ScatteringModel_names. apply (bool_decide_unpack _). vm_compute. reflexivity.
Qed.

(** [makeSceneLighting] sets the uniforms of the parameter set of the
    inner radius, in the order of the list *)
Lemma makeSceneLighting_stateset `{Host} (n : SimpleSkyNode) :
  _outerRadius n = F32.mul (_innerRadius n) (F32.lit 1025 1000) ->
  stateset (makeSceneLighting n)
  = foldl (fun s kv => <[fst kv := snd kv]> s) (stateset n) (ScatteringModel (_innerRadius n)).
Proof. destruct n. cbn [_outerRadius _innerRadius]. intros ->. reflexivity. Qed.

(** C7: the stateset after initialization holds the parameter set of the
    inner radius Ri, the polar radius as a float, each uniform set in turn on
    the empty stateset: Ro = Ri * 1.025f, Scale = 1 / (Ro - Ri) and the scalars
    derived from the fixed constants; two initializations with the same Ri
    leave the same set. *)
Theorem scattering_parameters `{Host} (w1 w2 : World) (em1 em2 : EllipsoidModel)
    (b1 b2 : SkyNode) (o1 o2 : option string) (n1 n2 : SimpleSkyNode) :
  initialize w1 (Some em1) (construct b1 o1) = Some n1 ->
  initialize w2 (Some em2) (construct b2 o2) = Some n2 ->
  let Ri := F32.of_double (getRadiusPolar em1) in
  let Ro := F32.mul Ri (F32.lit 1025 1000) in
  _innerRadius n1 = Ri /\ _outerRadius n1 = Ro /\
  stateset n1 = foldl (fun s kv => <[fst kv := snd kv]> s) ∅ (ScatteringModel Ri) /\
  Forall (fun kv => stateset n1 !! fst kv = Some (snd kv)) (ScatteringModel Ri) /\
  stateset n1 !! "atmos_fOuterRadius"%string = Some (U_float Ro) /\
  stateset n1 !! "atmos_fScale"%string
  = Some (U_float (F32.div (F32.of_int 1) (F32.sub Ro Ri))) /\
  (F32.of_double (getRadiusPolar em2) = Ri -> stateset n2 = stateset n1).
Proof.
  intros H1 H2 Ri Ro.
  destruct (initialize_construct w1 em1 b1 o1)
    as (m1 & Hm1 & _ & _ & _ & _ & _ & _ & Hri & Hro & _ & _ & Hss).
  rewrite Hm1 in H1. injection H1 as ->.
  destruct (initialize_construct w2 em2 b2 o2)
    as (m2 & Hm2 & _ & _ & _ & _ & _ & _ & _ & _ & _ & _ & Hss2).
  rewrite Hm2 in H2. injection H2 as ->.
  rewrite makeSceneLighting_stateset in Hss by reflexivity.
  rewrite makeSceneLighting_stateset in Hss2 by reflexivity.
  cbn [_innerRadius with_radii stateset construct] in Hss, Hss2.
  fold Ri in Hss, Hri, Hro. fold Ro in Hro.
  assert (Hall : forall k v, (k, v) ∈ ScatteringModel Ri -> stateset n1 !! k = Some v).
  { rewrite Hss. apply foldl_insert_lookup, ScatteringModel_NoDup. }
  split; [exact Hri|]. split; [exact Hro|]. split; [exact Hss|]. split; [|split; [|split]].
  - apply Forall_forall. intros [k v] Hkv. now apply Hall.
  - apply Hall. unfold ScatteringModel. do 3 apply list_elem_of_further.
    apply list_elem_of_here.
  - apply Hall. unfold ScatteringModel. do 9 apply list_elem_of_further.
    apply list_elem_of_here.
  - intros Hsame. rewrite Hss, Hss2, Hsame. reflexivity.
Qed.

(** the scattering parameters of the WGS84 ellipsoid *)
Lemma scattering_parameters_witness :
  initialize (H:=test_host) test_world (Some wgs84) (construct (H:=test_host) test_base None)
  = Some test_node0 /\
  _innerRadius test_node0 = S754_finite false 12713505 (-1) /\
  _outerRadius test_node0 = S754_finite false 13031342 (-1).
Proof.
  destruct test_run as (Hn & _).
  destruct (@scattering_parameters test_host test_world test_world wgs84 wgs84 test_base
              test_base None None test_node0 test_node0 Hn Hn) as (Hri & Hro & _).
  split; [exact Hn|]. split.
  - rewrite Hri. vm_compute. reflexivity.
  - rewrite Hro. vm_compute. reflexivity.
Defined.

(** ** Automatic ambience *)

(** C8: with automatic ambience on, a cull traversal sets the ambient
    colour of the resolved record's light to (amb, amb, amb, 1), where
    dev = clamp(eye . sun, -0.2, 0.75) for the normalized eye point and light
    direction and amb = 0.2 + (dev + 0.2) / (0.75 + 0.2) * (0.92 - 0.2).  A
    dot product that is a number is clamped into [-0.2, 0.75].  The map sends
    -0.2 to 0.2 and 0.75 to 0.92; at 0.275 it yields the float next above
    0.56, within 1e-7 of 0.56. *)
Theorem traverse_auto_ambience `{Host} (n : SimpleSkyNode) (cv : CullVisitor) (key : N)
    (data : PerViewData) (light : Light) (container : Group) :
  _autoAmbience n = true ->
  find_or_begin (cv_view cv) (_perViewData n) = Some (key, data) ->
  _light data = Some light -> _cullContainer data = Some container ->
  let minAmb := F32.lit 2 10 in
  let maxAmb := F32.lit 92 100 in
  let minDev := F32.opp (F32.lit 2 10) in
  let maxDev := F32.lit 75 100 in
  let eye := Vec3_normalize (cv_viewPoint cv) in
  let sun := Vec3_normalize (_lightPos data) in
  let dev := clampBetween (Vec3_dot eye sun) minDev maxDev in
  let amb := F32.add minAmb
               (F32.mul (F32.div (F32.sub dev minDev) (F32.sub maxDev minDev))
                  (F32.sub maxAmb minAmb)) in
  (exists n' light',
     traverse (Some cv) n = Some (n', into_cullContainer key container) /\
     (_perViewData n' !! key) ≫= _light = Some light' /\
     ambient light' = mkVec4 amb amb amb (F32.of_int 1)) /\
  (is_nan (Vec3_dot eye sun) = false ->
   F32.leb minDev dev = true /\ F32.leb dev maxDev = true) /\
  auto_ambience minDev = minAmb /\
  auto_ambience maxDev = maxAmb /\
  auto_ambience (F32.lit 275 1000) = S754_finite false 9395242 (-24) /\
  near (auto_ambience (F32.lit 275 1000)) (56 # 100) (1 # 10000000).
Proof.
  intros Ha Hf Hl Hc minAmb maxAmb minDev maxDev eye sun dev amb.
  split; [|split; [|exact auto_ambience_values]];
    [|intros Hd; apply clampBetween_range;
      [exact Hd|reflexivity|reflexivity|vm_compute; reflexivity]].
  eexists _, _. split; [|split].
  - rewrite (traverse_eq n cv key data light container Hf Hl Hc). rewrite Ha. reflexivity.
  - cbn [_perViewData with_perViewData]. rewrite lookup_insert_eq. reflexivity.
  - reflexivity.
Qed.

(** a cull traversal of the test node with the eye on the sun side *)
Lemma traverse_auto_ambience_witness :
  _autoAmbience test_ambience_node = true /\
  exists n' light',
    traverse (H:=test_host) (Some test_cv) test_ambience_node
    = Some (n', into_cullContainer 1 test_container) /\
    (_perViewData n' !! 1%N) ≫= _light = Some light' /\
    ambient light' = mkVec4 (F32.lit 92 100) (F32.lit 92 100) (F32.lit 92 100) (F32.of_int 1).
Proof.
  split; [reflexivity|].
  destruct (@traverse_auto_ambience test_host test_ambience_node test_cv 1%N test_entry
              test_light test_container eq_refl eq_refl eq_refl eq_refl)
    as ((n' & light' & Ht & Hl & Hamb) & _).
  exists n', light'. split; [exact Ht|]. split; [exact Hl|].
  rewrite Hamb. vm_compute. reflexivity.
Defined.

(** * Further properties of the driver *)

(** ** The grid of the ellipsoid mesh *)

Section GridFacts.
Context `{Host}.
Variables (ellipsoid : EllipsoidModel) (hae : F64.t) (genTexCoords : bool).
Variables (latSegments lonSegments : Z) (segmentSize : F64.t).

(** the three arrays after one cell *)
Lemma ellipsoid_cell_arrays y lat g x :
  let lon := F64.add (F64.opp (F64.of_int 180)) (F64.mul segmentSize (F64.of_int x)) in
  let p := convertLatLongHeightToXYZ ellipsoid (DegreesToRadians lat) (DegreesToRadians lon) hae in
  let tc := Vec2_of_doubles (F64.div (F64.add lon (F64.of_int 180)) (F64.of_int 360))
              (F64.div (F64.add lat (F64.of_int 90)) (F64.of_int 180)) in
  let g' := ellipsoid_cell ellipsoid hae genTexCoords latSegments lonSegments segmentSize
              y lat g x in
  verts g' = verts g ++ [Vec3_of_Vec3d p] /\
  texCoords g' = (if genTexCoords then option_map (fun l => l ++ [tc]) (texCoords g)
                  else texCoords g) /\
  normals g' = option_map (fun l => l ++ [Vec3_normalize (Vec3_of_Vec3d p)]) (normals g).
Proof.
  unfold ellipsoid_cell. destruct g as [v [t|] [nn|] e];
    destruct genTexCoords; simpl; destruct (y <? latSegments); simpl;
    repeat split; reflexivity.
Qed.

Lemma ellipsoid_cells_arrays y lat xs g :
  let lon x := F64.add (F64.opp (F64.of_int 180)) (F64.mul segmentSize (F64.of_int x)) in
  let p x := convertLatLongHeightToXYZ ellipsoid (DegreesToRadians lat)
               (DegreesToRadians (lon x)) hae in
  let tc x := Vec2_of_doubles (F64.div (F64.add (lon x) (F64.of_int 180)) (F64.of_int 360))
                (F64.div (F64.add lat (F64.of_int 90)) (F64.of_int 180)) in
  let g' := fold_left (ellipsoid_cell ellipsoid hae genTexCoords latSegments lonSegments
                         segmentSize y lat) xs g in
  verts g' = verts g ++ map (fun x => Vec3_of_Vec3d (p x)) xs /\
  texCoords g' = (if genTexCoords then option_map (fun l => l ++ map tc xs) (texCoords g)
                  else texCoords g) /\
  normals g' = option_map (fun l => l ++ map (fun x => Vec3_normalize (Vec3_of_Vec3d (p x))) xs)
                 (normals g).
Proof.
  cbv zeta. revert g. induction xs as [|x xs IH]; intros g.
  - cbn [fold_left map]. destruct g as [v [t|] [nn|] e]; destruct genTexCoords; cbn;
      rewrite ?app_nil_r; repeat split; reflexivity.
  - cbn [fold_left map]. destruct (IH (ellipsoid_cell ellipsoid hae genTexCoords latSegments
                                         lonSegments segmentSize y lat g x)) as (-> & -> & ->).
    destruct (ellipsoid_cell_arrays y lat g x) as (-> & -> & ->).
    destruct g as [v [t|] [nn|] e]; destruct genTexCoords; cbn;
      rewrite <- ?app_assoc; repeat split; reflexivity.
Qed.

Lemma ellipsoid_rows_arrays ys g :
  let lat y := F64.add (F64.opp (F64.of_int 90)) (F64.mul segmentSize (F64.of_int y)) in
  let lon x := F64.add (F64.opp (F64.of_int 180)) (F64.mul segmentSize (F64.of_int x)) in
  let p y x := convertLatLongHeightToXYZ ellipsoid (DegreesToRadians (lat y))
                 (DegreesToRadians (lon x)) hae in
  let tc y x := Vec2_of_doubles (F64.div (F64.add (lon x) (F64.of_int 180)) (F64.of_int 360))
                  (F64.div (F64.add (lat y) (F64.of_int 90)) (F64.of_int 180)) in
  let row {A : Type} (f : Z -> Z -> A) := flat_map (fun y => map (f y) (int_range 0 lonSegments)) ys in
  let g' := fold_left (ellipsoid_row ellipsoid hae genTexCoords latSegments lonSegments
                         segmentSize) ys g in
  verts g' = verts g ++ row (fun y x => Vec3_of_Vec3d (p y x)) /\
  texCoords g' = (if genTexCoords then option_map (fun l => l ++ row tc) (texCoords g)
                  else texCoords g) /\
  normals g' = option_map (fun l => l ++ row (fun y x => Vec3_normalize (Vec3_of_Vec3d (p y x))))
                 (normals g).
Proof.
  cbv zeta. revert g. induction ys as [|y ys IH]; intros g.
  - cbn [fold_left flat_map]. destruct g as [v [t|] [nn|] e]; destruct genTexCoords; cbn;
      rewrite ?app_nil_r; repeat split; reflexivity.
  - cbn [fold_left flat_map].
    destruct (IH (ellipsoid_row ellipsoid hae genTexCoords latSegments lonSegments segmentSize
                    g y)) as (-> & -> & ->).
    unfold ellipsoid_row, for_loop.
    destruct (ellipsoid_cells_arrays y
                (F64.add (F64.opp (F64.of_int 90)) (F64.mul segmentSize (F64.of_int y)))
                (int_range 0 lonSegments) g) as (-> & -> & ->).
    destruct g as [v [t|] [nn|] e]; destruct genTexCoords; cbn;
      rewrite <- ?app_assoc; repeat split; reflexivity.
Qed.

End GridFacts.

Lemma int_range_lookup (lo hi : Z) (k : nat) :
  (k < Z.to_nat (hi - lo))%nat -> int_range lo hi !! k = Some (lo + Z.of_nat k).
Proof.
  intros Hk. unfold int_range. rewrite list_lookup_fmap, lookup_seq_lt by exact Hk.
  reflexivity.
Qed.

(** cell [(y, x)] of a grid sits at position [y * cols + x] *)
Lemma grid_lookup {A : Type} (rows cols : Z) (cell : Z -> Z -> A) (y x : Z) :
  0 <= y < rows -> 0 <= x < cols ->
  grid rows cols cell !! Z.to_nat (y * cols + x) = Some (cell y x).
Proof.
  intros Hy Hx. unfold grid.
  assert (G : forall (ys : list Z) (j : nat) (y0 : Z),
             ys !! j = Some y0 ->
             flat_map (fun y => map (cell y) (int_range 0 cols)) ys
               !! (j * Z.to_nat cols + Z.to_nat x)%nat = Some (cell y0 x)).
  { induction ys as [|y1 ys IH]; intros j y0 Hj; [now rewrite lookup_nil in Hj|].
    cbn [flat_map]. destruct j as [|j].
    - injection Hj as ->. rewrite lookup_app_l.
      + rewrite list_lookup_fmap, int_range_lookup by lia. cbn. do 2 f_equal. lia.
      + rewrite length_map, int_range_length. lia.
    - rewrite lookup_app_r; rewrite length_map, int_range_length, Z.sub_0_r; [|lia].
      replace (S j * Z.to_nat cols + Z.to_nat x - Z.to_nat cols)%nat
        with (j * Z.to_nat cols + Z.to_nat x)%nat by lia.
      now apply IH. }
  replace (Z.to_nat (y * cols + x)) with (Z.to_nat y * Z.to_nat cols + Z.to_nat x)%nat by nia.
  rewrite (G (int_range 0 rows) (Z.to_nat y) y); [reflexivity|].
  rewrite int_range_lookup by lia. f_equal. lia.
Qed.

Lemma grid_length {A : Type} (rows cols : Z) (cell : Z -> Z -> A) :
  0 <= rows -> 0 <= cols -> Z.of_nat (length (grid rows cols cell)) = rows * cols.
Proof.
  intros Hr Hc. unfold grid.
  assert (G : forall ys : list Z,
             length (flat_map (fun y => map (cell y) (int_range 0 cols)) ys)
             = (length ys * Z.to_nat cols)%nat).
  { induction ys as [|y ys IH]; [reflexivity|]. cbn [flat_map length].
    rewrite length_app, IH, length_map, int_range_length, Z.sub_0_r. lia. }
  rewrite G, int_range_length. nia.
Qed.

Lemma grid_In {A : Type} (rows cols : Z) (cell : Z -> Z -> A) (a : A) :
  In a (grid rows cols cell) ->
  exists y x, In y (int_range 0 rows) /\ In x (int_range 0 cols) /\ a = cell y x.
Proof.
  unfold grid. intros Hin. apply in_flat_map in Hin as (y & Hy & Hin).
  apply in_map_iff in Hin as (x & <- & Hx). eauto.
Qed.

(** the arrays of the ellipsoid mesh as grids of 101 rows and 200 columns *)
Lemma ellipsoid_arrays `{Host} ellipsoid outerRadius genTexCoords :
  let g := s_makeEllipsoidGeometry ellipsoid outerRadius genTexCoords in
  verts g = grid 101 200 (grid_point ellipsoid outerRadius) /\
  texCoords g = (if genTexCoords then Some (grid 101 200 grid_texCoord) else None) /\
  normals g = (if genTexCoords
               then Some (grid 101 200 (fun y x => Vec3_normalize (grid_point ellipsoid outerRadius y x)))
               else None).
Proof.
  unfold s_makeEllipsoidGeometry, for_loop.
  match goal with
  | |- context [fold_left ?f ?ys ?g0] =>
      destruct (ellipsoid_rows_arrays ellipsoid
                  (F64.sub outerRadius (getRadiusEquator ellipsoid)) genTexCoords
                  100 (2 * 100) (F64.div (F64.of_int 180) (F64.of_int 100)) ys g0)
        as (Hv & Ht & Hn)
  end.
  cbv zeta. rewrite Hv, Ht, Hn. destruct genTexCoords; repeat split; reflexivity.
Qed.

(** the rows run from the south pole to the north pole, the columns from
    the date line eastwards; the texture coordinates stay in the unit square *)
Lemma grid_degrees :
  grid_lat 0 = F64.opp (F64.of_int 90) /\ grid_lat 100 = F64.of_int 90 /\
  grid_lon 0 = F64.opp (F64.of_int 180) /\
  Forall (fun x => F32.leb (F32.of_int 0) (v2x (grid_texCoord 0 x)) = true /\
                   F32.ltb (v2x (grid_texCoord 0 x)) (F32.of_int 1) = true)
    (int_range 0 200) /\
  Forall (fun y => F32.leb (F32.of_int 0) (v2y (grid_texCoord y 0)) = true /\
                   F32.leb (v2y (grid_texCoord y 0)) (F32.of_int 1) = true)
    (int_range 0 101).
Proof.
  split; [vm_compute; reflexivity|]. split; [vm_compute; reflexivity|].
  split; [vm_compute; reflexivity|].
  split; apply (bool_decide_unpack _); vm_compute; reflexivity.
Qed.

(** X1: vertex [y * 200 + x] of the ellipsoid mesh is the point of the
    ellipsoid at latitude [-90 + 1.8 y] and longitude [-180 + 1.8 x] degrees,
    raised by the outer radius less the equatorial radius; the 101 rows run
    from latitude -90 to latitude 90 exactly, the 200 columns start at
    longitude -180. *)
Theorem ellipsoid_mesh_vertices `{Host} (ellipsoid : EllipsoidModel) (outerRadius : F64.t)
    (genTexCoords : bool) :
  let g := s_makeEllipsoidGeometry ellipsoid outerRadius genTexCoords in
  let hae := F64.sub outerRadius (getRadiusEquator ellipsoid) in
  let segmentSize := F64.div (F64.of_int 180) (F64.of_int 100) in
  let lat y := F64.add (F64.opp (F64.of_int 90)) (F64.mul segmentSize (F64.of_int y)) in
  let lon x := F64.add (F64.opp (F64.of_int 180)) (F64.mul segmentSize (F64.of_int x)) in
  (forall y x, 0 <= y <= 100 -> 0 <= x < 200 ->
     verts g !! Z.to_nat (y * 200 + x)
     = Some (Vec3_of_Vec3d (convertLatLongHeightToXYZ ellipsoid (DegreesToRadians (lat y))
                              (DegreesToRadians (lon x)) hae))) /\
  lat 0 = F64.opp (F64.of_int 90) /\ lat 100 = F64.of_int 90 /\
  lon 0 = F64.opp (F64.of_int 180).
Proof.
  intros g hae segmentSize lat lon.
  destruct (ellipsoid_arrays ellipsoid outerRadius genTexCoords) as (Hv & _).
  destruct grid_degrees as (L0 & L100 & N0 & _).
  split; [|exact (conj L0 (conj L100 N0))].
  intros y x Hy Hx. unfold g. rewrite Hv.
  rewrite (grid_lookup 101 200) by lia. reflexivity.
Qed.

(** X2: a mesh built with texture coordinates carries one texture
    coordinate and one normal for each of its vertices: for the vertex of row
    [y] and column [x] the coordinate ((lon + 180) / 360, (lat + 90) / 180),
    which lies in [0, 1) x [0, 1], and the normalized vertex.  A mesh built
    without them has neither array. *)
Theorem ellipsoid_mesh_texture `{Host} (ellipsoid : EllipsoidModel) (outerRadius : F64.t) :
  let g := s_makeEllipsoidGeometry ellipsoid outerRadius true in
  let g0 := s_makeEllipsoidGeometry ellipsoid outerRadius false in
  let segmentSize := F64.div (F64.of_int 180) (F64.of_int 100) in
  let lat y := F64.add (F64.opp (F64.of_int 90)) (F64.mul segmentSize (F64.of_int y)) in
  let lon x := F64.add (F64.opp (F64.of_int 180)) (F64.mul segmentSize (F64.of_int x)) in
  (exists tcs ns, texCoords g = Some tcs /\ normals g = Some ns /\
     length tcs = length (verts g) /\ length ns = length (verts g) /\
     (forall y x, 0 <= y <= 100 -> 0 <= x < 200 ->
        tcs !! Z.to_nat (y * 200 + x)
        = Some (Vec2_of_doubles (F64.div (F64.add (lon x) (F64.of_int 180)) (F64.of_int 360))
                  (F64.div (F64.add (lat y) (F64.of_int 90)) (F64.of_int 180))) /\
        ns !! Z.to_nat (y * 200 + x) = Vec3_normalize <$> verts g !! Z.to_nat (y * 200 + x)) /\
     Forall (fun tc => F32.leb (F32.of_int 0) (v2x tc) = true /\
                       F32.ltb (v2x tc) (F32.of_int 1) = true /\
                       F32.leb (F32.of_int 0) (v2y tc) = true /\
                       F32.leb (v2y tc) (F32.of_int 1) = true) tcs) /\
  texCoords g0 = None /\ normals g0 = None /\ verts g0 = verts g /\ el g0 = el g.
Proof.
  intros g g0 segmentSize lat lon.
  destruct (ellipsoid_arrays ellipsoid outerRadius true) as (Hv & Ht & Hn).
  destruct (ellipsoid_arrays ellipsoid outerRadius false) as (Hv0 & Ht0 & Hn0).
  cbv zeta in *. split.
  - eexists _, _. split; [exact Ht|]. split; [exact Hn|].
    assert (Hlen : forall A (c : Z -> Z -> A),
               length (grid 101 200 c) = length (grid 101 200 (grid_point ellipsoid outerRadius))).
    { intros A c. apply Nat2Z.inj. rewrite !grid_length by lia. reflexivity. }
    split; [unfold g; rewrite Hv; apply Hlen|]. split; [unfold g; rewrite Hv; apply Hlen|].
    split.
    + intros y x Hy Hx. unfold g. rewrite Hv. rewrite !(grid_lookup 101 200) by lia.
      split; reflexivity.
    + apply List.Forall_forall. intros tc Hin.
      apply grid_In in Hin as (y & x & Hy & Hx & ->).
      destruct grid_degrees as (_ & _ & _ & Hs & Htt).
      pose proof (proj1 (List.Forall_forall _ _) Hs x Hx) as [Hs1 Hs2].
      pose proof (proj1 (List.Forall_forall _ _) Htt y Hy) as [Ht1 Ht2].
      repeat split; assumption.
  - unfold g0, g. rewrite Ht0, Hn0, Hv0, Hv, !ellipsoid_el_quads. repeat split; reflexivity.
Qed.

(** X3: the disc is a closed fan: each of its 144 indices addresses one of
    the 49 vertices, the centre belongs to all 48 triangles and every
    perimeter vertex to exactly two. *)
Theorem disc_mesh_closed `{Host} (radius : F64.t) :
  let g := s_makeDiscGeometry radius in
  Forall (fun i => 0 <= i < Z.of_nat (length (verts g))) (el g) /\
  count_occ Z.eq_dec (el g) 0 = 48%nat /\
  Forall (fun i => count_occ Z.eq_dec (el g) (1 + i) = 2%nat) (int_range 0 48).
Proof.
  intros g.
  assert (Hlen : length (verts g) = 49%nat).
  { unfold g, s_makeDiscGeometry, for_loop. rewrite disc_segments_verts.
    cbn [verts]. rewrite length_app, length_map, int_range_length. reflexivity. }
  assert (He : el g = flat_map (fan_triangle 48) (int_range 0 48)).
  { unfold g, s_makeDiscGeometry, for_loop. rewrite disc_segments_el. reflexivity. }
  rewrite Hlen, He. clear.
  split; [|split]; apply (bool_decide_unpack _); vm_compute; reflexivity.
Qed.

(** ** Catalogue text *)
















(** ** The order of floating-point numbers *)

Lemma SFltb_leb (x y : spec_float) : SFltb x y = true -> SFleb x y = true.
Proof.
  unfold SFltb, SFleb. destruct (SFcompare x y) as [[]|]; intros; try reflexivity; discriminate.
Qed.

Lemma SFltb_not_nan (x y : spec_float) :
  SFltb x y = true -> is_nan x = false /\ is_nan y = false.
Proof. destruct x, y; simpl; intros; try discriminate; split; reflexivity. Qed.

Lemma SFleb_trans (x y z : spec_float) :
  SFleb x y = true -> SFleb y z = true -> SFleb x z = true.
Proof.
  unfold SFleb, SFcompare.
  destruct x as [sx|sx| |sx mx ex], y as [sy|sy| |sy my ey], z as [sz|sz| |sz mz ez];
    try discriminate; try reflexivity;
    try (destruct sx; try discriminate; try reflexivity);
    try (destruct sy; try discriminate; try reflexivity);
    try (destruct sz; try discriminate; try reflexivity);
    change (Pos.compare_cont Eq) with Pos.compare;
    destruct (Z.compare_spec ex ey), (Z.compare_spec ey ez), (Z.compare_spec ex ez);
    try lia; try discriminate; try reflexivity; subst;
    destruct (Pos.compare_spec mx my), (Pos.compare_spec my mz), (Pos.compare_spec mx mz);
    try lia; try discriminate; try reflexivity.
Qed.

(** ** Star geometry *)

Lemma star_scan_coords (eph : Ephemeris) (r : F32.t) (stars : list StarData)
    (cs : list Vec3) (mn mx : F64.t) :
  fst (fst (fold_left (star_scan eph r) stars (cs, mn, mx)))
  = cs ++ map (fun p => Vec3_of_Vec3d (getECEFfromRADecl eph (right_ascension p)
                                         (declination p) (F64.of_float r))) stars.
Proof.
  revert cs mn mx. induction stars as [|p stars IH]; intros cs mn mx.
  - cbn. now rewrite app_nil_r.
  - cbn [fold_left]. rewrite star_scan_eq, IH. cbn [map]. now rewrite <- app_assoc.
Qed.

(** the range the scan leaves: both ends are numbers, every magnitude
    seen lies between them, and each end is the start value or a magnitude *)
Lemma star_scan_range (eph : Ephemeris) (r : F32.t) (stars : list StarData)
    (cs : list Vec3) (mn mx lo hi : F64.t) :
  is_nan mn = false -> is_nan mx = false ->
  F64.leb mn hi = true -> F64.leb lo mx = true ->
  let res := fold_left (star_scan eph r) stars (cs, mn, mx) in
  let mn' := snd (fst res) in
  let mx' := snd res in
  is_nan mn' = false /\ is_nan mx' = false /\
  F64.leb mn' mn = true /\ F64.leb mx mx' = true /\
  F64.leb mn' hi = true /\ F64.leb lo mx' = true /\
  Forall (fun p => is_nan (magnitude p) = false ->
                   F64.leb mn' (magnitude p) = true /\ F64.leb (magnitude p) mx' = true) stars /\
  (mn' = mn \/ In mn' (map magnitude stars)) /\
  (mx' = mx \/ In mx' (map magnitude stars)).
Proof.
  cbv zeta. revert cs mn mx. induction stars as [|p stars IH]; intros cs mn mx Hmn Hmx Hhi Hlo.
  - cbn. unfold F64.leb. rewrite !SFleb_refl by assumption. auto 10.
  - cbn [fold_left]. rewrite star_scan_eq.
    set (mn1 := if F64.ltb (magnitude p) mn then magnitude p else mn).
    set (mx1 := if F64.ltb mx (magnitude p) then magnitude p else mx).
    assert (N1 : is_nan mn1 = false).
    { unfold mn1. destruct (F64.ltb (magnitude p) mn) eqn:E; [|exact Hmn].
      now apply SFltb_not_nan in E. }
    assert (N2 : is_nan mx1 = false).
    { unfold mx1. destruct (F64.ltb mx (magnitude p)) eqn:E; [|exact Hmx].
      now apply SFltb_not_nan in E. }
    assert (L1 : F64.leb mn1 mn = true).
    { unfold mn1. destruct (F64.ltb (magnitude p) mn) eqn:E;
        [now apply SFltb_leb|now apply SFleb_refl]. }
    assert (L2 : F64.leb mx mx1 = true).
    { unfold mx1. destruct (F64.ltb mx (magnitude p)) eqn:E;
        [now apply SFltb_leb|now apply SFleb_refl]. }
    assert (P1 : is_nan (magnitude p) = false -> F64.leb mn1 (magnitude p) = true).
    { intros Hp. unfold mn1. destruct (F64.ltb (magnitude p) mn) eqn:E;
        [now apply SFleb_refl|now apply SFltb_false_leb]. }
    assert (P2 : is_nan (magnitude p) = false -> F64.leb (magnitude p) mx1 = true).
    { intros Hp. unfold mx1. destruct (F64.ltb mx (magnitude p)) eqn:E;
        [now apply SFleb_refl|now apply SFltb_false_leb]. }
    destruct (IH (cs ++ [Vec3_of_Vec3d (getECEFfromRADecl eph (right_ascension p)
                                          (declination p) (F64.of_float r))])
                mn1 mx1 N1 N2
                (SFleb_trans _ _ _ L1 Hhi) (SFleb_trans _ _ _ Hlo L2))
      as (M1 & M2 & M3 & M4 & M5 & M6 & M7 & M8 & M9).
    split; [exact M1|]. split; [exact M2|].
    split; [exact (SFleb_trans _ _ _ M3 L1)|]. split; [exact (SFleb_trans _ _ _ L2 M4)|].
    split; [exact M5|]. split; [exact M6|]. split; [|split].
    + constructor; [|exact M7]. intros Hp. split.
      * exact (SFleb_trans _ _ _ M3 (P1 Hp)).
      * exact (SFleb_trans _ _ _ (P2 Hp) M4).
    + destruct M8 as [->|M8]; [|right; now right].
      unfold mn1. destruct (F64.ltb (magnitude p) mn); [right; now left|now left].
    + destruct M9 as [->|M9]; [|right; now right].
      unfold mx1. destruct (F64.ltb mx (magnitude p)); [right; now left|now left].
Qed.

(** X7: the star geometry holds one position and one colour for each
    star, in the order of the list: the position that the ephemeris gives for
    right ascension and declination at the star radius, and the grey
    (c, c, c, 1) with c = (magnitude - minMag) / (maxMag - minMag). *)
Theorem star_geometry_arrays (eph : Ephemeris) (r : F32.t) (stars : list StarData) :
  let g := buildStarGeometry eph r stars in
  let '(minMag, maxMag) := star_mag_range eph r stars in
  coords g = map (fun p => Vec3_of_Vec3d (getECEFfromRADecl eph (right_ascension p)
                                            (declination p) (F64.of_float r))) stars /\
  colors g = map (fun p =>
                    let c := F32.of_double (F64.div (F64.sub (magnitude p) minMag)
                                              (F64.sub maxMag minMag)) in
                    mkVec4 c c c (F32.of_int 1)) stars /\
  length (coords g) = length stars /\ length (colors g) = length stars.
Proof.
  unfold buildStarGeometry, star_mag_range.
  pose proof (star_scan_coords eph r stars [] DBL_MAX DBL_MIN) as Hc.
  destruct (fold_left (star_scan eph r) stars ([], DBL_MAX, DBL_MIN)) as [[cs mn] mx].
  cbn in Hc. subst cs. cbn [coords colors]. rewrite !length_map.
  repeat split; reflexivity.
Qed.

(** X8: the magnitude range of a star list: the least magnitude is a
    magnitude of the list or the start value [DBL_MAX], the greatest is a
    magnitude of the list or the start value [DBL_MIN]; every magnitude that
    is a number lies between the two, and the greatest is never below
    [DBL_MIN], whatever the list holds. *)
Theorem star_range_brackets (eph : Ephemeris) (r : F32.t) (stars : list StarData) :
  let '(minMag, maxMag) := star_mag_range eph r stars in
  Forall (fun p => is_nan (magnitude p) = false ->
                   F64.leb minMag (magnitude p) = true /\ F64.leb (magnitude p) maxMag = true)
    stars /\
  (minMag = DBL_MAX \/ In minMag (map magnitude stars)) /\
  (maxMag = DBL_MIN \/ In maxMag (map magnitude stars)) /\
  F64.leb minMag DBL_MAX = true /\ F64.leb DBL_MIN maxMag = true.
Proof.
  unfold star_mag_range.
  pose proof (star_scan_range eph r stars [] DBL_MAX DBL_MIN DBL_MIN DBL_MAX
                eq_refl eq_refl eq_refl eq_refl) as Hs.
  destruct (fold_left (star_scan eph r) stars ([], DBL_MAX, DBL_MIN)) as [[cs mn] mx].
  cbn in Hs. destruct Hs as (_ & _ & _ & _ & H5 & H6 & H7 & H8 & H9).
  auto.
Qed.

(** ** The constructed node *)

#[local] Arguments makeSceneLighting : simpl never.
#[local] Arguments star_threshold : simpl never.
#[local] Arguments star_list : simpl never.

(** unfolds the setters and the members of the node, of its records and of
    its transforms *)
Ltac unfold_members :=
  cbv beta iota zeta delta
    [with_perViewData with_defaultPerViewData with_date with_starsMatrix
     with_moonXform with_moonMatrix with_sunXform with_sunMatrix with_lightPosUniform with_light
     with_lightPos with_cullContainer
     with_stars with_starRadius with_base with_autoAmbience with_moon with_sun with_atmosphere
     with_stateset with_radii with_ellipsoidModel with_moonPosition with_minStarMagnitude
     with_moonVisible with_sunVisible with_starsVisible with_dateTime with_ephemeris
     base starFile _defaultPerViewData _perViewData _ellipsoidModel _innerRadius _outerRadius
     _sunDistance _starRadius _moonPosition _autoAmbience _atmosphere _sun _moon _stars stateset
     _light _lightPosUniform _lightPos _cullContainer _sunXform _moonXform _starsXform
     _sunMatrix _moonMatrix _starsMatrix _date getEphemeris getDateTime _ephemeris
     _minStarMagnitude _dateTime _sunVisible _moonVisible _starsVisible
     getSunVisible getMoonVisible getStarsVisible
     setMatrix addChild setNodeMask setPosition setAmbient setLightNum MatrixTransform_new
     matrix nodeMask children
     PerViewData_new app lightNum position ambient diffuse specular].

Lemma makeSceneLighting_radii `{Host} (n n' : SimpleSkyNode) :
  _innerRadius n' = _innerRadius n -> _outerRadius n' = _outerRadius n ->
  stateset n' = stateset n ->
  stateset (makeSceneLighting n') = stateset (makeSceneLighting n).
Proof. destruct n, n'. cbn. intros -> -> ->. reflexivity. Qed.

Section Stages.
Context `{Host}.
Variables (b : SkyNode) (o : option string) (d : PerViewData) (e : option EllipsoidModel).
Variables (ri ro sd sr : F32.t) (mp : Vec3d) (aa : bool).
Variables (atm sun moon : option Geometry) (stars : option StarGeometry).
Variable (ss : gmap string UniformValue).

(** the steps of [initialize], each on a node given by its members *)
Lemma makeSceneLighting_mk (m : gmap N PerViewData) :
  makeSceneLighting (mkSimpleSkyNode b o d m e ri ro sd sr mp aa atm sun moon stars ss)
  = mkSimpleSkyNode b o d m e ri ro sd sr mp aa atm sun moon stars
      (stateset (makeSceneLighting (with_stateset ss (with_radii ri ro sd (construct b o))))).
Proof.
  rewrite makeSceneLighting_frame.
  rewrite (makeSceneLighting_radii (with_stateset ss (with_radii ri ro sd (construct b o))))
    by reflexivity.
  reflexivity.
Qed.

Lemma makeAtmosphere_mk (m : gmap N PerViewData) (em : EllipsoidModel) :
  makeAtmosphere em (mkSimpleSkyNode b o d m e ri ro sd sr mp aa atm sun moon stars ss)
  = mkSimpleSkyNode b o d m e ri ro sd sr mp aa
      (Some (s_makeEllipsoidGeometry em (F64.of_float ro) false)) sun moon stars ss.
Proof. reflexivity. Qed.

Lemma makeSun_mk (m : gmap N PerViewData) :
  makeSun (mkSimpleSkyNode b o d m e ri ro sd sr mp aa atm sun moon stars ss)
  = mkSimpleSkyNode b o
      (with_sunXform
         (Some (mkMatrixTransform (sun_translate sd (_lightPos d)) (mask_of true)
                  [n_sun_billboard])) d)
      m e ri ro sd sr mp aa atm
      (Some (s_makeDiscGeometry
               (F64.of_float (F32.mul (F32.mul ri (F32.of_int 100)) (F32.of_int 80)))))
      moon stars ss.
Proof. reflexivity. Qed.

Lemma makeMoon_mk (w : World) :
  let image := readImageFile w "moon_1024x512.jpg" in
  let moon_em := mkEllipsoid (F64.of_int 1738140) (F64.of_int 1735970) in
  let moonPos := getMoonPositionECEF (_ephemeris b) (_dateTime b) in
  makeMoon w (mkSimpleSkyNode b o d ∅ e ri ro sd sr mp aa atm sun moon stars ss)
  = Some (mkSimpleSkyNode
            (if image then b else with_moonVisible false b) o
            (with_moonXform
               (Some (mkMatrixTransform
                        (Matrixd_translate (dx moonPos) (dy moonPos) (dz moonPos))
                        (mask_of image) [n_moon_geode])) d)
            ∅ e ri ro sd sr mp aa atm sun
            (Some (s_makeEllipsoidGeometry moon_em (getRadiusEquator moon_em) true))
            stars ss).
Proof.
  cbv zeta. unfold makeMoon, setMoonVisible, onSetMoonVisible.
  destruct (readImageFile w "moon_1024x512.jpg"); cbn; rewrite ?map_for_each_empty;
    destruct d; reflexivity.
Qed.

Lemma makeStars_mk (w : World) (m : gmap N PerViewData) :
  let starRadius :=
    F32.of_double
      (F64.mul (F64.of_int 20000)
         (F64.of_float (if F64.ltb (F64.of_int 0) (F64.of_float sd) then sd else ro))) in
  makeStars w (mkSimpleSkyNode b o d m e ri ro sd sr mp aa atm sun moon stars ss)
  = mkSimpleSkyNode b o d m e ri ro sd starRadius mp aa atm sun moon
      (Some (buildStarGeometry (_ephemeris b) starRadius
               (star_list w o (_minStarMagnitude b)))) ss.
Proof. reflexivity. Qed.

Lemma onSetDateTime_mk (em : EllipsoidModel) :
  let dt := _dateTime b in
  let sunPos := Vec3_of_Vec3d (Vec3d_normalize (getSunPositionECEF (_ephemeris b) dt)) in
  let moonPos := getMoonPositionECEF (_ephemeris b) dt in
  let starsMatrix :=
    Matrixd_rotate (F64.opp (rot_z dt)) (F64.of_int 0) (F64.of_int 0) (F64.of_int 1) in
  onSetDateTime (mkSimpleSkyNode b o d ∅ (Some em) ri ro sd sr mp aa atm sun moon stars ss)
  = Some (mkSimpleSkyNode b o
            (with_date dt
               (with_starsMatrix starsMatrix
                  (setMoonPosition_data moonPos (setSunPosition_data sd sunPos d))))
            ∅ (Some em) ri ro sd sr moonPos aa atm sun moon stars ss).
Proof.
  cbv zeta. unfold onSetDateTime, setSunPosition, setMoonPosition.
  cbn -[setMoonPosition_data setSunPosition_data].
  rewrite !fmap_empty, map_for_each_empty. reflexivity.
Qed.

End Stages.

(** [initialize] as the sequence of its steps *)
Lemma initialize_steps `{Host} (w : World) (em : EllipsoidModel) (n : SimpleSkyNode) :
  let lightPos := mkVec3 (F32.of_int 0) (F32.of_int 1) (F32.of_int 0) in
  let light :=
    mkLight 0 (Vec4_of_Vec3 lightPos (F32.of_int 0))
      (mkVec4 (F32.lit 2 10) (F32.lit 2 10) (F32.lit 2 10) (F32.of_int 2))
      (mkVec4 (F32.of_int 1) (F32.of_int 1) (F32.of_int 1) (F32.of_int 1))
      (mkVec4 (F32.of_int 0) (F32.of_int 0) (F32.of_int 0) (F32.of_int 1)) in
  let dflt :=
    with_lightPosUniform (Some (Vec3_div lightPos (Vec3_length lightPos)))
      (with_light (Some light) (with_lightPos lightPos (_defaultPerViewData n))) in
  let Ri := F32.of_double (getRadiusPolar em) in
  initialize w (Some em) n
  = n ← makeMoon w
          (makeSun
             (makeAtmosphere em
                (makeSceneLighting
                   (with_radii Ri (F32.mul Ri (F32.lit 1025 1000)) (F32.mul Ri (F32.of_int 12000))
                      (with_ellipsoidModel (Some em) (with_defaultPerViewData dflt n))))));
    onSetDateTime
      (with_autoAmbience false
         (makeStars w
            (if F32.ltb (_minStarMagnitude (base n)) (F32.of_int 0) then
               match getenv w "OSGEARTH_MIN_STAR_MAGNITUDE" with
               | Some magEnv =>
                   with_base
                     (with_minStarMagnitude (as_float magEnv (F32.opp (F32.of_int 1))) (base n)) n
               | None => n
               end
             else n))).
Proof. destruct n. reflexivity. Qed.

(** [initialize] after construction, written out *)
Lemma initialize_eq `{Host} (w : World) (em : EllipsoidModel) (b : SkyNode)
    (options_starFile : option string) :
  initialize w (Some em) (construct b options_starFile)
  = Some (initial_node w em b options_starFile).
Proof.
  rewrite initialize_steps.
  cbv beta iota zeta delta
    [construct with_radii with_ellipsoidModel with_defaultPerViewData base starFile
     _defaultPerViewData _perViewData _ellipsoidModel _innerRadius _outerRadius _sunDistance
     _starRadius _moonPosition _autoAmbience _atmosphere _sun _moon _stars stateset].
  rewrite makeSceneLighting_mk, makeAtmosphere_mk, makeSun_mk, makeMoon_mk.
  cbn [mbind option_bind].
  destruct b as [dt eph sv mv stv msm].
  unfold initial_node, star_threshold.
  destruct (readImageFile w "moon_1024x512.jpg");
    cbv beta iota delta [with_moonVisible _minStarMagnitude _dateTime _ephemeris _sunVisible
                         _moonVisible _starsVisible];
    (destruct (F32.ltb msm (F32.of_int 0)); [destruct (getenv w _)|]);
    cbv beta iota delta [with_base with_minStarMagnitude base _minStarMagnitude _dateTime
                         _ephemeris _sunVisible _moonVisible _starsVisible starFile
     _defaultPerViewData _perViewData _ellipsoidModel _innerRadius _outerRadius _sunDistance
     _starRadius _moonPosition _autoAmbience _atmosphere _sun _moon _stars stateset];
    rewrite makeStars_mk;
    cbv beta iota zeta delta [with_autoAmbience base starFile
     _defaultPerViewData _perViewData _ellipsoidModel _innerRadius _outerRadius _sunDistance
     _starRadius _moonPosition _autoAmbience _atmosphere _sun _moon _stars stateset];
    rewrite onSetDateTime_mk;
    unfold setMoonPosition_data, setSunPosition_data; unfold_members;
    reflexivity.
Qed.

(** ** Invariants of the node *)

Section Invariants.
Context `{Host}.

(** a record that holds the current date state is left as it is *)
Lemma sync_data_fix (n : SimpleSkyNode) (d : PerViewData) :
  entry_ok d -> date_state d = current_date_state n -> sync_data n d = d.
Proof.
  intros Hok. destruct_entry d; use_entry_ok Hok.
  destruct l, sx, mx, stx. unfold date_state, current_date_state, sync_data.
  cbn. intros [= -> -> -> -> -> -> -> -> ->]. reflexivity.
Qed.

Lemma sync_default_fix (n : SimpleSkyNode) (d : PerViewData) :
  default_shape d true true -> date_state d = default_date_state n -> sync_default n d = d.
Proof.
  intros (Hl & Hu & Hsx & Hmx & Hst).
  specialize (Hsx eq_refl). specialize (Hmx eq_refl).
  destruct d as [[l|] [u|] lp c [sx|] [mx|] [stx|] sm mm stm dt]; cbn in *;
    try discriminate; try (now destruct Hl as [? [=]]); try (now destruct Hu as [? [=]]);
    try (now destruct Hsx as [? [=]]); try (now destruct Hmx as [? [=]]).
  destruct l, sx, mx. unfold date_state, default_date_state, current_date_state, sync_default.
  cbn. intros [= -> -> -> -> -> -> -> ->]. reflexivity.
Qed.

Lemma sync_default_state (n : SimpleSkyNode) (d : PerViewData) :
  default_shape d true true -> date_state (sync_default n d) = default_date_state n.
Proof.
  intros (Hl & Hu & Hsx & Hmx & Hst).
  specialize (Hsx eq_refl). specialize (Hmx eq_refl).
  destruct d as [[l|] [u|] lp c [sx|] [mx|] [stx|] sm mm stm dt]; cbn in *;
    try discriminate; try (now destruct Hl as [? [=]]); try (now destruct Hu as [? [=]]);
    try (now destruct Hsx as [? [=]]); try (now destruct Hmx as [? [=]]).
  all: reflexivity.
Qed.

Lemma default_date_state_frame (n n' : SimpleSkyNode) :
  getDateTime n' = getDateTime n -> getEphemeris n' = getEphemeris n ->
  _sunDistance n' = _sunDistance n ->
  default_date_state n' = default_date_state n.
Proof.
  intros Hd He Hs. unfold default_date_state.
  now rewrite (current_date_state_frame n n' Hd He Hs).
Qed.

(** the date/time handler on a well-formed node whose records are up to date *)
Lemma onSetDateTime_fix (n : SimpleSkyNode) :
  wf n -> synced n -> settled n -> onSetDateTime n = Some n.
Proof.
  intros Hwf Hsy [Hd Hmp]. rewrite onSetDateTime_eq; [|apply Hwf|now apply wf_stars_some].
  pose proof Hwf as (_ & _ & _ & _ & _ & _ & _ & Hall).
  rewrite (sync_default_fix n _ (wf_default_shape n Hwf) Hd), <- Hmp.
  replace (sync_data n <$> _perViewData n) with (_perViewData n).
  - destruct n. reflexivity.
  - apply map_eq. intros k. rewrite lookup_fmap.
    destruct (_perViewData n !! k) as [d|] eqn:Hk; [|reflexivity].
    change (Some d = Some (sync_data n d)).
    now rewrite (sync_data_fix n d (Hall k d Hk) (Hsy k d Hk)).
Qed.

(** what the handler leaves is settled *)
Lemma onSetDateTime_settled (n n' : SimpleSkyNode) :
  wf n -> onSetDateTime n = Some n' -> settled n'.
Proof.
  intros Hwf Hn. rewrite onSetDateTime_eq in Hn; [|apply Hwf|now apply wf_stars_some].
  injection Hn as <-. split; [|reflexivity].
  cbn [_defaultPerViewData with_perViewData with_defaultPerViewData].
  rewrite (sync_default_state n _ (wf_default_shape n Hwf)).
  symmetry. now apply default_date_state_frame.
Qed.

Lemma settled_frame (n n' : SimpleSkyNode) :
  settled n ->
  getDateTime n' = getDateTime n -> getEphemeris n' = getEphemeris n ->
  _sunDistance n' = _sunDistance n -> _moonPosition n' = _moonPosition n ->
  date_state (_defaultPerViewData n') = date_state (_defaultPerViewData n) ->
  settled n'.
Proof.
  intros [Hd Hmp] Hdt He Hsd Hm Hds. split.
  - rewrite Hds, Hd. symmetry. now apply default_date_state_frame.
  - now rewrite Hm, Hmp, Hdt, He.
Qed.

(** the node that [attach] hands to the date/time handler *)
Lemma attach_inter_wf (n : SimpleSkyNode) (view : N) (lightNum : Z) (light : Light) :
  wf n -> view <> 0%N ->
  wf (with_perViewData (<[view := attach_entry n lightNum light]> (_perViewData n)) n).
Proof.
  intros (Hem & Hl & Hu & Hsx & Hmx & Hstx & H0 & Hall) Hv.
  wf_split; try assumption.
  - cbn. rewrite lookup_insert_ne by congruence. exact H0.
  - cbn. apply map_Forall_insert_2; [|exact Hall]. now apply attach_entry_ok.
Qed.

(** the switches of sun and moon, written out *)
Lemma setSunVisible_eq (n : SimpleSkyNode) (value : bool) :
  wf n ->
  exists x, _sunXform (_defaultPerViewData n) = Some x /\
    setSunVisible value n
    = Some (with_perViewData
              ((fun d => default d (mask_sun (mask_of value) d)) <$> _perViewData n)
              (with_defaultPerViewData
                 (with_sunXform (Some (setNodeMask (mask_of value) x)) (_defaultPerViewData n))
                 (with_base (with_sunVisible value (base n)) n))).
Proof.
  intros (_ & _ & _ & [x Hx] & _ & _ & _ & Hall). exists x. split; [exact Hx|].
  unfold setSunVisible, onSetSunVisible.
  cbn [_defaultPerViewData with_base]. rewrite Hx.
  cbn [_perViewData with_defaultPerViewData with_base].
  rewrite map_for_each_Some.
  - destruct n. reflexivity.
  - intros k d Hk. destruct (Hall k d Hk) as (_ & _ & _ & [sx Hs] & _).
    unfold mask_sun. rewrite Hs. cbn. eauto.
Qed.

Lemma setMoonVisible_eq (n : SimpleSkyNode) (value : bool) :
  wf n ->
  exists x, _moonXform (_defaultPerViewData n) = Some x /\
    setMoonVisible value n
    = Some (with_perViewData
              ((fun d => default d (mask_moon (mask_of value) d)) <$> _perViewData n)
              (with_defaultPerViewData
                 (with_moonXform (Some (setNodeMask (mask_of value) x)) (_defaultPerViewData n))
                 (with_base (with_moonVisible value (base n)) n))).
Proof.
  intros (_ & _ & _ & _ & [x Hx] & _ & _ & Hall). exists x. split; [exact Hx|].
  unfold setMoonVisible, onSetMoonVisible.
  cbn [_defaultPerViewData with_base]. rewrite Hx.
  cbn [_perViewData with_defaultPerViewData with_base].
  rewrite map_for_each_Some.
  - destruct n. reflexivity.
  - intros k d Hk. destruct (Hall k d Hk) as (_ & _ & _ & _ & [mx Hs] & _).
    unfold mask_moon. rewrite Hs. cbn. eauto.
Qed.

Lemma setStarsVisible_eq (n : SimpleSkyNode) (value : bool) :
  wf n -> setStarsVisible value n = Some (with_base (with_starsVisible value (base n)) n).
Proof.
  intros (_ & _ & _ & _ & _ & Hst & _). unfold setStarsVisible.
  now apply onSetStarsVisible_noop.
Qed.

(** a mask leaves the date state of a record alone *)
Lemma mask_default_state (d : PerViewData) (x : MatrixTransform) (mask : Z) :
  (_sunXform d = Some x ->
   date_state (with_sunXform (Some (setNodeMask mask x)) d) = date_state d) /\
  (_moonXform d = Some x ->
   date_state (with_moonXform (Some (setNodeMask mask x)) d) = date_state d).
Proof.
  destruct d as [l u lp c sx mx stx sm mm stm dt]. cbn.
  split; intros ->; reflexivity.
Qed.

(** the invariants that the operations keep beside [wf] and [synced]:
    automatic ambience stays off, the default record and the moon position
    stay settled, the sun and moon masks follow their flags *)
Lemma reachable_invariants (n : SimpleSkyNode) :
  reachable n -> _autoAmbience n = false /\ settled n /\ flags_applied n.
Proof.
  induction 1 as [w srs b o n Hi | n view lightNum n' Hr (Ha & Hse & Hfl) Hat
                  | n dt n' Hr (Ha & Hse & Hfl) Hs | n e n' Hr (Ha & Hse & Hfl) Hs
                  | n value n' Hr (Ha & Hse & Hfl) Hs | n value n' Hr (Ha & Hse & Hfl) Hs
                  | n value n' Hr (Ha & Hse & Hfl) Hs | n nv n' t Hr (Ha & Hse & Hfl) Ht];
    try (destruct (reachable_wf_synced n Hr) as [Hwf Hsy]).
  - destruct srs as [em|]; [|discriminate].
    rewrite initialize_eq in Hi. injection Hi as <-.
    split; [reflexivity|]. split; [split; reflexivity|].
    unfold flags_applied. cbn [_perViewData initial_node]. apply map_Forall_empty.
  - destruct (N.eq_dec view 0%N) as [->|Hv].
    { rewrite attach_null in Hat. injection Hat as <-. auto. }
    pose proof Hwf as (_ & [light Hl] & _).
    rewrite (attach_eq n view lightNum light Hv Hl) in Hat.
    pose proof (attach_inter_wf n view lightNum light Hwf Hv) as W2.
    pose proof (onSetDateTime_settled _ _ W2 Hat) as S2.
    rewrite onSetDateTime_eq in Hat; [|apply W2|now apply wf_stars_some].
    injection Hat as <-. split; [exact Ha|]. split; [exact S2|].
    intros k d' Hk. cbn [_perViewData with_perViewData] in Hk. rewrite lookup_fmap in Hk.
    destruct (decide (k = view)) as [->|Hne].
    + rewrite lookup_insert_eq in Hk. cbn [fmap option_fmap option_map] in Hk. injection Hk as <-.
      match goal with
      | |- context [sync_data ?m ?x] => destruct (sync_data_masks m x) as (_ & -> & ->)
      end.
      split; reflexivity.
    + rewrite lookup_insert_ne in Hk by congruence.
      destruct (_perViewData n !! k) as [d|] eqn:Hkd; [|discriminate].
      cbn [fmap option_fmap option_map] in Hk. injection Hk as <-.
      match goal with
      | |- context [sync_data ?m ?x] => destruct (sync_data_masks m x) as (_ & -> & ->)
      end.
      exact (Hfl k d Hkd).
  - unfold setDateTime in Hs.
    assert (W2 : wf (with_base (with_dateTime dt (base n)) n)) by exact Hwf.
    pose proof (onSetDateTime_settled _ _ W2 Hs) as S2.
    rewrite onSetDateTime_eq in Hs; [|apply W2|now apply wf_stars_some].
    injection Hs as <-. split; [exact Ha|]. split; [exact S2|].
    intros k d' Hk. cbn [_perViewData with_perViewData] in Hk. rewrite lookup_fmap in Hk.
    destruct (_perViewData n !! k) as [d|] eqn:Hkd; [|discriminate].
    cbn [fmap option_fmap option_map] in Hk. injection Hk as <-.
    match goal with
    | |- context [sync_data ?m ?x] => destruct (sync_data_masks m x) as (_ & -> & ->)
    end.
    exact (Hfl k d Hkd).
  - unfold setEphemeris, onSetEphemeris in Hs.
    assert (W2 : wf (with_base (with_ephemeris e (base n)) n)) by exact Hwf.
    pose proof (onSetDateTime_settled _ _ W2 Hs) as S2.
    rewrite onSetDateTime_eq in Hs; [|apply W2|now apply wf_stars_some].
    injection Hs as <-. split; [exact Ha|]. split; [exact S2|].
    intros k d' Hk. cbn [_perViewData with_perViewData] in Hk. rewrite lookup_fmap in Hk.
    destruct (_perViewData n !! k) as [d|] eqn:Hkd; [|discriminate].
    cbn [fmap option_fmap option_map] in Hk. injection Hk as <-.
    match goal with
    | |- context [sync_data ?m ?x] => destruct (sync_data_masks m x) as (_ & -> & ->)
    end.
    exact (Hfl k d Hkd).
  - destruct (setSunVisible_eq n value Hwf) as (x & Hx & Heq).
    rewrite Heq in Hs. injection Hs as <-.
    pose proof Hwf as (_ & _ & _ & _ & _ & _ & _ & Hall).
    split; [exact Ha|]. split.
    + apply (settled_frame n); try reflexivity; [exact Hse|].
      cbn [_defaultPerViewData with_perViewData with_defaultPerViewData].
      now apply mask_default_state.
    + intros k d' Hk. cbn [_perViewData with_perViewData] in Hk. rewrite lookup_fmap in Hk.
      destruct (_perViewData n !! k) as [d|] eqn:Hkd; [|discriminate].
      cbn [fmap option_fmap option_map] in Hk. injection Hk as <-.
      destruct (mask_sun_entry (mask_of value) d (Hall k d Hkd)) as (_ & _ & -> & -> & _).
      split; [reflexivity|]. exact (proj2 (Hfl k d Hkd)).
  - destruct (setMoonVisible_eq n value Hwf) as (x & Hx & Heq).
    rewrite Heq in Hs. injection Hs as <-.
    pose proof Hwf as (_ & _ & _ & _ & _ & _ & _ & Hall).
    split; [exact Ha|]. split.
    + apply (settled_frame n); try reflexivity; [exact Hse|].
      cbn [_defaultPerViewData with_perViewData with_defaultPerViewData].
      now apply mask_default_state.
    + intros k d' Hk. cbn [_perViewData with_perViewData] in Hk. rewrite lookup_fmap in Hk.
      destruct (_perViewData n !! k) as [d|] eqn:Hkd; [|discriminate].
      cbn [fmap option_fmap option_map] in Hk. injection Hk as <-.
      destruct (mask_moon_entry (mask_of value) d (Hall k d Hkd)) as (_ & _ & -> & -> & _).
      split; [|reflexivity]. exact (proj1 (Hfl k d Hkd)).
  - rewrite (setStarsVisible_eq n value Hwf) in Hs. injection Hs as <-.
    split; [exact Ha|]. split; [|exact Hfl].
    apply (settled_frame n); try reflexivity. exact Hse.
  - destruct nv as [cv|]; [|injection Ht as <- _; auto].
    unfold traverse in Ht. rewrite Ha in Ht.
    destruct (find_or_begin (cv_view cv) (_perViewData n)) as [[k d]|] eqn:Hf; [|discriminate].
    cbn in Ht. destruct (_cullContainer d) as [c|]; [|discriminate].
    cbn in Ht. injection Ht as <- _.
    pose proof (find_or_begin_lookup _ _ _ _ Hf) as Hk.
    rewrite insert_id by exact Hk.
    replace (with_perViewData (_perViewData n) n) with n by (now destruct n). auto.
Qed.

End Invariants.

(** ** Operations in a reachable state *)

(** X9: no operation dereferences a null pointer in a state the node can
    reach: attach, the date/time and ephemeris setters and the three
    visibility switches all return, a traversal by another visitor than a cull
    visitor returns, and a cull traversal fails exactly when no view has been
    attached. *)
Theorem operations_return `{Host} (n : SimpleSkyNode) :
  reachable n ->
  (forall view lightNum, is_Some (attach view lightNum n)) /\
  (forall dt, is_Some (setDateTime dt n)) /\
  (forall e, is_Some (setEphemeris e n)) /\
  (forall value, is_Some (setSunVisible value n)) /\
  (forall value, is_Some (setMoonVisible value n)) /\
  (forall value, is_Some (setStarsVisible value n)) /\
  traverse None n = Some (n, into_children) /\
  (forall cv, traverse (Some cv) n = None <-> _perViewData n = ∅).
Proof.
  intros Hr. destruct (reachable_wf_synced n Hr) as [Hwf _].
  split; [|split; [|split; [|split; [|split; [|split; [|split]]]]]].
  - intros view lightNum. destruct (N.eq_dec view 0%N) as [->|Hv].
    + rewrite attach_null. eauto.
    + destruct (attach_wf n view lightNum Hwf Hv) as (n' & _ & _ & -> & _). eauto.
  - intros dt. unfold setDateTime.
    destruct (onSetDateTime_wf (with_base (with_dateTime dt (base n)) n) Hwf) as (n' & -> & _).
    eauto.
  - intros e. unfold setEphemeris, onSetEphemeris.
    destruct (onSetDateTime_wf (with_base (with_ephemeris e (base n)) n) Hwf) as (n' & -> & _).
    eauto.
  - intros value. destruct (setSunVisible_eq n value Hwf) as (x & _ & ->). eauto.
  - intros value. destruct (setMoonVisible_eq n value Hwf) as (x & _ & ->). eauto.
  - intros value. rewrite (setStarsVisible_eq n value Hwf). eauto.
  - reflexivity.
  - intros cv. split; [|apply traverse_empty].
    intros Ht. destruct (decide (_perViewData n = ∅)) as [|Hne]; [assumption|exfalso].
    pose proof Hwf as (_ & _ & _ & _ & _ & _ & _ & Hall).
    assert (Hf : exists k d, find_or_begin (cv_view cv) (_perViewData n) = Some (k, d)).
    { destruct (_perViewData n !! cv_view cv) as [d|] eqn:Hk.
      - exists (cv_view cv), d. now apply find_or_begin_found.
      - destruct (find_or_begin_fallback _ _ Hk Hne) as (k & d & Hf & _). eauto. }
    destruct Hf as (k & d & Hf).
    pose proof (find_or_begin_lookup _ _ _ _ Hf) as Hk.
    destruct (Hall k d Hk) as ([l Hl] & _ & [c Hc] & _).
    rewrite (traverse_eq n cv k d l c Hf Hl Hc) in Ht. discriminate.
Qed.

(** the test node with view 1 attached takes a second view and the star switch *)
Lemma operations_return_witness :
  reachable (H:=test_host) test_node1 /\
  is_Some (attach (H:=test_host) 2 1 test_node1) /\
  is_Some (setStarsVisible false test_node1).
Proof.
  destruct test_run as (_ & _ & Hr & _).
  destruct (@operations_return test_host test_node1 Hr) as (Ha & _ & _ & _ & _ & Hs & _).
  split; [exact Hr|]. split; [apply Ha|apply Hs].
Defined.

(** X10: in every reachable state the records hold what the date/time
    handler would store, so running the handler again changes nothing: the
    handlers of date/time and ephemeris return the node itself, setting the
    date/time or the ephemeris the node already has is the identity, and
    setting a date/time twice is setting it once. *)
Theorem date_time_settled `{Host} (n : SimpleSkyNode) :
  reachable n ->
  onSetDateTime n = Some n /\ onSetEphemeris n = Some n /\
  setDateTime (getDateTime n) n = Some n /\
  setEphemeris (getEphemeris n) n = Some n /\
  (forall dt n', setDateTime dt n = Some n' -> setDateTime dt n' = Some n').
Proof.
  assert (Hfix : forall m, reachable m -> onSetDateTime m = Some m).
  { intros m Hm. destruct (reachable_wf_synced m Hm) as [Hwf Hsy].
    destruct (reachable_invariants m Hm) as (_ & Hse & _).
    now apply onSetDateTime_fix. }
  assert (Hsame : forall m, reachable m -> setDateTime (getDateTime m) m = Some m).
  { intros m Hm. unfold setDateTime.
    replace (with_base (with_dateTime (getDateTime m) (base m)) m) with m
      by (destruct m as [[] ?]; reflexivity).
    now apply Hfix. }
  intros Hr. split; [now apply Hfix|]. split; [now apply Hfix|].
  split; [now apply Hsame|]. split.
  - unfold setEphemeris, onSetEphemeris.
    replace (with_base (with_ephemeris (getEphemeris n) (base n)) n) with n
      by (destruct n as [[] ?]; reflexivity).
    now apply Hfix.
  - intros dt n' Hs.
    assert (Hr' : reachable n') by (eapply reach_setDateTime; eassumption).
    destruct (reachable_wf_synced n Hr) as [Hwf _].
    unfold setDateTime in Hs.
    destruct (onSetDateTime_wf (with_base (with_dateTime dt (base n)) n) Hwf)
      as (n2 & Hn2 & _ & _ & Hb & _).
    rewrite Hn2 in Hs. injection Hs as <-.
    replace dt with (getDateTime n2) at 1 by (unfold getDateTime; now rewrite Hb).
    now apply Hsame.
Qed.

(** the date/time handler on the test node with view 1 attached *)
Lemma date_time_settled_witness :
  reachable (H:=test_host) test_node1 /\
  onSetDateTime (H:=test_host) test_node1 = Some test_node1.
Proof.
  destruct test_run as (_ & _ & Hr & _).
  split; [exact Hr|]. exact (proj1 (@date_time_settled test_host test_node1 Hr)).
Defined.

(** X11: nothing in the driver switches automatic ambience on, so it is off
    in every reachable state, and a traversal leaves the node exactly as it
    is: a cull traversal only selects the cull container of a registered
    record to continue in. *)
Theorem traverse_leaves_node `{Host} (n : SimpleSkyNode) :
  reachable n ->
  _autoAmbience n = false /\
  forall nv n' t, traverse nv n = Some (n', t) ->
    n' = n /\
    match t with
    | into_cullContainer k c =>
        exists cv d, nv = Some cv /\ _perViewData n !! k = Some d /\ _cullContainer d = Some c
    | into_children => nv = None
    end.
Proof.
  intros Hr. destruct (reachable_invariants n Hr) as (Ha & _).
  split; [exact Ha|]. intros nv n' t Ht.
  destruct nv as [cv|]; [|injection Ht as <- <-; split; reflexivity].
  unfold traverse in Ht. rewrite Ha in Ht.
  destruct (find_or_begin (cv_view cv) (_perViewData n)) as [[k d]|] eqn:Hf; [|discriminate].
  cbn in Ht. destruct (_cullContainer d) as [c|] eqn:Hc; [|discriminate].
  cbn in Ht. injection Ht as <- <-.
  pose proof (find_or_begin_lookup _ _ _ _ Hf) as Hk.
  rewrite insert_id by exact Hk. split; [now destruct n|].
  exists cv, d. auto.
Qed.

(** automatic ambience in the test node with view 1 attached *)
Lemma traverse_leaves_node_witness :
  reachable (H:=test_host) test_node1 /\ _autoAmbience test_node1 = false.
Proof.
  destruct test_run as (_ & _ & Hr & _).
  split; [exact Hr|]. exact (proj1 (@traverse_leaves_node test_host test_node1 Hr)).
Defined.

(** the default record of a reachable node is the source of a record that
    is up to date from the start: [attach] stores it and nothing else changes *)
Lemma attach_reachable `{Host} (n : SimpleSkyNode) (view : N) (lightNum : Z) :
  reachable n -> view <> 0%N ->
  exists light, _light (_defaultPerViewData n) = Some light /\
    date_state (attach_entry n lightNum light) = current_date_state n /\
    attach view lightNum n
    = Some (with_perViewData (<[view := attach_entry n lightNum light]> (_perViewData n)) n).
Proof.
  intros Hr Hv. destruct (reachable_wf_synced n Hr) as [Hwf Hsy].
  destruct (reachable_invariants n Hr) as (_ & [Hds Hmp] & _).
  pose proof Hwf as (_ & [light Hl] & [u Hu] & [sx Hsx] & [mx Hmx] & Hst & H0 & Hall).
  set (d' := attach_entry n lightNum light).
  assert (Hcur : date_state d' = current_date_state n).
  { unfold d', attach_entry, date_state. unfold date_state, default_date_state in Hds.
    rewrite Hl, Hu, Hsx, Hmx, Hst in Hds. destruct light. cbn in Hds.
    unfold current_date_state in *. cbn. rewrite Hu.
    injection Hds as E1 E2 E3 E4 E5 E6 E7 E8. congruence. }
  pose proof (attach_inter_wf n view lightNum light Hwf Hv) as W2.
  fold d' in W2.
  assert (Hsy2 : synced (with_perViewData (<[view := d']> (_perViewData n)) n)).
  { intros k d Hk. cbn in Hk. destruct (decide (k = view)) as [->|Hne].
    - rewrite lookup_insert_eq in Hk. injection Hk as <-. exact Hcur.
    - rewrite lookup_insert_ne in Hk by congruence. exact (Hsy k d Hk). }
  assert (Hse2 : settled (with_perViewData (<[view := d']> (_perViewData n)) n))
    by (split; assumption).
  exists light. split; [exact Hl|]. split; [exact Hcur|].
  rewrite (attach_eq n view lightNum light Hv Hl). fold d'.
  now apply onSetDateTime_fix.
Qed.

(** X12: attaching a view stores one record under the view and changes
    nothing else in the node.  The record holds a copy of the default light
    with the given light number, the light position and uniform of the default
    record, a sun, moon and star transform with the matrices of the default
    record, the shared subgraph as only child and the mask of the sun, moon and
    star flag, and a cull container of the three transforms, the atmosphere
    and the traverse node; it holds the date state of the node's date/time.  A
    view that was not registered makes the registry one larger. *)
Theorem attach_view `{Host} (n : SimpleSkyNode) (view : N) (lightNum : Z) :
  reachable n -> view <> 0%N ->
  exists n' d' light,
    _light (_defaultPerViewData n) = Some light /\
    attach view lightNum n = Some n' /\
    n' = with_perViewData (<[view := d']> (_perViewData n)) n /\
    (let dflt := _defaultPerViewData n in
     _light d' = Some (setLightNum lightNum light) /\
     _lightPos d' = _lightPos dflt /\ _lightPosUniform d' = _lightPosUniform dflt /\
     _sunXform d'
     = Some (mkMatrixTransform (sun_translate (_sunDistance n) (_lightPos dflt))
               (mask_of (getSunVisible n)) [n_sun]) /\
     _moonXform d'
     = Some (mkMatrixTransform (_moonMatrix dflt) (mask_of (getMoonVisible n)) [n_moon]) /\
     _starsXform d'
     = Some (mkMatrixTransform (_starsMatrix dflt) (mask_of (getStarsVisible n)) [n_stars]) /\
     _cullContainer d'
     = Some (mkGroup [c_sunXform; c_moonXform; c_starsXform; c_node n_atmosphere;
                      c_node n_traverse] true) /\
     _sunMatrix d' = sun_translate (_sunDistance n) (_lightPos dflt) /\
     _moonMatrix d' = _moonMatrix dflt /\ _starsMatrix d' = _starsMatrix dflt /\
     _date d' = _date dflt) /\
    date_state d' = current_date_state n /\
    (_perViewData n !! view = None ->
     size (_perViewData n') = S (size (_perViewData n))).
Proof.
  intros Hr Hv. destruct (reachable_wf_synced n Hr) as [Hwf _].
  pose proof Hwf as (_ & _ & [u Hu] & _).
  destruct (attach_reachable n view lightNum Hr Hv) as (light & Hl & Hcur & Heq).
  exists (with_perViewData (<[view := attach_entry n lightNum light]> (_perViewData n)) n),
    (attach_entry n lightNum light), light.
  split; [exact Hl|]. split; [exact Heq|]. split; [reflexivity|]. split.
  { unfold attach_entry. cbn. rewrite Hu. destruct light. repeat split; reflexivity. }
  split; [exact Hcur|].
  intros Hnone. cbn. now apply map_size_insert_None.
Qed.

(** view 2 attached to the test node that holds view 1 *)
Lemma attach_view_witness :
  reachable (H:=test_host) test_node1 /\
  exists n' d', attach (H:=test_host) 2 1 test_node1 = Some n' /\
                n' = with_perViewData (<[2%N := d']> (_perViewData test_node1)) test_node1.
Proof.
  destruct test_run as (_ & _ & Hr & _).
  split; [exact Hr|].
  assert (Hv : 2%N <> 0%N) by discriminate.
  destruct (@attach_view test_host test_node1 2%N 1 Hr Hv)
    as (n' & d' & light & _ & Hn' & He & _).
  exists n', d'. split; [exact Hn'|exact He].
Defined.

(** X13: the sun switch stores the flag and sets the mask of the flag on
    the sun transform of the default record and of every registered record;
    the moon switch does the same with the moon transforms.  Nothing else in
    the node changes: every record keeps all its other members, the registry
    keeps its views. *)
Theorem sun_moon_switches `{Host} (n : SimpleSkyNode) (value : bool) :
  reachable n ->
  (exists n' x,
     _sunXform (_defaultPerViewData n) = Some x /\
     setSunVisible value n = Some n' /\
     n' = with_perViewData (_perViewData n')
            (with_defaultPerViewData
               (with_sunXform (Some (setNodeMask (mask_of value) x)) (_defaultPerViewData n))
               (with_base (with_sunVisible value (base n)) n)) /\
     forall k,
       match _perViewData n !! k with
       | Some d => exists y, _sunXform d = Some y /\
                     _perViewData n' !! k
                     = Some (with_sunXform (Some (setNodeMask (mask_of value) y)) d)
       | None => _perViewData n' !! k = None
       end) /\
  (exists n' x,
     _moonXform (_defaultPerViewData n) = Some x /\
     setMoonVisible value n = Some n' /\
     n' = with_perViewData (_perViewData n')
            (with_defaultPerViewData
               (with_moonXform (Some (setNodeMask (mask_of value) x)) (_defaultPerViewData n))
               (with_base (with_moonVisible value (base n)) n)) /\
     forall k,
       match _perViewData n !! k with
       | Some d => exists y, _moonXform d = Some y /\
                     _perViewData n' !! k
                     = Some (with_moonXform (Some (setNodeMask (mask_of value) y)) d)
       | None => _perViewData n' !! k = None
       end).
Proof.
  intros Hr. destruct (reachable_wf_synced n Hr) as [Hwf _].
  pose proof Hwf as (_ & _ & _ & _ & _ & _ & _ & Hall). split.
  - destruct (setSunVisible_eq n value Hwf) as (x & Hx & Heq).
    eexists _, x. split; [exact Hx|]. split; [exact Heq|]. split; [reflexivity|].
    intros k. cbn [_perViewData with_perViewData]. rewrite lookup_fmap.
    destruct (_perViewData n !! k) as [d|] eqn:Hk; [|reflexivity].
    destruct (Hall k d Hk) as (_ & _ & _ & [y Hy] & _).
    exists y. split; [exact Hy|]. cbn. unfold mask_sun. rewrite Hy. reflexivity.
  - destruct (setMoonVisible_eq n value Hwf) as (x & Hx & Heq).
    eexists _, x. split; [exact Hx|]. split; [exact Heq|]. split; [reflexivity|].
    intros k. cbn [_perViewData with_perViewData]. rewrite lookup_fmap.
    destruct (_perViewData n !! k) as [d|] eqn:Hk; [|reflexivity].
    destruct (Hall k d Hk) as (_ & _ & _ & _ & [y Hy] & _).
    exists y. split; [exact Hy|]. cbn. unfold mask_moon. rewrite Hy. reflexivity.
Qed.

(** the sun switched off in the test node with view 1 attached *)
Lemma sun_moon_switches_witness :
  reachable (H:=test_host) test_node1 /\
  exists n', setSunVisible false test_node1 = Some n' /\
             (sun_mask <$> _perViewData n' !! 1%N) = Some (Some 0).
Proof.
  destruct test_run as (_ & _ & Hr & d & Hd & _).
  split; [exact Hr|].
  destruct (@sun_moon_switches test_host test_node1 false Hr)
    as ((n' & x & _ & Hn' & _ & Hall) & _).
  exists n'. split; [exact Hn'|].
  specialize (Hall 1%N). rewrite Hd in Hall. destruct Hall as (y & _ & ->). reflexivity.
Defined.

(** X14: in every reachable state the sun mask and the moon mask of each
    registered record are the masks of the sun flag and of the moon flag. *)
Theorem masks_follow_flags `{Host} (n : SimpleSkyNode) :
  reachable n ->
  map_Forall (fun _ d => sun_mask d = Some (mask_of (getSunVisible n)) /\
                         moon_mask d = Some (mask_of (getMoonVisible n)))
    (_perViewData n).
Proof. intros Hr. exact (proj2 (proj2 (reachable_invariants n Hr))). Qed.

(** the masks of view 1 in the test node *)
Lemma masks_follow_flags_witness :
  reachable (H:=test_host) test_node1 /\
  map_Forall (fun _ d => sun_mask d = Some (mask_of (getSunVisible test_node1)) /\
                         moon_mask d = Some (mask_of (getMoonVisible test_node1)))
    (_perViewData test_node1).
Proof.
  destruct test_run as (_ & _ & Hr & _).
  split; [exact Hr|]. exact (@masks_follow_flags test_host test_node1 Hr).
Defined.

(** ** The node after construction *)


(** X16: the moon texture.  When the image of the moon cannot be read,
    construction switches the moon off: the moon flag is false and the moon
    transform of the default record has mask 0, so that the moon transform of
    every view attached afterwards has mask 0 as well.  When the image is
    read, the moon flag stays as constructed.  The sun and star flags stay as
    constructed in both cases, and the sun and moon transform of the default
    record keep the full mask whatever the flags are. *)
Theorem initialize_moon_texture `{Host} (w : World) (em : EllipsoidModel) (b : SkyNode)
    (o : option string) :
  exists n,
    initialize w (Some em) (construct b o) = Some n /\
    let image := readImageFile w "moon_1024x512.jpg" in
    getMoonVisible n = (if image then _moonVisible b else false) /\
    moon_mask (_defaultPerViewData n) = Some (if image then 4294967295 else 0) /\
    getSunVisible n = _sunVisible b /\ getStarsVisible n = _starsVisible b /\
    sun_mask (_defaultPerViewData n) = Some 4294967295 /\
    (image = false ->
     forall view lightNum, view <> 0%N ->
       exists n' d', attach view lightNum n = Some n' /\
                     _perViewData n' !! view = Some d' /\ moon_mask d' = Some 0).
Proof.
  exists (initial_node w em b o).
  pose proof (initialize_eq w em b o) as Hi.
  split; [exact Hi|].
  split; [reflexivity|]. split; [cbn; now destruct (readImageFile w _)|].
  split; [reflexivity|]. split; [reflexivity|]. split; [reflexivity|].
  intros Himg view lightNum Hv.
  assert (Hr : reachable (initial_node w em b o)) by (eapply reach_initialize; exact Hi).
  destruct (attach_reachable (initial_node w em b o) view lightNum Hr Hv)
    as (light & _ & _ & Hn').
  eexists _, _. split; [exact Hn'|]. split.
  - cbn [_perViewData with_perViewData]. apply lookup_insert_eq.
  - unfold moon_mask, attach_entry, getMoonVisible. cbn. rewrite Himg. reflexivity.
Qed.

(** X17: the default record of a constructed node.  The light is light 0
    with ambient colour (0.2, 0.2, 0.2, 2), diffuse colour (1, 1, 1, 1) and
    specular colour (0, 0, 0, 1); the light position set first, (0, 1, 0), has
    given way to the direction of the sun at the node's date/time, which the
    light, the light direction uniform and the sun transform all follow.  The
    record holds the star matrix and the date of the node, a moon transform at
    the moon's position, and neither a star transform nor a cull container.
    No view is registered and automatic ambience is off. *)
Theorem initialize_default_record `{Host} (w : World) (em : EllipsoidModel) (b : SkyNode)
    (o : option string) :
  exists n,
    initialize w (Some em) (construct b o) = Some n /\
    let dflt := _defaultPerViewData n in
    let dt := _dateTime b in
    let sun := Vec3_of_Vec3d (Vec3d_normalize (getSunPositionECEF (_ephemeris b) dt)) in
    let moonPos := getMoonPositionECEF (_ephemeris b) dt in
    let moonMatrix := Matrixd_translate (dx moonPos) (dy moonPos) (dz moonPos) in
    _light dflt
    = Some (mkLight 0 (mkVec4 (v3x sun) (v3y sun) (v3z sun) (F32.of_int 0))
              (mkVec4 (F32.lit 2 10) (F32.lit 2 10) (F32.lit 2 10) (F32.of_int 2))
              (mkVec4 (F32.of_int 1) (F32.of_int 1) (F32.of_int 1) (F32.of_int 1))
              (mkVec4 (F32.of_int 0) (F32.of_int 0) (F32.of_int 0) (F32.of_int 1))) /\
    _lightPos dflt = sun /\
    _lightPosUniform dflt = Some (Vec3_div sun (Vec3_length sun)) /\
    _sunXform dflt
    = Some (mkMatrixTransform
              (Matrixd_translate (F64.of_float (F32.mul (_sunDistance n) (v3x sun)))
                 (F64.of_float (F32.mul (_sunDistance n) (v3y sun)))
                 (F64.of_float (F32.mul (_sunDistance n) (v3z sun))))
              4294967295 [n_sun_billboard]) /\
    (exists mask, _moonXform dflt = Some (mkMatrixTransform moonMatrix mask [n_moon_geode])) /\
    _moonMatrix dflt = moonMatrix /\ _moonPosition n = moonPos /\
    _starsMatrix dflt
    = Matrixd_rotate (F64.opp (rot_z dt)) (F64.of_int 0) (F64.of_int 0) (F64.of_int 1) /\
    _date dflt = dt /\ getDateTime n = dt /\
    _starsXform dflt = None /\ _cullContainer dflt = None /\
    _perViewData n = ∅ /\ _autoAmbience n = false /\
    _sunDistance n = F32.mul (F32.of_double (getRadiusPolar em)) (F32.of_int 12000).
Proof.
  exists (initial_node w em b o). split; [apply initialize_eq|].
  cbv zeta. cbn [initial_node _defaultPerViewData _light _lightPos _lightPosUniform _sunXform
                 _moonXform _moonMatrix _moonPosition _starsMatrix _date _starsXform
                 _cullContainer _perViewData _autoAmbience _sunDistance].
  repeat (split; [reflexivity|]).
  split; [eexists; reflexivity|].
  repeat (split; [reflexivity|]). reflexivity.
Qed.

(** X18: the shared subgraphs of a constructed node.  The atmosphere is the
    ellipsoid mesh of the ellipsoid of the spatial reference at the outer
    radius, 1.025 times the polar radius, without texture coordinates; the sun
    is the disc of 8000 times the polar radius; the moon is the ellipsoid mesh
    of the ellipsoid with radii 1738140 and 1735970 at its own equatorial
    radius, with texture coordinates. *)
Theorem initialize_subgraphs `{Host} (w : World) (em : EllipsoidModel) (b : SkyNode)
    (o : option string) :
  exists n,
    initialize w (Some em) (construct b o) = Some n /\
    let Ri := F32.of_double (getRadiusPolar em) in
    let moon_em := mkEllipsoid (F64.of_int 1738140) (F64.of_int 1735970) in
    _ellipsoidModel n = Some em /\
    _innerRadius n = Ri /\ _outerRadius n = F32.mul Ri (F32.lit 1025 1000) /\
    _atmosphere n = Some (s_makeEllipsoidGeometry em (F64.of_float (_outerRadius n)) false) /\
    _sun n
    = Some (s_makeDiscGeometry
              (F64.of_float (F32.mul (F32.mul Ri (F32.of_int 100)) (F32.of_int 80)))) /\
    _moon n = Some (s_makeEllipsoidGeometry moon_em (F64.of_int 1738140) true) /\
    is_Some (_stars n).
Proof.
  exists (initial_node w em b o). split; [apply initialize_eq|].
  cbv zeta. cbn [initial_node _ellipsoidModel _innerRadius _outerRadius _atmosphere _sun _moon
                 _stars].
  repeat (split; [reflexivity|]). eauto.
Qed.

(** ** Sun and moon position of one view *)

(** X19: a sun or moon position given for a view that is not registered is
    dropped: the node stays as it is, but for the moon position member, which
    is stored in any case.  Given for a registered view, the position changes
    the record of that view and no other; given for the null view, it reaches
    the default record and every registered record.  The position by latitude
    and longitude does nothing on a node without ellipsoid. *)
Theorem position_of_view `{Host} `{EllipsoidHost} (n : SimpleSkyNode) (view : N)
    (pos : Vec3) (moonPos : Vec3d) (lat long : F64.t) :
  view <> 0%N ->
  (_perViewData n !! view = None ->
   setSunPosition pos view n = n /\
   setMoonPosition moonPos view n = with_moonPosition moonPos n /\
   setSunPosition_latlong lat long view n = n) /\
  (forall d, _perViewData n !! view = Some d ->
     let n1 := setSunPosition pos view n in
     let n2 := setMoonPosition moonPos view n in
     _perViewData n1 !! view = Some (setSunPosition_data (_sunDistance n) pos d) /\
     _lightPos (setSunPosition_data (_sunDistance n) pos d) = pos /\
     _perViewData n2 !! view = Some (setMoonPosition_data moonPos d) /\
     _defaultPerViewData n1 = _defaultPerViewData n /\
     _defaultPerViewData n2 = _defaultPerViewData n /\
     forall k, k <> view ->
       _perViewData n1 !! k = _perViewData n !! k /\
       _perViewData n2 !! k = _perViewData n !! k) /\
  (let n0 := setSunPosition pos 0 n in
   _lightPos (_defaultPerViewData n0) = pos /\
   map_Forall (fun _ d => _lightPos d = pos) (_perViewData n0) /\
   dom (_perViewData n0) = dom (_perViewData n)) /\
  (_ellipsoidModel n = None -> setSunPosition_latlong lat long view n = n).
Proof.
  intros Hv. assert (Hb : (view =? 0)%N = false) by now apply N.eqb_neq.
  assert (Hlp : forall sd d, _lightPos (setSunPosition_data sd pos d) = pos).
  { intros sd d. destruct d as [[l|] [u|] lp c [sx|] mx stx sm mm stm dt]; reflexivity. }
  split; [|split; [|split]].
  - intros Hk. unfold setSunPosition_latlong, setSunPosition, setMoonPosition.
    rewrite Hb. cbn [_perViewData with_moonPosition]. rewrite Hk.
    repeat split; try reflexivity. now destruct (_ellipsoidModel n).
  - intros d Hk. cbv zeta. unfold setSunPosition, setMoonPosition.
    rewrite Hb. cbn [_perViewData with_moonPosition]. rewrite Hk.
    cbn [_perViewData _defaultPerViewData with_perViewData with_moonPosition].
    rewrite !lookup_insert_eq.
    split; [reflexivity|]. split; [apply Hlp|]. split; [reflexivity|].
    split; [reflexivity|]. split; [reflexivity|].
    intros k Hne. rewrite !lookup_insert_ne by congruence. split; reflexivity.
  - cbv zeta. unfold setSunPosition. cbn [N.eqb].
    cbn [_perViewData _defaultPerViewData with_perViewData with_defaultPerViewData _sunDistance].
    split; [apply Hlp|]. split.
    + intros k d Hk. rewrite lookup_fmap in Hk.
      destruct (_perViewData n !! k) as [d0|]; [|discriminate].
      injection Hk as <-. apply Hlp.
    + apply dom_fmap_L.
  - intros He. unfold setSunPosition_latlong. now rewrite He.
Qed.

(** a sun position for view 2 in a node that holds view 1 alone *)
Lemma position_of_view_witness :
  let n := with_perViewData {[ 1%N := test_entry ]} (construct (H:=test_host) test_base None) in
  setSunPosition (H:=test_host) (mkVec3 (F32.of_int 0) (F32.of_int 0) (F32.of_int 1)) 2 n = n.
Proof.
  intros n.
  assert (Hv : 2%N <> 0%N) by discriminate.
  destruct (@position_of_view test_host test_ellipsoid_host n 2%N
              (mkVec3 (F32.of_int 0) (F32.of_int 0) (F32.of_int 1))
              (mkVec3d (F64.of_int 0) (F64.of_int 0) (F64.of_int 0))
              (F64.of_int 0) (F64.of_int 0) Hv) as (Hnone & _).
  apply Hnone. reflexivity.
Defined.

(** ** How attachments compose, what the records share *)

(** X20: attaching is idempotent, the last attachment of a view wins, and
    attachments of different views commute. *)
Theorem attach_composes `{Host} (n : SimpleSkyNode) (v1 v2 : N) (l1 l2 : Z) :
  reachable n -> v1 <> 0%N -> v2 <> 0%N ->
  (forall n1, attach v1 l1 n = Some n1 -> attach v1 l1 n1 = Some n1) /\
  attach v1 l1 n ≫= attach v1 l2 = attach v1 l2 n /\
  (v1 <> v2 -> attach v1 l1 n ≫= attach v2 l2 = attach v2 l2 n ≫= attach v1 l1).
Proof.
  intros Hr H1 H2.
  assert (Hstep : forall (m : SimpleSkyNode) v l va la, reachable m -> v <> 0%N -> va <> 0%N ->
            exists light, _light (_defaultPerViewData m) = Some light /\
              attach v l m
              = Some (with_perViewData (<[v := attach_entry m l light]> (_perViewData m)) m) /\
              attach va la (with_perViewData (<[v := attach_entry m l light]> (_perViewData m)) m)
              = Some (with_perViewData
                        (<[va := attach_entry m la light]>
                           (<[v := attach_entry m l light]> (_perViewData m))) m)).
  { intros m v l va la Hm Hv Hva.
    destruct (attach_reachable m v l Hm Hv) as (light & Hl & _ & Heq).
    exists light. split; [exact Hl|]. split; [exact Heq|].
    assert (Hm' : reachable (with_perViewData (<[v := attach_entry m l light]> (_perViewData m)) m))
      by (eapply reach_attach; eassumption).
    destruct (attach_reachable _ va la Hm' Hva) as (light' & Hl' & _ & Heq').
    cbn [_defaultPerViewData with_perViewData] in Hl'. rewrite Hl in Hl'. injection Hl' as <-.
    rewrite Heq'. destruct m. reflexivity. }
  split; [|split].
  - intros n1 Hn1. destruct (Hstep n v1 l1 v1 l1 Hr H1 H1) as (light & _ & Ha & Hb).
    rewrite Ha in Hn1. injection Hn1 as <-. rewrite Hb, insert_insert_eq. reflexivity.
  - destruct (Hstep n v1 l1 v1 l2 Hr H1 H1) as (light & Hl & Ha & Hb).
    rewrite Ha. cbn [mbind option_bind]. rewrite Hb, insert_insert_eq.
    destruct (attach_reachable n v1 l2 Hr H1) as (light' & Hl' & _ & ->).
    rewrite Hl in Hl'. injection Hl' as <-. reflexivity.
  - intros Hne. destruct (Hstep n v1 l1 v2 l2 Hr H1 H2) as (light & Hl & Ha & Hb).
    destruct (Hstep n v2 l2 v1 l1 Hr H2 H1) as (light' & Hl' & Ha' & Hb').
    rewrite Hl in Hl'. injection Hl' as <-.
    rewrite Ha, Ha'. cbn [mbind option_bind]. rewrite Hb, Hb'.
    now rewrite insert_insert_ne by congruence.
Qed.

(** view 1 attached a second time to the test node *)
Lemma attach_composes_witness :
  reachable (H:=test_host) test_node1 /\
  attach (H:=test_host) 1 0 test_node1 = Some test_node1.
Proof.
  destruct test_run as (_ & Ha & Hr & _).
  split; [exact Hr|].
  assert (Hv : 1%N <> 0%N) by discriminate.
  assert (Hr0 : reachable (H:=test_host) test_node0)
    by (eapply reach_initialize; exact (proj1 test_run)).
  exact (proj1 (@attach_composes test_host test_node0 1%N 1%N 0 0 Hr0 Hv Hv) test_node1 Ha).
Defined.

(** X21: the views share one sky.  In every reachable state each
    registered record holds the date/time of the node and the same light
    position, light direction uniform, sun transform, moon matrix and star
    matrix as the default record; its light sits at the light position with
    w = 0, its moon and star transform carry its moon and star matrix. *)
Theorem records_agree `{Host} (n : SimpleSkyNode) :
  reachable n ->
  let dflt := _defaultPerViewData n in
  _date dflt = getDateTime n /\
  map_Forall (fun _ d =>
    _date d = getDateTime n /\
    _lightPos d = _lightPos dflt /\
    _lightPosUniform d = _lightPosUniform dflt /\
    position <$> _light d = position <$> _light dflt /\
    position <$> _light d = Some (Vec4_of_Vec3 (_lightPos d) (F32.of_int 0)) /\
    matrix <$> _sunXform d = matrix <$> _sunXform dflt /\
    _moonMatrix d = _moonMatrix dflt /\ matrix <$> _moonXform d = Some (_moonMatrix d) /\
    _starsMatrix d = _starsMatrix dflt /\ matrix <$> _starsXform d = Some (_starsMatrix d))
    (_perViewData n).
Proof.
  intros Hr dflt. destruct (reachable_wf_synced n Hr) as [_ Hsy].
  destruct (reachable_invariants n Hr) as (_ & [Hds _] & _).
  unfold date_state, default_date_state, current_date_state in Hds. cbn in Hds.
  injection Hds as E1 E2 E3 E4 E5 E6 E7 E8 E9. fold dflt in E1, E2, E3, E4, E5, E6, E7, E8, E9.
  split; [exact E1|]. intros k d Hk. specialize (Hsy k d Hk).
  unfold date_state, current_date_state in Hsy. cbn in Hsy.
  injection Hsy as F1 F2 F3 F4 F5 F6 F7 F8 F9.
  rewrite F1, F2, F3, F4, F5, F6, F7, F8, F9, E2, E3, E4, E5, E6, E8.
  repeat split; reflexivity.
Qed.

(** the date of the default record in the test node with view 1 attached *)
Lemma records_agree_witness :
  reachable (H:=test_host) test_node1 /\
  _date (_defaultPerViewData test_node1) = getDateTime test_node1.
Proof.
  destruct test_run as (_ & _ & Hr & _).
  split; [exact Hr|]. exact (proj1 (@records_agree test_host test_node1 Hr)).
Defined.
